(** * astromatic_wrapper.api: command building, process running, result
      normalisation

    A shallow embedding of [src/astromatic_wrapper/api.py] (class
    [Astromatic] with [build_cmd], [_run_cmd], [run], [run_frames] and
    [get_version]) and the properties of its outcome records.

    Python objects that the code mutates and shares (the [config]
    dictionaries) live in a heap of dictionaries addressed by locations;
    files live in a map from paths to contents; child processes and the
    VOTable reader are external and enter as an environment of oracles.
    Exceptions are values of [exn]; a raising computation keeps the state
    changes it made before the raise.

    The interpreter is Python 3 on a POSIX system: the lines read from the
    pipe of a child are [bytes], which never mix with [str]; a file opened
    in text mode is read with universal newlines and is taken to hold
    text; dictionaries keep their keys in insertion order. *)

From Stdlib Require Import ZArith Ascii String List Bool Lia.
From stdpp Require Import base option gmap strings pretty.

Local Open Scope Z_scope.

(** ** Python [str] operations used by the module *)

Module PyStr.

(** [c.lower()] on one character: ASCII capitals move 32 places up. *)
Definition lower_char (c : ascii) : ascii :=
  let n := N_of_ascii c in
  if ((65 <=? n) && (n <=? 90))%N then ascii_of_N (n + 32) else c.

(** [c.upper()] on one character. *)
Definition upper_char (c : ascii) : ascii :=
  let n := N_of_ascii c in
  if ((97 <=? n) && (n <=? 122))%N then ascii_of_N (n - 32) else c.

Fixpoint map_chars (f : ascii -> ascii) (s : string) : string :=
  match s with
  | EmptyString => EmptyString
  | String c t => String (f c) (map_chars f t)
  end.

(** [s.lower()] and [s.upper()]. *)
Definition lower : string -> string := map_chars lower_char.
Definition upper : string -> string := map_chars upper_char.

(** [s.startswith(p)]. *)
Fixpoint startswith (p s : string) : bool :=
  match p, s with
  | EmptyString, _ => true
  | String a p', String b s' => if ascii_dec a b then startswith p' s' else false
  | String _ _, EmptyString => false
  end.

(** [needle in hay] for two strings. *)
Fixpoint contains (needle hay : string) : bool :=
  startswith needle hay
  || match hay with
     | EmptyString => false
     | String _ t => contains needle t
     end.

(** [s[-1]]: the last character, [None] for the empty string (where
    Python raises [IndexError]). *)
Fixpoint last_char (s : string) : option ascii :=
  match s with
  | EmptyString => None
  | String c EmptyString => Some c
  | String _ t => last_char t
  end.

(** [sep.join(l)]. *)
Fixpoint join (sep : string) (l : list string) : string :=
  match l with
  | [] => ""
  | [x] => x
  | x :: rest => x +:+ sep +:+ join sep rest
  end.

(** [s.replace(old, new)]: every non-overlapping occurrence of [old],
    scanning from the left.  [skip] counts the characters of a match
    that are still to be dropped.  For the empty [old] Python inserts
    [new] before every character and at the end. *)
Fixpoint replace_go (old new s : string) (skip : nat) : string :=
  match s with
  | EmptyString => EmptyString
  | String c t =>
      match skip with
      | S k => replace_go old new t k
      | O =>
          if startswith old s
          then new +:+ replace_go old new t (String.length old - 1)
          else String c (replace_go old new t O)
      end
  end.

Fixpoint intersperse (new s : string) : string :=
  match s with
  | EmptyString => new
  | String c t => new +:+ String c (intersperse new t)
  end.

Definition replace (old new s : string) : string :=
  match old with
  | EmptyString => intersperse new s
  | _ => replace_go old new s O
  end.

(** [os.path.join(a, b)] of posixpath for a relative or absolute [b]. *)
Definition path_join (a b : string) : string :=
  if startswith "/" b then b
  else match last_char a with
       | None => b
       | Some c => if ascii_dec c "/" then a +:+ b else a +:+ "/" +:+ b
       end.

(** What a file opened in text mode gives for its content (universal
    newlines): [CR LF] and a lone [CR] are read as [LF]. *)
Fixpoint universal_newlines (s : string) : string :=
  match s with
  | EmptyString => EmptyString
  | String c t =>
      if ascii_dec c "013"
      then String "010"
                  match t with
                  | String d t' =>
                      if ascii_dec d "010" then universal_newlines t'
                      else universal_newlines t
                  | EmptyString => EmptyString
                  end
      else String c (universal_newlines t)
  end.

(** [f.readlines()] on text: the content cut after every newline. *)
Fixpoint readlines_go (cur : string) (s : string) : list string :=
  match s with
  | EmptyString => match cur with EmptyString => [] | _ => [String.rev cur] end
  | String c t =>
      if ascii_dec c "010"
      then String.rev (String c cur) :: readlines_go EmptyString t
      else readlines_go (String c cur) t
  end.
Definition readlines : string -> list string := readlines_go EmptyString.

(** [s.split()]: the words between runs of white space. *)
Definition split : string -> list string := String.words.

(** [str(n)] for an integer. *)
Definition str (n : Z) : string := pretty n.

End PyStr.

(** The newline [\n] as a string. *)
Definition nl : string := String "010"%char EmptyString.

(** ** Data model *)

(** The module-level table [codes]: tool identity to default executable. *)
Definition codes : list (string * string) :=
  [("PSFEx", "psfex"); ("SCAMP", "scamp"); ("SExtractor", "sex"); ("SWarp", "swarp")].

(** [codes[name]], [None] when [name not in codes]. *)
Fixpoint codes_lookup_in (tbl : list (string * string)) (name : string) : option string :=
  match tbl with
  | [] => None
  | (k, v) :: rest => if String.eqb k name then Some v else codes_lookup_in rest name
  end.
Definition codes_lookup : string -> option string := codes_lookup_in codes.

(** Exceptions.  [AstromaticError] is the module's own class (the
    configuration and execution errors of the wrapper); the others are the
    interpreter's and the libraries'. *)
Inductive exn : Type :=
| AstromaticError (msg : string)
| TypeError
| IndexError
| KeyError (key : string)
| IOError (path : string)
| OSError
| VOTableError
| UnboundLocalError
| ValueError
| AttributeError.

(** Values stored in a configuration mapping. *)
Inductive pyval : Type :=
| VStr (s : string)
| VBool (b : bool)
| VList (l : list string).

(** Python truth value of a configuration value. *)
Definition truthy (v : pyval) : bool :=
  match v with
  | VStr EmptyString => false
  | VStr _ => true
  | VBool b => b
  | VList [] => false
  | VList _ => true
  end.

(** [v == 'Y'] and the like: equality of a value with a string. *)
Definition eq_str (v : pyval) (s : string) : bool :=
  match v with
  | VStr t => String.eqb t s
  | _ => false
  end.

(** A dictionary keeps its keys in insertion order. *)
Abbreviation dict := (list (string * pyval)).

Fixpoint dict_get (d : dict) (k : string) : option pyval :=
  match d with
  | [] => None
  | (k', v) :: rest => if String.eqb k' k then Some v else dict_get rest k
  end.

(** [k in d]. *)
Definition dict_in (k : string) (d : dict) : bool :=
  match dict_get d k with Some _ => true | None => false end.

(** [d[k] = v]: an existing key keeps its place, a new key goes last. *)
Fixpoint dict_set (d : dict) (k : string) (v : pyval) : dict :=
  match d with
  | [] => [(k, v)]
  | (k', v') :: rest =>
      if String.eqb k' k then (k', v) :: rest else (k', v') :: dict_set rest k v
  end.

(** Locations of dictionary objects. *)
Abbreviation loc := positive.

(** The one dictionary object created for the default [config={}] of
    [Astromatic.__init__] when the class is defined. *)
Definition default_config : loc := 1%positive.

(** Cells and rows of a warnings table.  A masked cell is [None] before
    [filled(0)]. *)
Inductive cell : Type :=
| CStr (s : string)
| CInt (n : Z).

Record Row : Type := mkRow {
  cells : list cell;
  frame_tag : option Z
}.

Record Table : Type := mkTable {
  rows : list Row;
  meta_filename : option string
}.

(** What the VOTable reader hands back for a document: the parameters of
    [resources[0].resources[0]] ([None] when that path does not exist) and
    the tables in the order of the document, each with its identifier
    and its possibly masked cells. *)
Record VOTable : Type := mkVOTable {
  vo_params : option (list (string * string));
  vo_tables : list (string * list (list (option cell)))
}.

(** What a child process does: the lines of its combined output as the
    pipe gives them ([bytes] objects, here their characters), its return
    code as [subprocess] reports it, and the files it leaves behind. *)
Record proc_result : Type := mkProc {
  p_lines : list string;
  p_returncode : Z;
  p_files : gmap string string
}.

(** The environment: everything outside the module. *)
Record env : Type := mkEnv {
  (** whether a shell can be started at all *)
  shell_ok : bool;
  (** the behaviour of a shell command on a file system *)
  run_process : string -> gmap string string -> proc_result;
  (** whether a path can be opened for writing *)
  can_write : string -> bool;
  (** [astropy.io.votable.parse] on a file content; the flag is [true]
      for [invalid='mask', pedantic=False]; [None] is a parse failure *)
  votable_parse : bool -> string -> option VOTable
}.

(** The state the module reads and writes: the dictionary objects, the
    files, the commands handed to [subprocess] so far, the messages of
    [warnings.warn] and the records of [logger.info].  The record that
    [build_cmd] hands to [logger.debug] is not kept. *)
Record world : Type := mkWorld {
  heap : gmap loc dict;
  files : gmap string string;
  spawned : list string;
  warned : list string;
  logged : list string
}.

(** The state when the module has been imported: only the default
    [config] dictionary exists. *)
Definition initial_world (fs : gmap string string) : world :=
  {| heap := {[ default_config := [] ]}; files := fs;
     spawned := []; warned := []; logged := [] |}.

Inductive status : Type := success | error.

(** The outcome record, the dict [result].  Each field but [status] may
    be absent; [warnings] can be present with the value [None]. *)
Record result : Type := mkResult {
  r_status : status;
  r_error_msg : option string;
  r_output : option (list string);
  r_warnings : option (option Table)
}.

(** An instance: [vars(self)].  [cmd] and [params] are the attributes
    that [__init__] sets from its extra keyword arguments; [None] means
    the attribute does not exist. *)
Record Astromatic : Type := mkAstromatic {
  code : string;
  temp_path : option string;
  config : loc;
  config_file : option string;
  store_output : bool;
  cmd : option string;
  params : option (list string)
}.

(** The keyword arguments of [build_cmd]: the outer [option] says
    whether the key is in [kwargs]. *)
Record kwargs : Type := mkKwargs {
  kw_code : option string;
  kw_temp_path : option (option string);
  kw_config : option loc;
  kw_config_file : option (option string);
  kw_store_output : option bool;
  kw_cmd : option string;
  kw_params : option (list string)
}.

Definition no_kwargs : kwargs :=
  {| kw_code := None; kw_temp_path := None; kw_config := None;
     kw_config_file := None; kw_store_output := None; kw_cmd := None;
     kw_params := None |}.

(** [filenames]: a single name or a list. *)
Inductive fnames : Type :=
| One (f : string)
| Many (l : list string).

(** ** The monad of state and exceptions *)

Inductive res (A : Type) : Type :=
| Ok (a : A)
| Raise (e : exn).
Arguments Ok {A} a.
Arguments Raise {A} e.

Definition M (A : Type) : Type := world -> res A * world.

Definition ret {A} (a : A) : M A := fun w => (Ok a, w).
Definition raise {A} (e : exn) : M A := fun w => (Raise e, w).
Definition bind {A B} (m : M A) (f : A -> M B) : M B :=
  fun w => match m w with
           | (Ok a, w') => f a w'
           | (Raise e, w') => (Raise e, w')
           end.

Declare Scope py_scope.
Delimit Scope py_scope with py.
Notation "x <- c1 ;; c2" := (bind c1 (fun x => c2))
  (at level 100, c1 at next level, right associativity) : py_scope.
Notation "c1 ;;; c2" := (bind c1 (fun _ => c2))
  (at level 100, right associativity) : py_scope.
Local Open Scope py_scope.

Definition modify (f : world -> world) : M unit := fun w => (Ok tt, f w).

(** [when b m]: a conditional statement without [else]. *)
Definition when (b : bool) (m : M unit) : M unit := if b then m else ret tt.

(** [for x in l: body x]. *)
Fixpoint for_each {A} (l : list A) (body : A -> M unit) : M unit :=
  match l with
  | [] => ret tt
  | x :: rest => body x ;;; for_each rest body
  end.

(** ** Primitive effects *)

(** [warnings.warn(msg)]. *)
Definition warn (msg : string) : M unit :=
  modify (fun w => {| heap := heap w; files := files w; spawned := spawned w;
                      warned := warned w ++ [msg]; logged := logged w |}).

(** [logger.info(msg)]. *)
Definition log (msg : string) : M unit :=
  modify (fun w => {| heap := heap w; files := files w; spawned := spawned w;
                      warned := warned w; logged := logged w ++ [msg] |}).

Definition set_heap (h : gmap loc dict) (w : world) : world :=
  {| heap := h; files := files w; spawned := spawned w;
     warned := warned w; logged := logged w |}.

Definition set_files (fs : gmap string string) (w : world) : world :=
  {| heap := heap w; files := fs; spawned := spawned w;
     warned := warned w; logged := logged w |}.

(** The dictionary object behind a reference. *)
Definition heap_get (l : loc) : M dict :=
  fun w => match heap w !! l with
           | Some d => (Ok d, w)
           | None => (Raise TypeError, w)
           end.

(** [d[k] = v] on the dictionary object at [l]: every holder of the
    reference sees the new entry. *)
Definition heap_setitem (l : loc) (k : string) (v : pyval) : M unit :=
  d <- heap_get l ;;
  modify (fun w => set_heap (<[ l := dict_set d k v ]> (heap w)) w).

(** [kwargs[key]] for a key that may be absent. *)
Definition getitem {A} (key : string) (o : option A) : M A :=
  match o with
  | Some a => ret a
  | None => raise (KeyError key)
  end.

(** A value used where a [str] is needed. *)
Definition as_str (v : pyval) : M string :=
  match v with
  | VStr s => ret s
  | _ => raise TypeError
  end.

Section WithEnv.

Variable E : env.

(** [open(path, 'w')]: the file is created or truncated. *)
Definition open_w (path : string) : M unit :=
  if can_write E path
  then modify (fun w => set_files (<[ path := EmptyString ]> (files w)) w)
  else raise (IOError path).

(** [f.write(s)] on a file opened by [open_w]. *)
Definition write (path s : string) : M unit :=
  modify (fun w => set_files
                     (<[ path := from_option id EmptyString (files w !! path) +:+ s ]> (files w)) w).

(** [open(path, 'r').read()]. *)
Definition read_file (path : string) : M string :=
  fun w => match files w !! path with
           | Some c => (Ok c, w)
           | None => (Raise (IOError path), w)
           end.

(** [open(path, 'r')] followed by reading: the text of the file, with
    universal newlines. *)
Definition read_text (path : string) : M string :=
  content <- read_file path ;; ret (PyStr.universal_newlines content).

(** The command handed to [subprocess] is recorded; the child then runs
    to completion on the current files. *)
Definition spawn (this_cmd : string) : M proc_result :=
  fun w =>
    let w1 := {| heap := heap w; files := files w; spawned := spawned w ++ [this_cmd];
                 warned := warned w; logged := logged w |} in
    if shell_ok E
    then let p := run_process E this_cmd (files w) in (Ok p, set_files (p_files p) w1)
    else (Raise OSError, w1).

(** [subprocess.Popen(cmd, shell=True, stdout=PIPE, stderr=STDOUT)]
    followed by [p.stdout.readlines()]. *)
Definition popen_readlines (this_cmd : string) : M (list string) :=
  p <- spawn this_cmd ;; ret (p_lines p).

(** [subprocess.call(cmd, shell=True)]. *)
Definition call (this_cmd : string) : M Z :=
  p <- spawn this_cmd ;; ret (p_returncode p).

(** [parse(path)] and [parse(path, invalid='mask', pedantic=False)]. *)
Definition parse (lenient : bool) (path : string) : M VOTable :=
  content <- read_file path ;;
  match votable_parse E lenient content with
  | Some v => ret v
  | None => raise VOTableError
  end.

(** ** [Astromatic.__init__] *)

Definition init (code : string) (temp_path : option string) (config : option loc)
    (config_file : option string) (store_output : bool)
    (cmd : option string) (params : option (list string)) : M Astromatic :=
  when (negb (bool_decide (is_Some (codes_lookup code))))
       (warn "'{0} not in Astromatic codes, you will need to specify a 'cmd' to run") ;;;
  ret {| code := code; temp_path := temp_path;
         config := from_option id default_config config;
         config_file := config_file; store_output := store_output;
         cmd := cmd; params := params |}.

(** ** [Astromatic.build_cmd] *)

(** The loop over [vars(self)]: every attribute missing from [kwargs] is
    copied into it. *)
Definition update_kwargs (self : Astromatic) (kw : kwargs) : kwargs :=
  {| kw_code := Some (from_option id (code self) (kw_code kw));
     kw_temp_path := Some (from_option id (temp_path self) (kw_temp_path kw));
     kw_config := Some (from_option id (config self) (kw_config kw));
     kw_config_file := Some (from_option id (config_file self) (kw_config_file kw));
     kw_store_output := Some (from_option id (store_output self) (kw_store_output kw));
     kw_cmd := match kw_cmd kw with Some c => Some c | None => cmd self end;
     kw_params := match kw_params kw with Some p => Some p | None => params self end |}.

(** The token of one configuration value. *)
Definition flag_value (v : pyval) : M string :=
  match v with
  | VBool true => ret "Y"
  | VBool false => ret "N"
  | VStr s => ret s
  | VList _ => raise TypeError
  end.

(** The loop [for param in kwargs['config']]. *)
Fixpoint add_flags (d : dict) (cmd : string) : M string :=
  match d with
  | [] => ret cmd
  | (param, v) :: rest =>
      val <- flag_value v ;;
      add_flags rest (cmd +:+ " -" +:+ param +:+ " " +:+ val)
  end.

(** [if cmd[-1]!=' ': cmd += ' ']; [None] where [cmd[-1]] is out of
    range. *)
Definition pad (cmd : string) : option string :=
  match PyStr.last_char cmd with
  | None => None
  | Some c => Some (if ascii_dec c " " then cmd else cmd +:+ " ")
  end.

Definition pad_cmd (cmd : string) : M string :=
  match pad cmd with
  | None => raise IndexError
  | Some c => ret c
  end.

(** [kwargs['cmd']] if there is one, else [codes[code]]. *)
Definition resolve_cmd (kw : kwargs) (code : string) : option string :=
  match kw_cmd kw with
  | None => codes_lookup code
  | Some c => Some c
  end.

Definition no_temp_path_msg : string :=
  "You must either supply a 'PARAMETERS_NAME' in 'config' or a 'temp_path' to store the temporary parameters file".

Definition no_params_msg : string :=
  "To run SExtractor yo must either supply a 'params' list of parameters or a config keyword 'PARAMETERS_NAME' that points to a parameters file".

Definition no_cmd_msg : string :=
  "You must either supply a valid astromatic 'code' name or a 'cmd' to run".

(** The SExtractor block of [build_cmd]: the parameter file. *)
Definition sextractor_params (kw : kwargs) : M unit :=
  cfg <- getitem "config" (kw_config kw) ;;
  match kw_params kw with
  | Some ps =>
      d <- heap_get cfg ;;
      when (dict_in "PARAMETERS_NAME" d)
           (warn "Multiple parameter files specified, using 'params'") ;;;
      match kw_temp_path kw with
      | None => raise (AstromaticError no_temp_path_msg)
      | Some tp =>
          dir <- match tp with Some s => ret s | None => raise TypeError end ;;
          let param_name := PyStr.path_join dir "sex.param" in
          open_w param_name ;;;
          for_each ps (fun p => write param_name (p +:+ nl)) ;;;
          heap_setitem cfg "PARAMETERS_NAME" (VStr param_name)
      end
  | None =>
      d <- heap_get cfg ;;
      if dict_in "PARAMETERS_NAME" d then ret tt
      else raise (AstromaticError no_params_msg)
  end.

(** The command up to the per-key flags: executable, file names and the
    optional configuration file. *)
Definition cmd_prefix (cmd : string) (filenames : list string)
    (config_file : option string) : string :=
  let cmd := cmd +:+ PyStr.join " " filenames in
  match config_file with
  | Some f => cmd +:+ " -c " +:+ f
  | None => cmd
  end.

(** [build_cmd]: the keyword arguments completed from the instance, the
    SExtractor block, the executable, the file names, the configuration
    file and the flags.  The [logger.debug] record of the keyword
    arguments is not kept in the state. *)
Definition build_cmd (self : Astromatic) (filenames : fnames) (kw : kwargs)
  : M (string * kwargs) :=
  let filenames := match filenames with One f => [f] | Many l => l end in
  let kw := update_kwargs self kw in
  code <- getitem "code" (kw_code kw) ;;
  when (String.eqb code "SExtractor") (sextractor_params kw) ;;;
  cmd <- match resolve_cmd kw code with
         | None => raise (AstromaticError no_cmd_msg)
         | Some c => ret c
         end ;;
  cmd <- pad_cmd cmd ;;
  config_file <- getitem "config_file" (kw_config_file kw) ;;
  let cmd := cmd_prefix cmd filenames config_file in
  cfg <- getitem "config" (kw_config kw) ;;
  d <- heap_get cfg ;;
  cmd <- add_flags d cmd ;;
  ret (cmd, kw).

(** ** [Astromatic._run_cmd] *)

Definition fresh_result : result :=
  {| r_status := success; r_error_msg := None; r_output := None; r_warnings := None |}.

Definition set_status (s : status) (r : result) : result :=
  {| r_status := s; r_error_msg := r_error_msg r;
     r_output := r_output r; r_warnings := r_warnings r |}.

Definition set_error_msg (m : string) (r : result) : result :=
  {| r_status := r_status r; r_error_msg := Some m;
     r_output := r_output r; r_warnings := r_warnings r |}.

Definition set_output (o : list string) (r : result) : result :=
  {| r_status := r_status r; r_error_msg := r_error_msg r;
     r_output := Some o; r_warnings := r_warnings r |}.

Definition set_warnings (t : option Table) (r : result) : result :=
  {| r_status := r_status r; r_error_msg := r_error_msg r;
     r_output := r_output r; r_warnings := Some t |}.

(** [needle in hay] for a [str] needle and a [bytes] hay: the
    interpreter refuses the mix, whatever the two hold. *)
Definition str_in_bytes (needle hay : string) : M bool := raise TypeError.

(** The loop over the captured lines with the test
    ['error' in line.lower()], left at the first line that passes it. *)
Fixpoint scan_output (output : list string) (r : result) : M result :=
  match output with
  | [] => ret r
  | line :: rest =>
      found <- str_in_bytes "error" (PyStr.lower line) ;;
      if found
      then ret (set_error_msg line (set_status error r))
      else scan_output rest r
  end.

(** The loop over the report's parameters: every [Error_Msg] overwrites
    the message. *)
Fixpoint scan_params (ps : list (string * string)) (r : result) : result :=
  match ps with
  | [] => r
  | (name, value) :: rest =>
      scan_params rest (if String.eqb name "Error_Msg" then set_error_msg value r else r)
  end.

(** The first half of [_run_cmd]: the child process and the status. *)
Definition execute (this_cmd : string) (store_output : bool) (xml_name : option pyval)
  : M result :=
  let r := fresh_result in
  log ("cmd:" +:+ nl +:+ this_cmd +:+ nl) ;;;
  if store_output then
    output <- popen_readlines this_cmd ;;
    scan_output output (set_output output r)
  else
    st <- call this_cmd ;;
    if 0 <? st then
      let r := set_status error r in
      match xml_name with
      | Some x =>
          path <- as_str x ;;
          votable <- parse false path ;;
          ps <- match vo_params votable with
                | Some ps => ret ps
                | None => raise IndexError
                end ;;
          ret (scan_params ps r)
      | None => ret r
      end
    else ret r.

(** The lines SExtractor's report keeps: a line naming a [<fits] stream
    goes, but the closing marker it may carry stays. *)
Fixpoint strip_fits (all_lines : list string) : list string :=
  match all_lines with
  | [] => []
  | line :: rest =>
      if negb (PyStr.contains "<fits" (PyStr.lower line)) then line :: strip_fits rest
      else if PyStr.contains "</DATA>" (PyStr.upper line)
           then ("</DATA>" +:+ nl) :: strip_fits rest
           else strip_fits rest
  end.

(** The table that the identifiers of a document map [id] to: of two
    tables with the same identifier the later one. *)
Fixpoint id_mapping (ts : list (string * list (list (option cell)))) (id : string)
  : option (list (list (option cell))) :=
  match ts with
  | [] => None
  | (i, t) :: rest =>
      match id_mapping rest id with
      | Some t' => Some t'
      | None => if String.eqb i id then Some t else None
      end
  end.

(** [Table.read(votable, table_id=..., format='votable')]: the only
    table of a document with one table, whatever its identifier; the
    table with the identifier in a document with several; [None] where
    the reader raises [ValueError]. *)
Definition table_by_id (ts : list (string * list (list (option cell)))) (id : string)
  : option (list (list (option cell))) :=
  match ts with
  | [] => None
  | [(_, t)] => Some t
  | _ => id_mapping ts id
  end.

(** [table.filled(0)]. *)
Definition filled (t : list (list (option cell))) : list Row :=
  map (fun r => {| cells := map (from_option id (CInt 0)) r; frame_tag := None |}) t.

(** The report of one frame: [xml_name.replace('.xml', '-<frame>.xml')]. *)
Definition report_path (path : string) (frame : option string) : string :=
  match frame with
  | Some f => PyStr.replace ".xml" ("-" +:+ f +:+ ".xml") path
  | None => path
  end.

(** The second half of [_run_cmd]: the warnings of the XML report. *)
Definition log_warnings (self : Astromatic) (xml_name : option pyval)
    (frame : option string) (r : result) : M result :=
  match xml_name with
  | None => ret r
  | Some x =>
      path <- as_str x ;;
      let path := report_path path frame in
      when (String.eqb (code self) "SExtractor")
           (content <- read_text path ;;
            let all_lines := PyStr.readlines content in
            open_w path ;;;
            for_each (strip_fits all_lines) (fun line => write path line)) ;;;
      votable <- parse true path ;;
      match table_by_id (vo_tables votable) "Warnings" with
      | None => raise ValueError
      | Some t => ret (set_warnings (Some {| rows := filled t; meta_filename := Some path |}) r)
      end
  end.

Definition status_eqb (a b : status) : bool :=
  match a, b with
  | success, success | error, error => true
  | _, _ => false
  end.

(** The last statement of [_run_cmd]: raise or return. *)
Definition raise_if_error (self : Astromatic) (raise_error : bool) (r : result) : M result :=
  if status_eqb (r_status r) error && raise_error then
    let error_msg := "Error in '" +:+ code self +:+ "' execution" in
    raise (AstromaticError (match r_error_msg r with
                            | Some m => error_msg +:+ ": " +:+ m
                            | None => error_msg
                            end))
  else ret r.

Definition _run_cmd (self : Astromatic) (this_cmd : string) (store_output : bool)
    (xml_name : option pyval) (raise_error : bool) (frame : option string) : M result :=
  r <- execute this_cmd store_output xml_name ;;
  r <- log_warnings self xml_name frame r ;;
  raise_if_error self raise_error r.

(** ** [Astromatic.run] *)

Definition run (self : Astromatic) (filenames : fnames) (store_output raise_error : bool)
    (kw : kwargs) : M result :=
  built <- build_cmd self filenames kw ;;
  let '(this_cmd, kw) := built in
  cfg <- getitem "config" (kw_config kw) ;;
  d <- heap_get cfg ;;
  let xml_name :=
    if dict_in "WRITE_XML" d && dict_in "XML_NAME" d
       && from_option (fun v => eq_str v "Y") false (dict_get d "WRITE_XML")
    then dict_get d "XML_NAME" else None in
  _run_cmd self this_cmd store_output xml_name raise_error None.

(** ** [Astromatic.run_frames] *)

Definition no_frames_msg : string :=
  "The code you have specified is not currently supported using individual frames".

(** [warnings['frame'] = frame]: a new column with the frame number in
    every row.  The column is a numpy array; it holds the number itself
    for a frame in the range of [int64], which is where this model of
    the column is used. *)
Definition tag_frame (frame : Z) (t : Table) : Table :=
  {| rows := map (fun r => {| cells := cells r; frame_tag := Some frame |}) (rows t);
     meta_filename := meta_filename t |}.

(** [vstack([a, b])]: the rows of [a] then those of [b]; of two
    different [filename] entries the later one is kept. *)
Definition vstack (a b : Table) : Table :=
  {| rows := rows a ++ rows b;
     meta_filename := match meta_filename b with
                      | Some f => Some f
                      | None => meta_filename a
                      end |}.

(** [new_cmd.replace(img, img+frame_str)] for an optional image. *)
Definition replace_img (img : option pyval) (frame_str new_cmd : string) : M string :=
  match img with
  | Some v => s <- as_str v ;; ret (PyStr.replace s (s +:+ frame_str) new_cmd)
  | None => ret new_cmd
  end.

(** The command of one frame. *)
Definition frame_cmd (this_cmd : string) (filenames : list string)
    (flag_img weight_img xml_name : option pyval) (frame : Z) : M string :=
  let frame_str := "[" +:+ PyStr.str frame +:+ "]" in
  let new_cmd :=
    fold_left (fun c filename => PyStr.replace filename (filename +:+ frame_str) c)
              filenames this_cmd in
  new_cmd <- replace_img flag_img frame_str new_cmd ;;
  new_cmd <- replace_img weight_img frame_str new_cmd ;;
  match xml_name with
  | Some v =>
      x <- as_str v ;;
      ret (PyStr.replace x (PyStr.replace ".xml" ("-" +:+ PyStr.str frame +:+ ".xml") x) new_cmd)
  | None => ret new_cmd
  end.

(** The table of all warnings after one more frame. *)
Definition combine_warnings (frame : Z) (r : result) (all_warnings : option Table)
  : M (option Table) :=
  match r_warnings r with
  | None => ret all_warnings
  | Some None => raise TypeError
  | Some (Some t) =>
      if (0 <? length (rows t))%nat then
        let warnings := tag_frame frame t in
        ret (Some (match all_warnings with
                   | None => warnings
                   | Some a => vstack a warnings
                   end))
      else ret all_warnings
  end.

(** The loop [for frame in frames]. *)
Fixpoint frames_loop (self : Astromatic) (this_cmd : string) (filenames : list string)
    (flag_img weight_img xml_name : option pyval) (raise_error : bool)
    (frames : list Z) (all_warnings : option Table) : M (option Table) :=
  match frames with
  | [] => ret all_warnings
  | frame :: rest =>
      new_cmd <- frame_cmd this_cmd filenames flag_img weight_img xml_name frame ;;
      r <- _run_cmd self new_cmd false xml_name raise_error (Some (PyStr.str frame)) ;;
      all_warnings <- combine_warnings frame r all_warnings ;;
      frames_loop self this_cmd filenames flag_img weight_img xml_name raise_error
                  rest all_warnings
  end.

Definition run_frames (self : Astromatic) (filenames : fnames) (code_arg : option string)
    (frames : list Z) (raise_error : bool) (kw : kwargs) : M result :=
  let code_ := from_option id (code self) code_arg in
  let cfg := from_option id (config self) (kw_config kw) in
  d <- heap_get cfg ;;
  imgs <- (if String.eqb code_ "SExtractor"
           then ret (dict_get d "FLAG_IMAGE", dict_get d "WEIGHT_IMAGE")
           else if negb (String.eqb code_ "SWarp")
                then raise (AstromaticError no_frames_msg)
                else ret (None, None)) ;;
  let '(flag_img, weight_img) := imgs in
  let xml_name :=
    if dict_in "WRITE_XML" d
       && from_option truthy false (dict_get d "WRITE_XML")
       && dict_in "XML_NAME" d
    then dict_get d "XML_NAME" else None in
  built <- build_cmd self filenames
             {| kw_code := Some code_; kw_temp_path := kw_temp_path kw;
                kw_config := Some cfg; kw_config_file := kw_config_file kw;
                kw_store_output := kw_store_output kw; kw_cmd := kw_cmd kw;
                kw_params := kw_params kw |} ;;
  let '(this_cmd, _) := built in
  let names := match filenames with One f => [f] | Many l => l end in
  all_warnings <- frames_loop self this_cmd names flag_img weight_img xml_name
                              raise_error frames None ;;
  ret {| r_status := success; r_error_msg := None; r_output := None;
         r_warnings := Some all_warnings |}.

(** ** [Astromatic.get_version] *)

(** [try: m except: handler]. *)
Definition try_except {A} (m : M A) (handler : M A) : M A :=
  fun w => match m w with
           | (Ok a, w') => (Ok a, w')
           | (Raise _, w') => handler w'
           end.

(** A word of a line, as an object: a [str] or a [bytes]. *)
Inductive pyobj : Type :=
| PStr (s : string)
| PBytes (b : string).

(** [a == b]: a [str] and a [bytes] are never equal. *)
Definition py_eqb (a b : pyobj) : bool :=
  match a, b with
  | PStr x, PStr y => String.eqb x y
  | PBytes x, PBytes y => String.eqb x y
  | _, _ => false
  end.

(** [x in it] for an iterable of objects. *)
Definition py_in (x : pyobj) (it : list pyobj) : bool := existsb (py_eqb x) it.

(** The loop over the lines of the version banner.  The words of a line
    are [bytes], and [map] hands back an iterator: it can be searched
    with [in], but it has no [index].  Leaving the loop without a match
    leaves [version] and [date] unbound. *)
Fixpoint scan_version (lines : list string) : M (string * string) :=
  match lines with
  | [] => raise UnboundLocalError
  | line :: rest =>
      let line_split := map (fun x => PBytes (PyStr.lower x)) (PyStr.split line) in
      if py_in (PStr "version") line_split
      then raise AttributeError
      else scan_version rest
  end.

Definition no_version_cmd_msg : string :=
  "You must either supply a valid astromatic 'code' name or a 'cmd'".

(** The command [get_version] assembles: the resolved executable and
    [-v]. *)
Definition version_cmd (self : Astromatic) (cmd_arg : option string) : M string :=
  cmd <- match cmd_arg with
         | None =>
             match codes_lookup (code self) with
             | None => raise (AstromaticError no_version_cmd_msg)
             | Some c => ret c
             end
         | Some c => ret c
         end ;;
  cmd <- pad_cmd cmd ;;
  ret (cmd +:+ "-v").

Definition get_version (self : Astromatic) (cmd_arg : option string) : M (string * string) :=
  cmd <- version_cmd self cmd_arg ;;
  lines <- try_except (popen_readlines "sex")
             (raise (AstromaticError
                       ("Unable to run '" +:+ cmd +:+
                        "'. Please check that it is installed correctly"))) ;;
  scan_version lines.

End WithEnv.


(** ** Notions of the specification *)

(** The exit code [c] of a child that exits by itself, and the signal
    [s] of a child that is killed, as [subprocess] reports them in
    [returncode]. *)
Definition exited (c : N) : Z := Z.of_N c.
Definition killed (s : positive) : Z := Z.neg s.

(** What the child of [this_cmd] does when started in the world [w]. *)
Definition child (E : env) (this_cmd : string) (w : world) : proc_result :=
  run_process E this_cmd (files w).

(** A token of a command line: no white space inside. *)
Fixpoint no_space (s : string) : bool :=
  match s with
  | EmptyString => true
  | String c t => negb (Ascii.is_space c) && no_space t
  end.

Definition is_token (s : string) : bool :=
  no_space s && negb (String.eqb s "").

(** The token a configuration value is written as, when it has one. *)
Definition token_of (v : pyval) : option string :=
  match v with
  | VBool true => Some "Y"
  | VBool false => Some "N"
  | VStr s => Some s
  | VList _ => None
  end.

(** A value [build_cmd] can write as a flag. *)
Definition flaggable (e : string * pyval) : bool :=
  match token_of (snd e) with Some _ => true | None => false end.

(** The configuration, the code and the parameter file a build works
    with, from its arguments. *)
Definition config_of (self : Astromatic) (kw : kwargs) : loc :=
  from_option id (config self) (kw_config kw).
Definition code_of (self : Astromatic) (kw : kwargs) : string :=
  from_option id (code self) (kw_code kw).
Definition temp_path_of (self : Astromatic) (kw : kwargs) : option string :=
  from_option id (temp_path self) (kw_temp_path kw).
Definition params_of (self : Astromatic) (kw : kwargs) : option (list string) :=
  kw_params (update_kwargs self kw).
(** The parameter file [build_cmd] generates in the directory [dir]. *)
Definition param_file (dir : string) : string := PyStr.path_join dir "sex.param".
Definition names_of (filenames : fnames) : list string :=
  match filenames with One f => [f] | Many l => l end.

(** A pair of tokens as a flag has it. *)
Definition flag_ok (e : string * string) : bool :=
  no_space (fst e) && is_token (snd e).

(** The words of the flags of a list of pairs. *)
Definition flag_words (l : list (string * string)) : list string :=
  flat_map (fun e => [String "-" (fst e); snd e]) l.

(** An entry that survives the trip through a command line. *)
Definition entry_ok (e : string * pyval) : bool :=
  no_space (fst e) && from_option is_token false (token_of (snd e)).

(** The entries as the command line shows them. *)
Definition tokens_of (d : dict) : list (string * string) :=
  omap (fun e => option_map (pair (fst e)) (token_of (snd e))) d.

(** The flags of a whole dictionary, as one string. *)
Fixpoint flags_str (l : list (string * string)) : string :=
  match l with
  | [] => ""
  | (k, v) :: rest => " -" +:+ k +:+ " " +:+ v +:+ flags_str rest
  end.

(** Re-parsing flag tokens, as the specification words it (the module
    has no parser of its own): the words of the flag part, read as
    [-KEY value] pairs. *)
Fixpoint pair_flags (tokens : list string) : option (list (string * string)) :=
  match tokens with
  | [] => Some []
  | String "-" key :: value :: rest => option_map (cons (key, value)) (pair_flags rest)
  | _ => None
  end.

Definition parse_flags (flags : string) : option (list (string * string)) :=
  pair_flags (PyStr.split flags).

(** [s] without its prefix [p]. *)
Fixpoint strip_prefix (p s : string) : option string :=
  match p, s with
  | EmptyString, _ => Some s
  | String a p', String b s' => if ascii_dec a b then strip_prefix p' s' else None
  | String _ _, EmptyString => None
  end.

(** The written lines of a file, put together. *)
Definition concat_lines (l : list string) : string := fold_right String.append "" l.

(** The text of a report as the reader gets it: SExtractor's is
    rewritten first, from its lines as the text mode gives them. *)
Definition report_text (self : Astromatic) (content : string) : string :=
  if String.eqb (code self) "SExtractor"
  then concat_lines (strip_fits (PyStr.readlines (PyStr.universal_newlines content)))
  else content.

(** A mapping with every value replaced by its token. *)
Definition as_tokens (d : dict) : dict :=
  map (fun e => (fst e, VStr (snd e))) (tokens_of d).

(** The part of a built command before the flags, from the arguments of
    the build. *)
Definition built_prefix (self : Astromatic) (filenames : fnames) (kw : kwargs)
  : option string :=
  c ← resolve_cmd (update_kwargs self kw) (code_of self kw);
  c ← pad c;
  Some (cmd_prefix c (names_of filenames)
                   (from_option id (config_file self) (kw_config_file kw))).

(** The configuration a build works with once its SExtractor block is
    done: the given one, with the generated parameter file under
    [PARAMETERS_NAME] when the tool is SExtractor and there is an inline
    list. *)
Definition resolved_config (self : Astromatic) (kw : kwargs) (d : dict) : dict :=
  match String.eqb (code_of self kw) "SExtractor", params_of self kw, temp_path_of self kw with
  | true, Some _, Some dir => dict_set d "PARAMETERS_NAME" (VStr (param_file dir))
  | _, _, _ => d
  end.

(** The mapping read back from a built command, given the prefix the
    command starts with. *)
Definition reparse (prefix cmd : string) : option dict :=
  flags ← strip_prefix prefix cmd;
  l ← parse_flags flags;
  Some (map (fun e => (fst e, VStr (snd e))) l).

(** ** Scenarios *)

(** A child that prints [lines], returns [rc] and touches no file; every
    path is writable; the reader rejects every document. *)
Definition plain_env (lines : list string) (rc : Z) : env :=
  {| shell_ok := true;
     run_process := fun _ fs => {| p_lines := lines; p_returncode := rc; p_files := fs |};
     can_write := fun _ => true;
     votable_parse := fun _ _ => None |}.

(** The world right after import, with one (unreadable) report file. *)
Definition world0 : world := initial_world {[ "log.xml" := "<VOTABLE" ]}.

Definition swarp : Astromatic :=
  {| code := "SWarp"; temp_path := None; config := default_config;
     config_file := None; store_output := false; cmd := None; params := None |}.

(** [Astromatic('SExtractor', params=['X', 'Y'])]: no temp directory. *)
Definition sex_no_temp : Astromatic :=
  {| code := "SExtractor"; temp_path := None; config := default_config;
     config_file := None; store_output := false; cmd := None;
     params := Some ["X"; "Y"] |}.

(** [Astromatic('SExtractor', temp_path='/tmp', params=['X', 'Y'])]. *)
Definition sex_params : Astromatic :=
  {| code := "SExtractor"; temp_path := Some "/tmp"; config := default_config;
     config_file := None; store_output := false; cmd := None;
     params := Some ["X"; "Y"] |}.

(** [Astromatic('SExtractor', temp_path='/tmp')]. *)
Definition sex_plain : Astromatic :=
  {| code := "SExtractor"; temp_path := Some "/tmp"; config := default_config;
     config_file := None; store_output := false; cmd := None; params := None |}.

(** A world whose default configuration already names a parameter file. *)
Definition world_named : world :=
  {| heap := {[ default_config := [("PARAMETERS_NAME", VStr "my.param")] ]};
     files := ∅; spawned := []; warned := []; logged := [] |}.

(** A world whose default configuration holds a value with blanks, and
    one whose default configuration holds two plain entries. *)
Definition world_blank : world :=
  {| heap := {[ default_config := [("A", VStr "x -B y")] ]};
     files := ∅; spawned := []; warned := []; logged := [] |}.

Definition world_split : world :=
  {| heap := {[ default_config := [("A", VStr "x"); ("B", VStr "y")] ]};
     files := ∅; spawned := []; warned := []; logged := [] |}.

(** A world whose default configuration holds two plain entries. *)
Definition world_flags : world :=
  {| heap := {[ default_config := [("WRITE_XML", VStr "N"); ("VERBOSE_TYPE", VStr "QUIET")] ]};
     files := ∅; spawned := []; warned := []; logged := [] |}.

(** ** Further notions *)

(** The message a failed child leaves in its report: the value of the
    last parameter named [Error_Msg]. *)
Fixpoint last_error_msg (ps : list (string * string)) : option string :=
  match ps with
  | [] => None
  | (name, value) :: rest =>
      match last_error_msg rest with
      | Some m => Some m
      | None => if String.eqb name "Error_Msg" then Some value else None
      end
  end.

(** A computation that hands no command to [subprocess]. *)
Definition quiet {A} (m : M A) : Prop :=
  forall w, spawned (snd (m w)) = spawned w.

(** [Astromatic('Eye')]: a tool the table [codes] does not have. *)
Definition eye : Astromatic :=
  {| code := "Eye"; temp_path := None; config := default_config;
     config_file := None; store_output := false; cmd := None; params := None |}.

(** A world whose default configuration holds a list value. *)
Definition world_list : world :=
  {| heap := {[ default_config := [("A", VStr "x"); ("B", VList ["1"; "2"])] ]};
     files := ∅; spawned := []; warned := []; logged := [] |}.

(** A computation that never raises the module's own error. *)
Definition no_astromatic_error {A} (m : M A) : Prop :=
  forall w msg, fst (m w) <> Raise (AstromaticError msg).

(** A line of a report that names a [<fits] stream, in any letter case. *)
Definition names_fits (line : string) : bool :=
  PyStr.contains "<fits" (PyStr.lower line).

(** A reader that accepts every document as one with no parameters and
    the given table of warnings. *)
Definition reading_env (rc : Z) (t : list (list (option cell))) : env :=
  {| shell_ok := true;
     run_process := fun _ fs => {| p_lines := []; p_returncode := rc; p_files := fs |};
     can_write := fun _ => true;
     votable_parse := fun _ _ =>
       Some {| vo_params := Some [("Error_Msg", "first"); ("Other", "x"); ("Error_Msg", "last")];
               vo_tables := [("Warnings", t)] |} |}.

(** A world where no report has been written. *)
Definition world_empty : world := initial_world ∅.

(** A report of SExtractor with a [<FITS] stream between two lines. *)
Definition fits_report : string :=
  "<TABLE>" +:+ nl +:+ "<DATA><FITS extnum=1></DATA>" +:+ nl +:+ "</TABLE>" +:+ nl.

(** A world with that report at [sex.xml]. *)
Definition world_fits : world := initial_world {[ "sex.xml" := fits_report ]}.

(** A report of two plain lines that end in [CR LF], and a world with
    that report at [sex.xml]. *)
Definition crlf : string := String "013" nl.
Definition crlf_report : string := "<TABLE>" +:+ crlf +:+ "</TABLE>" +:+ crlf.
Definition world_crlf_report : world := initial_world {[ "sex.xml" := crlf_report ]}.

(** An instance with the [store_output] attribute replaced. *)
Definition with_store_output (b : bool) (self : Astromatic) : Astromatic :=
  {| code := code self; temp_path := temp_path self; config := config self;
     config_file := config_file self; store_output := b; cmd := cmd self;
     params := params self |}.

(** A world whose default configuration asks for a report with a
    boolean. *)
Definition world_xml_bool : world :=
  {| heap := {[ default_config := [("WRITE_XML", VBool true); ("XML_NAME", VStr "log.xml")] ]};
     files := {[ "log.xml" := "<VOTABLE" ]}; spawned := []; warned := []; logged := [] |}.

(** The keyword arguments [run_frames] hands to [build_cmd]. *)
Definition frames_kwargs (self : Astromatic) (code_arg : option string) (kw : kwargs)
  : kwargs :=
  {| kw_code := Some (from_option id (code self) code_arg);
     kw_temp_path := kw_temp_path kw;
     kw_config := Some (config_of self kw);
     kw_config_file := kw_config_file kw;
     kw_store_output := kw_store_output kw; kw_cmd := kw_cmd kw;
     kw_params := kw_params kw |}.

(** The name [img] followed by the frame, wherever [img] stands in the
    command [c]. *)
Definition put_frame (frame : Z) (img c : string) : string :=
  PyStr.replace img (img +:+ "[" +:+ PyStr.str frame +:+ "]") c.

(** The string a configuration has under a key. *)
Definition str_entry (d : dict) (k : string) : option string :=
  match dict_get d k with
  | Some (VStr s) => Some s
  | _ => None
  end.

(** The command of one frame, written out: the frame after every file
    name, then after the flag image and the weight image, and at last in
    the name of the report. *)
Definition frame_command (this_cmd : string) (names : list string)
    (flag weight xml : option string) (frame : Z) : string :=
  let c := fold_left (fun c name => put_frame frame name c) names this_cmd in
  let c := from_option (fun img => put_frame frame img c) c flag in
  let c := from_option (fun img => put_frame frame img c) c weight in
  from_option (fun x => PyStr.replace x (report_path x (Some (PyStr.str frame))) c) c xml.

(** A frame number that a column of 64-bit integers holds as it is. *)
Definition int64 (n : Z) : Prop := - 2 ^ 63 <= n < 2 ^ 63.

(** A world whose default configuration names a parameter file and a
    flag image. *)
Definition world_flag_image : world :=
  {| heap := {[ default_config := [("PARAMETERS_NAME", VStr "my.param");
                                   ("FLAG_IMAGE", VStr "flag.fits")] ]};
     files := ∅; spawned := []; warned := []; logged := [] |}.

(** A merged table of warnings over the frames [frames]: no table, or a
    table with at least one row, every row tagged with one of the
    frames. *)
Definition tagged_by (frames : list Z) (all_warnings : option Table) : Prop :=
  match all_warnings with
  | None => True
  | Some t =>
      rows t <> []
      /\ Forall (fun row => exists f, In f frames /\ frame_tag row = Some f) (rows t)
  end.

(** A world whose default configuration names a report and says [N]. *)
Definition world_xml_n : world :=
  {| heap := {[ default_config := [("WRITE_XML", VStr "N"); ("XML_NAME", VStr "log.xml")] ]};
     files := ∅; spawned := []; warned := []; logged := [] |}.

(** ** The convenience functions [run_sex], [run_scamp] and [run_psfex] *)

(** The pipeline, as far as the functions look at it. *)
Record Pipeline : Type := mkPipeline {
  paths : gmap string string;
  build_paths : gmap string string
}.

(** The [api_kwargs] dictionaries are objects too: a function called
    without one uses the one dictionary made for its default [{}], and
    what it stores there is found by the next call.  The state of a
    session is the world and these objects. *)
Record session : Type := mkSession {
  base : world;
  kwargs_objs : gmap positive kwargs
}.

(** The default [api_kwargs] objects of [run_sex], [run_scamp] and
    [run_psfex]. *)
Definition sex_api_kwargs : positive := 1%positive.
Definition scamp_api_kwargs : positive := 2%positive.
Definition psfex_api_kwargs : positive := 3%positive.

(** The session right after import. *)
Definition initial_session (fs : gmap string string) : session :=
  {| base := initial_world fs;
     kwargs_objs := {[ sex_api_kwargs := no_kwargs; scamp_api_kwargs := no_kwargs;
                       psfex_api_kwargs := no_kwargs ]} |}.

Definition P (A : Type) : Type := session -> res A * session.

Definition pret {A} (a : A) : P A := fun s => (Ok a, s).
Definition praise {A} (e : exn) : P A := fun s => (Raise e, s).
Definition pbind {A B} (m : P A) (f : A -> P B) : P B :=
  fun s => match m s with
           | (Ok a, s') => f a s'
           | (Raise e, s') => (Raise e, s')
           end.

(** A computation on the world, run in a session. *)
Definition lift {A} (m : M A) : P A :=
  fun s => let (r, w) := m (base s) in (r, {| base := w; kwargs_objs := kwargs_objs s |}).

Declare Scope session_scope.
Delimit Scope session_scope with session.
Notation "x <- c1 ;; c2" := (pbind c1 (fun x => c2))
  (at level 100, c1 at next level, right associativity) : session_scope.
Notation "c1 ;;; c2" := (pbind c1 (fun _ => c2))
  (at level 100, right associativity) : session_scope.

(** The [api_kwargs] object behind a reference, and an assignment to one
    of its keys. *)
Definition kw_get (l : positive) : P kwargs :=
  fun s => match kwargs_objs s !! l with
           | Some ak => (Ok ak, s)
           | None => (Raise TypeError, s)
           end.

Definition kw_set (l : positive) (f : kwargs -> kwargs) : P unit :=
  fun s => match kwargs_objs s !! l with
           | Some ak => (Ok tt, {| base := base s;
                                   kwargs_objs := <[ l := f ak ]> (kwargs_objs s) |})
           | None => (Raise TypeError, s)
           end.

Definition with_code (c : string) (ak : kwargs) : kwargs :=
  {| kw_code := Some c; kw_temp_path := kw_temp_path ak; kw_config := kw_config ak;
     kw_config_file := kw_config_file ak; kw_store_output := kw_store_output ak;
     kw_cmd := kw_cmd ak; kw_params := kw_params ak |}.

Definition with_cmd (c : string) (ak : kwargs) : kwargs :=
  {| kw_code := kw_code ak; kw_temp_path := kw_temp_path ak; kw_config := kw_config ak;
     kw_config_file := kw_config_file ak; kw_store_output := kw_store_output ak;
     kw_cmd := Some c; kw_params := kw_params ak |}.

Definition with_temp_path (t : string) (ak : kwargs) : kwargs :=
  {| kw_code := kw_code ak; kw_temp_path := Some (Some t); kw_config := kw_config ak;
     kw_config_file := kw_config_file ak; kw_store_output := kw_store_output ak;
     kw_cmd := kw_cmd ak; kw_params := kw_params ak |}.

Definition with_config (l : loc) (ak : kwargs) : kwargs :=
  {| kw_code := kw_code ak; kw_temp_path := kw_temp_path ak; kw_config := Some l;
     kw_config_file := kw_config_file ak; kw_store_output := kw_store_output ak;
     kw_cmd := kw_cmd ak; kw_params := kw_params ak |}.

(** [d[key]] for a dictionary of strings. *)
Definition lookup_key (key : string) (d : gmap string string) : P string :=
  match d !! key with
  | Some v => pret v
  | None => praise (KeyError key)
  end.

(** A new, empty dictionary object: the literal [{}]. *)
Definition new_dict : M loc :=
  fun w => let l := fresh (dom (heap w)) in (Ok l, set_heap (<[ l := [] ]> (heap w)) w).

(** [if key not in config: config[key] = v]. *)
Definition config_default (cfg : loc) (key : string) (v : pyval) : P unit :=
  pbind (lift (heap_get cfg))
        (fun d => if dict_in key d then pret tt else lift (heap_setitem cfg key v)).

Section Convenience.

Variable E : env.
Variable pipeline : Pipeline.
Variable step_id : string.

Local Open Scope session_scope.

(** The four defaults every function starts with: the code, the
    executable of the pipeline under [build_key], the temp directory and
    an empty configuration.  The configuration in use is handed on. *)
Definition common_defaults (code_name build_key : string) (api_kwargs : positive) : P loc :=
  ak <- kw_get api_kwargs ;;
  match kw_code ak with
  | Some _ => pret tt
  | None => kw_set api_kwargs (with_code code_name)
  end ;;;
  ak <- kw_get api_kwargs ;;
  match kw_cmd ak, build_paths pipeline !! build_key with
  | None, Some c => kw_set api_kwargs (with_cmd c)
  | _, _ => pret tt
  end ;;;
  ak <- kw_get api_kwargs ;;
  match kw_temp_path ak with
  | Some _ => pret tt
  | None => t <- lookup_key "temp" (paths pipeline) ;; kw_set api_kwargs (with_temp_path t)
  end ;;;
  ak <- kw_get api_kwargs ;;
  match kw_config ak with
  | Some cfg => pret cfg
  | None => cfg <- lift new_dict ;; kw_set api_kwargs (with_config cfg) ;;; pret cfg
  end.

(** The block [if 'log' in pipeline.paths]: the report of the step. *)
Definition xml_defaults (cfg : loc) (suffix : string) : P unit :=
  match paths pipeline !! "log" with
  | Some log_dir =>
      config_default cfg "WRITE_XML" (VStr "Y") ;;;
      config_default cfg "XML_NAME" (VStr (PyStr.path_join log_dir (step_id +:+ suffix)))
  | None => pret tt
  end.

(** The instance made from the keys of [api_kwargs]. *)
Definition construct (api_kwargs : positive) : P Astromatic :=
  ak <- kw_get api_kwargs ;;
  match kw_code ak with
  | None => praise TypeError
  | Some c =>
      lift (init c (from_option id None (kw_temp_path ak)) (kw_config ak)
                 (from_option id None (kw_config_file ak))
                 (from_option id false (kw_store_output ak))
                 (kw_cmd ak) (kw_params ak))
  end.

(** The defaults of [run_sex]. *)
Definition sex_defaults (files_ : gmap string string) (api_kwargs : positive) : P unit :=
  cfg <- common_defaults "SExtractor" "SExtractor" api_kwargs ;;
  d <- lift (heap_get cfg) ;;
  (if dict_in "CATALOG_NAME" d then pret tt
   else image <- lookup_key "image" files_ ;;
        lift (heap_setitem cfg "CATALOG_NAME" (VStr (PyStr.replace ".fits" ".cat" image)))) ;;;
  d <- lift (heap_get cfg) ;;
  match dict_in "FLAG_IMAGE" d, files_ !! "dqmask" with
  | false, Some f => lift (heap_setitem cfg "FLAG_IMAGE" (VStr f))
  | _, _ => pret tt
  end ;;;
  d <- lift (heap_get cfg) ;;
  match dict_in "WEIGHT_IMAGE" d, files_ !! "wtmap" with
  | false, Some f => lift (heap_setitem cfg "WEIGHT_IMAGE" (VStr f))
  | _, _ => pret tt
  end ;;;
  xml_defaults cfg ".sex.log.xml".

Definition run_sex (files_ : gmap string string) (api_kwargs : positive) (frames : list Z)
  : P result :=
  sex_defaults files_ api_kwargs ;;;
  sex <- construct api_kwargs ;;
  image <- lookup_key "image" files_ ;;
  match frames with
  | [] => lift (run E sex (One image) false true no_kwargs)
  | _ => lift (run_frames E sex (One image) (Some "SExtractor") frames false no_kwargs)
  end.

(** The defaults of [run_scamp]. *)
Definition scamp_defaults (api_kwargs : positive) (save_catalog : option string) : P unit :=
  cfg <- common_defaults "SCAMP" "SCAMP" api_kwargs ;;
  match save_catalog with
  | Some p =>
      lift (heap_setitem cfg "SAVE_REFCATALOG" (VStr "Y")) ;;;
      lift (heap_setitem cfg "REFOUT_CATPATH" (VStr p))
  | None => pret tt
  end ;;;
  xml_defaults cfg ".scamp.log.xml".

Definition run_scamp (catalogs : fnames) (api_kwargs : positive)
    (save_catalog : option string) : P result :=
  scamp_defaults api_kwargs save_catalog ;;;
  scamp <- construct api_kwargs ;;
  lift (run E scamp catalogs false true no_kwargs).

(** The defaults of [run_psfex]. *)
Definition psfex_defaults (api_kwargs : positive) : P unit :=
  cfg <- common_defaults "PSFEx" "PSFEx" api_kwargs ;;
  d <- lift (heap_get cfg) ;;
  (if dict_in "PSF_DIR" d then pret tt
   else t <- lookup_key "temp" (paths pipeline) ;;
        lift (heap_setitem cfg "PSF_DIR" (VStr t))) ;;;
  xml_defaults cfg ".psfex.log.xml".

Definition run_psfex (catalogs : fnames) (api_kwargs : positive) : P result :=
  psfex_defaults api_kwargs ;;;
  psfex <- construct api_kwargs ;;
  lift (run E psfex catalogs false true no_kwargs).

End Convenience.

(** A pipeline with a temp and a log directory and its own SExtractor. *)
Definition pipeline1 : Pipeline :=
  {| paths := {[ "temp" := "/tmp"; "log" := "/log" ]};
     build_paths := {[ "SExtractor" := "/opt/sex" ]} |}.

(** A pipeline without directories. *)
Definition pipeline0 : Pipeline := {| paths := ∅; build_paths := ∅ |}.

(** A computation that leaves every dictionary object as it is. *)
Definition heap_fixed {A} (m : M A) : Prop :=
  forall w, heap (snd (m w)) = heap w.

(** A computation that keeps the entry [k: v] of the dictionary at [cfg]. *)
Definition keeps_entry {A} (cfg : loc) (k : string) (v : pyval) (m : M A) : Prop :=
  forall w d,
    heap w !! cfg = Some d -> dict_get d k = Some v ->
    exists d', heap (snd (m w)) !! cfg = Some d' /\ dict_get d' k = Some v.

(** In the session [s] the [api_kwargs] object at [api] has the
    configuration [cfg], and that configuration has the entry [k: v]. *)
Definition has_entry (api : positive) (cfg : loc) (k : string) (v : pyval) (s : session)
  : Prop :=
  (exists ak, kwargs_objs s !! api = Some ak /\ kw_config ak = Some cfg)
  /\ exists d, heap (base s) !! cfg = Some d /\ dict_get d k = Some v.

(** A computation that keeps the state property [I], whether it returns
    or raises, and whose returned value has the property [Q]. *)
Definition ptriple {A} (I : session -> Prop) (m : P A) (Q : A -> Prop) : Prop :=
  forall s, I s -> I (snd (m s)) /\ forall a, fst (m s) = Ok a -> Q a.

(** The files of two images. *)
Definition files_a : gmap string string := {[ "image" := "a.fits" ]}.
Definition files_b : gmap string string := {[ "image" := "b.fits" ]}.

(** A session where the default dictionary of [run_scamp] brings a
    configuration that says not to save the reference catalog. *)
Definition session_scamp : session :=
  {| base := {| heap := {[ default_config := [];
                           5%positive := [("SAVE_REFCATALOG", VStr "N")] ]};
                files := ∅; spawned := []; warned := []; logged := [] |};
     kwargs_objs :=
       {[ scamp_api_kwargs :=
            {| kw_code := None; kw_temp_path := Some (Some "/tmp");
               kw_config := Some 5%positive; kw_config_file := None;
               kw_store_output := None; kw_cmd := None; kw_params := None |} ]} |}.

(** A session where the default dictionary of [run_psfex] brings its own
    temp directory and no configuration. *)
Definition session_psfex : session :=
  {| base := initial_world ∅;
     kwargs_objs :=
       {[ psfex_api_kwargs :=
            {| kw_code := None; kw_temp_path := Some (Some "/tmp");
               kw_config := None; kw_config_file := None;
               kw_store_output := None; kw_cmd := None; kw_params := None |} ]} |}.

(** * Properties *)

Local Open Scope py_scope.

(** ** Reasoning in the monad *)

Lemma bind_Ok {A B} (m : M A) (f : A -> M B) w b w' :
  bind m f w = (Ok b, w') ->
  exists a w1, m w = (Ok a, w1) /\ f a w1 = (Ok b, w').
Proof.
  unfold bind. destruct (m w) as [[a|e] w1]; intros H.
  - exists a, w1. split; [reflexivity | exact H].
  - discriminate H.
Qed.

Lemma bind_eq_Ok {A B} (m : M A) (f : A -> M B) w a w1 :
  m w = (Ok a, w1) -> bind m f w = f a w1.
Proof. intros H. unfold bind. rewrite H. reflexivity. Qed.

Lemma bind_eq_Raise {A B} (m : M A) (f : A -> M B) w e w1 :
  m w = (Raise e, w1) -> bind m f w = (Raise e, w1).
Proof. intros H. unfold bind. rewrite H. reflexivity. Qed.

(** A computation either returns or raises. *)
Lemma res_cases {A} (m : M A) w :
  (exists a w1, m w = (Ok a, w1)) \/ (exists e w1, m w = (Raise e, w1)).
Proof. destruct (m w) as [[a|e] w1]; [left | right]; eauto. Qed.

(** Split a successful sequence into its steps. *)
Tactic Notation "step_ok" hyp(H) "as" ident(a) ident(w1) ident(H1) :=
  apply bind_Ok in H; destruct H as (a & w1 & H1 & H).

(** Unfold the primitive computations. *)
Ltac prim :=
  unfold ret, raise, modify, when, getitem, as_str in *; simpl in *.

(** ** Strings *)

Lemma append_cons (x : ascii) (a b : string) : String x a +:+ b = String x (a +:+ b).
Proof. reflexivity. Qed.

Lemma append_nil_l (a : string) : "" +:+ a = a.
Proof. reflexivity. Qed.

(** Push appends inward. *)
Ltac app_simpl := rewrite ?append_cons, ?append_nil_l in *.

Lemma append_assoc (a b c : string) : (a +:+ b) +:+ c = a +:+ (b +:+ c).
Proof. induction a as [|x a IH]; app_simpl; [reflexivity | now rewrite IH]. Qed.

Lemma append_nil_r (a : string) : a +:+ "" = a.
Proof. induction a as [|x a IH]; app_simpl; [reflexivity | now rewrite IH]. Qed.



(** ** The process runner *)

(** The loop over the captured lines stops at the first line with
    [TypeError]; only for no line at all does it come to its end. *)
Lemma scan_output_eq (output : list string) (r : result) (w : world) :
  scan_output output r w =
  match output with
  | [] => (Ok r, w)
  | _ :: _ => (Raise TypeError, w)
  end.
Proof. destruct output; reflexivity. Qed.

Lemma scan_params_fields (ps : list (string * string)) (r : result) :
  r_status (scan_params ps r) = r_status r
  /\ r_output (scan_params ps r) = r_output r
  /\ r_warnings (scan_params ps r) = r_warnings r.
Proof.
  revert r. induction ps as [|[name value] ps IH]; intros r; simpl; [auto|].
  destruct (IH (if String.eqb name "Error_Msg" then set_error_msg value r else r))
    as (H1 & H2 & H3).
  rewrite H1, H2, H3. destruct (String.eqb name "Error_Msg"); auto.
Qed.

Section Runner.

Variable E : env.

Lemma spawn_Ok this_cmd w p w1 :
  spawn E this_cmd w = (Ok p, w1) ->
  p = child E this_cmd w /\ shell_ok E = true
  /\ spawned w1 = spawned w ++ [this_cmd] /\ heap w1 = heap w.
Proof.
  unfold spawn, child. destruct (shell_ok E); intros H; [|discriminate].
  injection H as <- <-. auto.
Qed.

(** Captured mode: a record comes back only from a child that printed
    nothing. *)
Lemma execute_captured this_cmd xml_name w r w1 :
  execute E this_cmd true xml_name w = (Ok r, w1) ->
  p_lines (child E this_cmd w) = [] /\ r = set_output [] fresh_result.
Proof.
  unfold execute, log, popen_readlines. intros H.
  step_ok H as u wl Hl. prim. injection Hl as <- <-.
  step_ok H as out wp Hp. step_ok Hp as p ws Hs. prim.
  apply spawn_Ok in Hs as (-> & _). simpl in *.
  injection Hp as <- <-. rewrite scan_output_eq in H.
  destruct (p_lines _); [|discriminate H].
  injection H as <- _. auto.
Qed.

(** Captured mode with a shell: the child runs, and the loop over its
    lines decides. *)
Lemma execute_captured_eq this_cmd xml_name w :
  shell_ok E = true ->
  exists w1,
    execute E this_cmd true xml_name w =
    (match p_lines (child E this_cmd w) with
     | [] => Ok (set_output [] fresh_result)
     | _ :: _ => Raise TypeError
     end, w1).
Proof.
  intros Hs. unfold execute, log, popen_readlines, bind, modify, spawn, child.
  simpl. rewrite Hs. simpl. rewrite scan_output_eq.
  destruct (p_lines _); eauto.
Qed.

(** Streamed mode: the status follows the sign of the return code, and
    nothing is captured. *)
Lemma execute_streamed this_cmd xml_name w r w1 :
  execute E this_cmd false xml_name w = (Ok r, w1) ->
  r_status r = (if 0 <? p_returncode (child E this_cmd w) then error else success)
  /\ r_output r = None
  /\ (r_status r = success -> r_error_msg r = None).
Proof.
  unfold execute, log, call. intros H.
  step_ok H as u wl Hl. prim. injection Hl as <- <-.
  step_ok H as st wp Hp. step_ok Hp as p ws Hs. prim.
  apply spawn_Ok in Hs as (-> & _). simpl in *.
  injection Hp as <- <-.
  destruct (0 <? p_returncode _) eqn:Hrc.
  - destruct xml_name as [x|].
    + step_ok H as path w2 H2. step_ok H as vo w3 H3. step_ok H as ps w4 H4.
      injection H as <- _.
      pose proof (scan_params_fields ps (set_status error fresh_result)) as (F1 & F2 & F3).
      rewrite F1, F2. simpl. repeat split. discriminate.
    + injection H as <- _. simpl. repeat split.
  - injection H as <- _. simpl. auto.
Qed.

(** Streamed mode without a report and with a shell: the first half
    always returns. *)
Lemma execute_total this_cmd w :
  shell_ok E = true ->
  exists w1,
    execute E this_cmd false None w =
    (Ok (if 0 <? p_returncode (child E this_cmd w)
         then set_status error fresh_result else fresh_result), w1).
Proof.
  intros Hs. unfold execute, log, call, bind, modify, spawn, child.
  simpl. rewrite Hs. simpl. destruct (0 <? _); eauto.
Qed.

(** The report step leaves status, message and output alone. *)
Lemma log_warnings_fields self xml_name frame r w r' w' :
  log_warnings E self xml_name frame r w = (Ok r', w') ->
  r_status r' = r_status r /\ r_error_msg r' = r_error_msg r
  /\ r_output r' = r_output r.
Proof.
  unfold log_warnings. destruct xml_name as [x|]; intros H.
  - step_ok H as path w1 H1. step_ok H as u w2 H2. step_ok H as vo w3 H3.
    destruct (table_by_id _ _); [|discriminate H].
    injection H as <- _. simpl. auto.
  - injection H as <- _. auto.
Qed.

Lemma raise_if_error_Ok self raise_error r w r' w' :
  raise_if_error self raise_error r w = (Ok r', w') ->
  r' = r /\ w' = w /\ (raise_error = true -> r_status r = success).
Proof.
  unfold raise_if_error.
  destruct (r_status r), raise_error; simpl; intros H;
    try discriminate H; injection H as <- <-; repeat split; auto; discriminate.
Qed.

(** A record that [_run_cmd] returns carries the status, message and
    output that its first half computed. *)
Lemma run_cmd_Ok self this_cmd store_output xml_name raise_error frame w r w' :
  _run_cmd E self this_cmd store_output xml_name raise_error frame w = (Ok r, w') ->
  exists r1 w1,
    execute E this_cmd store_output xml_name w = (Ok r1, w1)
    /\ r_status r = r_status r1 /\ r_error_msg r = r_error_msg r1
    /\ r_output r = r_output r1
    /\ (raise_error = true -> r_status r = success).
Proof.
  unfold _run_cmd. intros H. step_ok H as r1 w1 H1. step_ok H as r2 w2 H2.
  apply raise_if_error_Ok in H as (-> & -> & Hr).
  apply log_warnings_fields in H2 as (F1 & F2 & F3).
  exists r1, w1. repeat split; try congruence. exact Hr.
Qed.

(** Streamed mode without a report and without [raise_error]:
    [_run_cmd] returns what its first half computed. *)
Lemma run_cmd_total self this_cmd frame w :
  shell_ok E = true ->
  exists w1,
    _run_cmd E self this_cmd false None false frame w =
    (Ok (if 0 <? p_returncode (child E this_cmd w)
         then set_status error fresh_result else fresh_result), w1).
Proof.
  intros Hs. destruct (execute_total this_cmd w Hs) as (w1 & H).
  exists w1. unfold _run_cmd. rewrite (bind_eq_Ok _ _ _ _ _ H).
  unfold log_warnings, raise_if_error, bind, ret. simpl.
  now rewrite andb_false_r.
Qed.

End Runner.

(** Whatever the mode, a record with status [success] that [_run_cmd]
    returns has no message. *)
Lemma run_cmd_success_no_msg E self this_cmd store_output xml_name raise_error frame w r w' :
  _run_cmd E self this_cmd store_output xml_name raise_error frame w = (Ok r, w') ->
  r_status r = success -> r_error_msg r = None.
Proof.
  intros H Hs. apply run_cmd_Ok in H as (r1 & w1 & Hx & F1 & F2 & F3 & _).
  rewrite F2. rewrite F1 in Hs. destruct store_output.
  - now apply execute_captured in Hx as (_ & ->).
  - now apply execute_streamed in Hx as (_ & _ & Hm); auto.
Qed.

(** The record [run_frames] returns is always the same but for the
    warnings. *)
Lemma run_frames_Ok E self filenames code_arg frames raise_error kw w r w' :
  run_frames E self filenames code_arg frames raise_error kw w = (Ok r, w') ->
  r_status r = success /\ r_error_msg r = None /\ r_output r = None.
Proof.
  unfold run_frames. intros H.
  step_ok H as d w1 H1. step_ok H as imgs w2 H2. destruct imgs as [flag_img weight_img].
  step_ok H as built w3 H3. destruct built as [this_cmd kw'].
  step_ok H as all_warnings w4 H4.
  injection H as <- _. simpl. auto.
Qed.

(** What [run] returns is what [_run_cmd] returned. *)
Lemma run_Ok E self filenames store_output raise_error kw w r w' :
  run E self filenames store_output raise_error kw w = (Ok r, w') ->
  exists this_cmd xml_name w1,
    _run_cmd E self this_cmd store_output xml_name raise_error None w1 = (Ok r, w').
Proof.
  unfold run. intros H.
  step_ok H as built w1 H1. destruct built as [this_cmd kw'].
  step_ok H as cfg w2 H2. step_ok H as d w3 H3.
  eauto.
Qed.

(** ** Claims on the outcome record *)

(** C4.  Streamed mode ([store_output] false): a returned record has no
    [output] field, and its status is [error] exactly when the return
    code that [subprocess] reports is positive.  For a child that exits
    by itself that is [success] for exit code 0 and [error] for every
    other exit code.  A child that is killed by a signal is reported
    with a negative return code: its record says [success], and with
    [raise_error] nothing is raised. *)
Theorem C4_killed_child_reported_success :
  forall (E : env) (self : Astromatic) (this_cmd : string) (frame : option string)
         (w : world),
    shell_ok E = true ->
    (forall xml_name raise_error r w',
        _run_cmd E self this_cmd false xml_name raise_error frame w = (Ok r, w') ->
        (r_status r = error <-> 0 < p_returncode (child E this_cmd w))
        /\ r_output r = None)
    /\ (forall c : N,
           p_returncode (child E this_cmd w) = exited c ->
           exists w',
             _run_cmd E self this_cmd false None false frame w =
             (Ok {| r_status := if (c =? 0)%N then success else error;
                    r_error_msg := None; r_output := None; r_warnings := None |}, w'))
    /\ (forall (s : positive) (raise_error : bool),
           p_returncode (child E this_cmd w) = killed s ->
           exists w',
             _run_cmd E self this_cmd false None raise_error frame w =
             (Ok {| r_status := success; r_error_msg := None; r_output := None;
                    r_warnings := None |}, w')).
Proof.
  intros E self this_cmd frame w Hs. split; [|split].
  - intros xml_name raise_error r w' H.
    apply run_cmd_Ok in H as (r1 & w1 & Hx & F1 & _ & F3 & _).
    apply execute_streamed in Hx as (Hst & Ho & _).
    rewrite F1, F3, Hst. split; [|exact Ho].
    destruct (0 <? p_returncode (child E this_cmd w)) eqn:Hrc.
    + apply Z.ltb_lt in Hrc. split; auto.
    + apply Z.ltb_ge in Hrc. split; [discriminate | lia].
  - intros c Hc. destruct (run_cmd_total E self this_cmd frame w Hs) as (w' & H).
    exists w'. rewrite H, Hc. unfold exited. destruct c; reflexivity.
  - intros s raise_error Hk.
    destruct (execute_total E this_cmd w Hs) as (w' & H).
    exists w'. unfold _run_cmd. rewrite (bind_eq_Ok _ _ _ _ _ H), Hk.
    unfold killed. simpl. unfold log_warnings, raise_if_error, bind, ret. simpl.
    reflexivity.
Qed.

(** C5.  Captured mode ([store_output] true): the lines read from the
    pipe are [bytes], and the test ['error' in line.lower()] on the
    first of them raises [TypeError].  A captured run whose child prints
    anything returns no record, whatever the lines say and whatever the
    report and [raise_error] are; a record comes back only from a child
    that prints nothing, with status [success] and an empty [output]. *)
Theorem C5_captured_output_raises_TypeError :
  forall (E : env) (self : Astromatic) (this_cmd : string) (xml_name : option pyval)
         (raise_error : bool) (frame : option string) (w : world),
    shell_ok E = true ->
    (p_lines (child E this_cmd w) <> [] ->
     exists w',
       _run_cmd E self this_cmd true xml_name raise_error frame w = (Raise TypeError, w'))
    /\ (forall r w',
           _run_cmd E self this_cmd true xml_name raise_error frame w = (Ok r, w') ->
           p_lines (child E this_cmd w) = []
           /\ r_status r = success /\ r_error_msg r = None /\ r_output r = Some []).
Proof.
  intros E self this_cmd xml_name raise_error frame w Hs. split.
  - intros Hne. destruct (execute_captured_eq E this_cmd xml_name w Hs) as (w' & H).
    exists w'. unfold _run_cmd. apply bind_eq_Raise. rewrite H.
    destruct (p_lines _); [contradiction | reflexivity].
  - intros r w' H. apply run_cmd_Ok in H as (r1 & w1 & Hx & F1 & F2 & F3 & _).
    apply execute_captured in Hx as (Hl & ->).
    rewrite F1, F2, F3. auto.
Qed.

(** C8.  A record with status [success] carries no [error_msg], on every
    path that returns one ([_run_cmd] in either mode, [run], and
    [run_frames]); a record with status [error] may lack it. *)
Theorem C8_success_has_no_error_msg :
  (forall E self this_cmd store_output xml_name raise_error frame w r w',
      _run_cmd E self this_cmd store_output xml_name raise_error frame w = (Ok r, w') ->
      r_status r = success -> r_error_msg r = None)
  /\ (forall E self filenames store_output raise_error kw w r w',
         run E self filenames store_output raise_error kw w = (Ok r, w') ->
         r_status r = success -> r_error_msg r = None)
  /\ (forall E self filenames code_arg frames raise_error kw w r w',
         run_frames E self filenames code_arg frames raise_error kw w = (Ok r, w') ->
         r_status r = success -> r_error_msg r = None)
  /\ (exists r,
         fst (_run_cmd (plain_env [] 1) swarp "swarp img.fits" false None false None world0)
         = Ok r
         /\ r_status r = error /\ r_error_msg r = None).
Proof.
  split; [|split; [|split]].
  - intros. eapply run_cmd_success_no_msg; eassumption.
  - intros E self filenames store_output raise_error kw w r w' H Hs.
    apply run_Ok in H as (this_cmd & xml_name & w1 & H).
    eapply run_cmd_success_no_msg; eassumption.
  - intros E self filenames code_arg frames raise_error kw w r w' H _.
    now apply run_frames_Ok in H.
  - eexists. split; [vm_compute; reflexivity|]. split; reflexivity.
Qed.

(** C1.  [run_frames] on the frames [[1]] with [raise_error] false, where
    the child of the one frame exits with code 1: the run of the frame
    reports [error], the merged record reports [success]. *)
Theorem C1_run_frames_hides_failed_frame :
  fst (_run_cmd (plain_env [] 1) swarp "swarp img.fits[1]" false None false (Some "1") world0)
  = Ok {| r_status := error; r_error_msg := None; r_output := None; r_warnings := None |}
  /\ spawned (snd (run_frames (plain_env [] 1) swarp (One "img.fits") None [1] false
                              no_kwargs world0))
     = ["swarp img.fits[1]"]
  /\ fst (run_frames (plain_env [] 1) swarp (One "img.fits") None [1] false no_kwargs world0)
     = Ok {| r_status := success; r_error_msg := None; r_output := None;
             r_warnings := Some None |}.
Proof. repeat split; vm_compute; reflexivity. Qed.

(** ** The report step *)

Lemma write_lines {A} (f : A -> string) (path : string) (l : list A) (w : world)
    (c : string) :
  files w !! path = Some c ->
  exists fs, for_each l (fun x => write path (f x)) w = (Ok tt, set_files fs w)
             /\ fs !! path = Some (c +:+ concat_lines (map f l)).
Proof.
  revert w c. induction l as [|x l IH]; intros w c Hc; simpl.
  - exists (files w). split; [now destruct w|]. now rewrite append_nil_r.
  - unfold bind at 1. unfold write at 1, modify.
    set (w1 := set_files _ w).
    assert (H1 : files w1 !! path = Some (c +:+ f x)).
    { subst w1. simpl. rewrite Hc. simpl. apply lookup_insert_eq. }
    destruct (IH w1 _ H1) as (fs & Hw & Hf).
    exists fs. split; [rewrite Hw; reflexivity|]. now rewrite Hf, append_assoc.
Qed.

Lemma read_text_eq (path : string) (w : world) (content : string) :
  files w !! path = Some content ->
  read_text path w = (Ok (PyStr.universal_newlines content), w).
Proof. intros H. unfold read_text, bind, read_file, ret. now rewrite H. Qed.

Lemma read_text_missing (path : string) (w : world) :
  files w !! path = None -> read_text path w = (Raise (IOError path), w).
Proof. intros H. unfold read_text, bind, read_file. now rewrite H. Qed.





(** C4 at a child that is killed by signal 11, with [raise_error]. *)
Lemma C4_witness :
  (shell_ok (plain_env [] (-11)) = true
   /\ p_returncode (child (plain_env [] (-11)) "swarp img.fits" world0) = killed 11)
  /\ exists w',
      _run_cmd (plain_env [] (-11)) swarp "swarp img.fits" false None true None world0
      = (Ok {| r_status := success; r_error_msg := None; r_output := None;
               r_warnings := None |}, w').
Proof.
  split; [split; reflexivity|].
  destruct (C4_killed_child_reported_success (plain_env [] (-11)) swarp "swarp img.fits"
              None world0 eq_refl) as (_ & _ & H).
  exact (H 11%positive true eq_refl).
Defined.

(** C5 at a child that prints two lines, the second an error line. *)
Lemma C5_witness :
  (shell_ok (plain_env ["ok"; "Error: bad pixel"] 0) = true
   /\ p_lines (child (plain_env ["ok"; "Error: bad pixel"] 0) "swarp img.fits" world0)
      <> [])
  /\ exists w',
      _run_cmd (plain_env ["ok"; "Error: bad pixel"] 0) swarp "swarp img.fits" true None
               false None world0 = (Raise TypeError, w').
Proof.
  split; [split; [reflexivity | discriminate]|].
  destruct (C5_captured_output_raises_TypeError (plain_env ["ok"; "Error: bad pixel"] 0)
              swarp "swarp img.fits" None false None world0 eq_refl) as (H & _).
  apply H. discriminate.
Defined.

(** ** The command builder *)

(** The loop over the configuration appends the flags of every entry,
    or stops at the first value that is neither a string nor a boolean. *)
Lemma add_flags_eq (d : dict) (cmd : string) (w : world) :
  add_flags d cmd w =
  (if forallb flaggable d then Ok (cmd +:+ flags_str (tokens_of d)) else Raise TypeError, w).
Proof.
  revert cmd. induction d as [|[param v] d IH]; intros cmd; simpl.
  - now rewrite append_nil_r.
  - unfold flaggable at 1. simpl.
    destruct v as [s | [|] | l]; simpl; unfold bind; simpl;
      try reflexivity; rewrite IH; destruct (forallb flaggable d);
      try reflexivity; now rewrite !append_assoc.
Qed.

Section Builder.

Variable E : env.
Variable self : Astromatic.
Variable kw : kwargs.

(** Neither a parameter list nor a parameter file: the block raises and
    the world is as it was. *)
Lemma sextractor_params_neither w d :
  params_of self kw = None -> heap w !! config_of self kw = Some d ->
  dict_in "PARAMETERS_NAME" d = false ->
  sextractor_params E (update_kwargs self kw) w = (Raise (AstromaticError no_params_msg), w).
Proof.
  unfold params_of, sextractor_params, config_of. intros -> Hd Hin. simpl.
  unfold bind, ret, heap_get. simpl. rewrite Hd, Hin. reflexivity.
Qed.

(** A parameter list and no temp directory: the join of [None] with the
    file name raises; no file is touched and no dictionary changed. *)
Lemma sextractor_params_no_temp w d ps :
  params_of self kw = Some ps -> heap w !! config_of self kw = Some d ->
  temp_path_of self kw = None ->
  exists w', sextractor_params E (update_kwargs self kw) w = (Raise TypeError, w')
             /\ files w' = files w /\ heap w' = heap w.
Proof.
  unfold params_of, sextractor_params, temp_path_of, config_of. intros -> Hd Ht. simpl.
  rewrite Ht. unfold bind, ret, heap_get, when. simpl. rewrite Hd.
  destruct (dict_in "PARAMETERS_NAME" d); simpl; eauto.
Qed.

(** A parameter list and a writable temp directory: the file is written,
    the entry is put into the dictionary object, and a warning is given
    if the dictionary named a file already. *)
Lemma sextractor_params_written w d ps dir :
  params_of self kw = Some ps -> heap w !! config_of self kw = Some d ->
  temp_path_of self kw = Some dir -> can_write E (param_file dir) = true ->
  exists fs,
    sextractor_params E (update_kwargs self kw) w =
    (Ok tt,
     {| heap := <[ config_of self kw := dict_set d "PARAMETERS_NAME" (VStr (param_file dir)) ]> (heap w);
        files := fs; spawned := spawned w;
        warned := if dict_in "PARAMETERS_NAME" d
                  then warned w ++ ["Multiple parameter files specified, using 'params'"]
                  else warned w;
        logged := logged w |})
    /\ fs !! param_file dir = Some (concat_lines (map (fun p => p +:+ nl) ps)).
Proof.
  unfold params_of, sextractor_params, temp_path_of, config_of. intros -> Hd Ht Hw. simpl.
  rewrite Ht. fold (param_file dir).
  set (msg := "Multiple parameter files specified, using 'params'").
  set (w0 := {| heap := heap w; files := files w; spawned := spawned w;
                warned := if dict_in "PARAMETERS_NAME" d then warned w ++ [msg]
                          else warned w;
                logged := logged w |}).
  set (w1 := set_files (<[ param_file dir := ""%string ]> (files w0)) w0).
  assert (H1 : files w1 !! param_file dir = Some ""%string)
    by (subst w1; simpl; apply lookup_insert_eq).
  destruct (write_lines (fun p => p +:+ nl) (param_file dir) ps w1 _ H1) as (fs & Hwr & Hf).
  exists fs. split; [|now rewrite append_nil_l in Hf].
  unfold bind at 1. simpl. unfold bind at 1. unfold heap_get at 1. rewrite Hd.
  unfold bind at 1.
  assert (Hwarn : when (dict_in "PARAMETERS_NAME" d) (warn msg) w = (Ok tt, w0)).
  { subst w0. unfold when, warn, modify, ret.
    destruct (dict_in "PARAMETERS_NAME" d); [reflexivity | now destruct w]. }
  rewrite Hwarn. unfold bind at 1. simpl.
  change (PyStr.path_join dir "sex.param") with (param_file dir).
  unfold bind at 1. unfold open_w. rewrite Hw. unfold modify at 1. fold w1.
  unfold bind at 1. rewrite Hwr.
  unfold heap_setitem, bind, heap_get, modify. simpl. rewrite Hd. reflexivity.
Qed.

Variable filenames : fnames.

(** [build_cmd] in one equation: the SExtractor block, then the command
    from the configuration as the block left it. *)
Lemma build_cmd_eq w :
  build_cmd E self filenames kw w =
  match when (String.eqb (code_of self kw) "SExtractor")
             (sextractor_params E (update_kwargs self kw)) w with
  | (Raise e, w1) => (Raise e, w1)
  | (Ok _, w1) =>
      match resolve_cmd (update_kwargs self kw) (code_of self kw) with
      | None => (Raise (AstromaticError no_cmd_msg), w1)
      | Some c =>
          match pad c with
          | None => (Raise IndexError, w1)
          | Some c' =>
              match heap w1 !! config_of self kw with
              | None => (Raise TypeError, w1)
              | Some d =>
                  (if forallb flaggable d
                   then Ok (cmd_prefix c' (names_of filenames)
                                       (from_option id (config_file self) (kw_config_file kw))
                            +:+ flags_str (tokens_of d),
                            update_kwargs self kw)
                   else Raise TypeError, w1)
              end
          end
      end
  end.
Proof.
  unfold build_cmd, code_of, names_of, config_of. simpl.
  unfold bind at 1. simpl. unfold bind at 1.
  destruct (when _ _ w) as [[u|e] w1]; [|reflexivity].
  unfold bind at 1.
  destruct (resolve_cmd _ _) as [c|]; [|reflexivity]. simpl.
  unfold bind at 1. unfold pad_cmd.
  destruct (pad c) as [c'|]; [|reflexivity]. simpl.
  unfold bind at 1. simpl. unfold bind at 1. simpl.
  unfold bind at 1. unfold heap_get.
  destruct (heap w1 !! _) as [d|]; [|reflexivity].
  unfold bind. rewrite add_flags_eq.
  destruct (forallb flaggable d); reflexivity.
Qed.

(** A build that returns: its command is the prefix and the flags of the
    configuration as it stands afterwards. *)
Lemma build_cmd_Ok w cmd kw' w' :
  build_cmd E self filenames kw w = (Ok (cmd, kw'), w') ->
  exists pre d,
    built_prefix self filenames kw = Some pre
    /\ heap w' !! config_of self kw = Some d
    /\ forallb flaggable d = true
    /\ cmd = pre +:+ flags_str (tokens_of d)
    /\ kw' = update_kwargs self kw.
Proof.
  rewrite build_cmd_eq. unfold built_prefix.
  destruct (when _ _ w) as [[u|e] w1]; [|discriminate].
  destruct (resolve_cmd _ _) as [c|] eqn:Hr; [|discriminate].
  destruct (pad c) as [c'|] eqn:Hp; [|discriminate].
  destruct (heap w1 !! config_of self kw) as [d|] eqn:Hd; [|discriminate].
  destruct (forallb flaggable d) eqn:Hf; [|discriminate].
  intros H. injection H as <- <- <-. simpl. rewrite Hp. simpl. eauto 10.
Qed.

End Builder.

Lemma dict_get_set (d : dict) (k : string) (v : pyval) :
  dict_get (dict_set d k v) k = Some v.
Proof.
  induction d as [|[k' v'] d IH]; simpl.
  - now rewrite String.eqb_refl.
  - destruct (String.eqb k' k) eqn:Hk; simpl; rewrite Hk; [reflexivity | exact IH].
Qed.

Lemma dict_set_flaggable (d : dict) (k s : string) :
  forallb flaggable d = true -> forallb flaggable (dict_set d k (VStr s)) = true.
Proof.
  induction d as [|[k' v'] d IH]; simpl; [reflexivity|].
  intros H. apply andb_true_iff in H as (H1 & H2).
  destruct (String.eqb k' k); simpl.
  - now rewrite H2.
  - unfold flaggable at 1. unfold flaggable in H1. simpl in *. rewrite H1. now apply IH.
Qed.


(** C3.  A SExtractor build with an inline [params] list and no temp
    directory ([temp_path] is [None] on the instance and in the call):
    the guard on ['temp_path' not in kwargs] never fires, because the
    attribute is always copied into [kwargs]; the build fails in the
    join of the path with [TypeError], not with the module's error. *)
Theorem C3_no_temp_path_raises_TypeError :
  forall (E : env) (self : Astromatic) (filenames : fnames) (kw : kwargs) (w : world)
         (d : dict) (ps : list string),
    code_of self kw = "SExtractor" ->
    params_of self kw = Some ps ->
    temp_path_of self kw = None ->
    heap w !! config_of self kw = Some d ->
    exists w',
      build_cmd E self filenames kw w = (Raise TypeError, w')
      /\ files w' = files w /\ heap w' = heap w.
Proof.
  intros E self filenames kw w d ps Hc Hp Ht Hd.
  destruct (sextractor_params_no_temp E self kw w d ps Hp Hd Ht) as (w' & Hs & Hf & Hh).
  exists w'. rewrite build_cmd_eq, Hc. simpl. rewrite Hs. auto.
Qed.

(** C3 at [Astromatic('SExtractor', params=['X', 'Y']).build_cmd('img.fits')]. *)
Lemma C3_witness :
  (code_of sex_no_temp no_kwargs = "SExtractor"
   /\ params_of sex_no_temp no_kwargs = Some ["X"; "Y"]
   /\ temp_path_of sex_no_temp no_kwargs = None
   /\ heap world0 !! config_of sex_no_temp no_kwargs = Some [])
  /\ exists w',
      build_cmd (plain_env [] 0) sex_no_temp (One "img.fits") no_kwargs world0
      = (Raise TypeError, w')
      /\ files w' = files world0 /\ heap w' = heap world0.
Proof.
  split; [repeat split|].
  apply (C3_no_temp_path_raises_TypeError (plain_env [] 0) sex_no_temp (One "img.fits")
           no_kwargs world0 [] ["X"; "Y"]); reflexivity.
Defined.

(** C6.  A SExtractor build with neither an inline [params] list nor a
    [PARAMETERS_NAME] entry raises the module's error and leaves the
    world, so also every file, as it was.  With both, a build whose
    command resolves returns: it gives the warning, writes the list to
    the generated file and uses that file as [PARAMETERS_NAME]. *)
Theorem C6_parameter_source :
  forall (E : env) (self : Astromatic) (filenames : fnames) (kw : kwargs) (w : world)
         (d : dict),
    code_of self kw = "SExtractor" ->
    heap w !! config_of self kw = Some d ->
    (params_of self kw = None -> dict_in "PARAMETERS_NAME" d = false ->
     build_cmd E self filenames kw w = (Raise (AstromaticError no_params_msg), w))
    /\ (forall ps dir pre,
           params_of self kw = Some ps -> dict_in "PARAMETERS_NAME" d = true ->
           temp_path_of self kw = Some dir -> can_write E (param_file dir) = true ->
           built_prefix self filenames kw = Some pre ->
           forallb flaggable d = true ->
           let d' := dict_set d "PARAMETERS_NAME" (VStr (param_file dir)) in
           exists w',
             build_cmd E self filenames kw w
             = (Ok (pre +:+ flags_str (tokens_of d'), update_kwargs self kw), w')
             /\ warned w' = warned w ++ ["Multiple parameter files specified, using 'params'"]
             /\ heap w' !! config_of self kw = Some d'
             /\ dict_get d' "PARAMETERS_NAME" = Some (VStr (param_file dir))
             /\ files w' !! param_file dir = Some (concat_lines (map (fun p => p +:+ nl) ps))).
Proof.
  intros E self filenames kw w d Hc Hd. split.
  - intros Hp Hin. rewrite build_cmd_eq, Hc. simpl.
    now rewrite (sextractor_params_neither E self kw w d Hp Hd Hin).
  - intros ps dir pre Hp Hin Ht Hw Hpre Hfl d'.
    destruct (sextractor_params_written E self kw w d ps dir Hp Hd Ht Hw) as (fs & Hs & Hf).
    rewrite Hin in Hs.
    eexists. rewrite build_cmd_eq, Hc. simpl. rewrite Hs.
    unfold built_prefix in Hpre. rewrite Hc in Hpre.
    destruct (resolve_cmd _ _) as [c|]; [|discriminate Hpre]. simpl in Hpre.
    destruct (pad c) as [c'|]; [|discriminate Hpre]. simpl in Hpre.
    injection Hpre as <-.
    subst d'. simpl. rewrite lookup_insert_eq.
    rewrite (dict_set_flaggable d _ _ Hfl).
    repeat split; simpl.
    + apply lookup_insert_eq.
    + apply dict_get_set.
    + exact Hf.
Qed.

(** C6 at a SExtractor build with an empty configuration and no list. *)
Lemma C6_witness :
  (code_of sex_plain no_kwargs = "SExtractor"
   /\ heap world0 !! config_of sex_plain no_kwargs = Some []
   /\ params_of sex_plain no_kwargs = None
   /\ dict_in "PARAMETERS_NAME" [] = false)
  /\ build_cmd (plain_env [] 0) sex_plain (One "img.fits") no_kwargs world0
     = (Raise (AstromaticError no_params_msg), world0).
Proof.
  split; [repeat split|].
  destruct (C6_parameter_source (plain_env [] 0) sex_plain (One "img.fits") no_kwargs
              world0 [] eq_refl eq_refl) as (H & _).
  exact (H eq_refl eq_refl).
Defined.



(** ** Reading the flags back *)

Lemma rev_app_append (acc z : string) :
  String.rev_app acc z = String.rev_app acc "" +:+ z.
Proof.
  revert z. induction acc as [|a acc IH]; intros z; simpl; [reflexivity|].
  rewrite IH, (IH (String a "")), append_assoc. reflexivity.
Qed.

Lemma rev_rev_app (t acc : string) :
  String.rev (String.rev_app t acc) = String.rev acc +:+ t.
Proof.
  unfold String.rev. revert acc. induction t as [|a t IH]; intros acc; simpl.
  - now rewrite append_nil_r.
  - rewrite IH. simpl. rewrite (rev_app_append acc (String a "")), append_assoc.
    reflexivity.
Qed.

(** Inside a token the splitter only collects characters. *)
Lemma words_go_token (t acc rest : string) :
  no_space t = true ->
  String.words_go (Some acc) (t +:+ rest) = String.words_go (Some (String.rev_app t acc)) rest.
Proof.
  revert acc. induction t as [|a t IH]; intros acc H; simpl in *; [reflexivity|].
  apply andb_true_iff in H as (Ha & Ht). apply negb_true_iff in Ha.
  rewrite ?append_cons. simpl. rewrite Ha. simpl. now apply IH.
Qed.

(** At the end of the string or at a blank the collected token is
    given out. *)
Lemma words_go_end (acc s : string) :
  s = ""%string \/ (exists s', s = String " " s') ->
  String.words_go (Some acc) s = String.rev acc :: String.words_go None s.
Proof. intros [-> | (s' & ->)]; reflexivity. Qed.

Lemma flags_str_shape (l : list (string * string)) :
  flags_str l = ""%string \/ (exists s', flags_str l = String " " s').
Proof. destruct l as [|[k v] l]; [left | right]; simpl; eauto. Qed.

(** The words of a flag string are the keys with their dash and the
    values, in order. *)
Lemma words_flags_str (l : list (string * string)) :
  forallb flag_ok l = true ->
  PyStr.split (flags_str l) = flag_words l.
Proof.
  unfold PyStr.split, String.words.
  induction l as [|[k v] l IH]; simpl; [reflexivity|].
  intros H. apply andb_true_iff in H as (Hkv & Hl).
  unfold flag_ok in Hkv. simpl in Hkv.
  apply andb_true_iff in Hkv as (Hk & Hv).
  unfold is_token in Hv. apply andb_true_iff in Hv as (Hv & Hne).
  rewrite ?append_cons, ?append_nil_l. simpl.
  rewrite words_go_token by exact Hk.
  rewrite ?append_cons. rewrite words_go_end by (right; eauto).
  rewrite rev_rev_app. f_equal. simpl.
  destruct v as [|a v]; [discriminate Hne|].
  simpl in Hv. apply andb_true_iff in Hv as (Ha & Hv). apply negb_true_iff in Ha.
  rewrite ?append_cons. simpl. rewrite Ha. simpl.
  rewrite words_go_token by exact Hv.
  rewrite words_go_end by apply flags_str_shape.
  rewrite rev_rev_app. f_equal. now apply IH.
Qed.

Lemma pair_flags_words (l : list (string * string)) :
  pair_flags (flag_words l) = Some l.
Proof.
  induction l as [|[k v] l IH]; [reflexivity|].
  change (flag_words ((k, v) :: l)) with (String "-" k :: v :: flag_words l).
  simpl. now rewrite IH.
Qed.

(** Flags made of tokens are read back as they were written. *)
Lemma parse_flags_str (l : list (string * string)) :
  forallb flag_ok l = true -> parse_flags (flags_str l) = Some l.
Proof.
  intros H. unfold parse_flags. rewrite words_flags_str by exact H.
  apply pair_flags_words.
Qed.

Lemma tokens_of_ok (d : dict) :
  forallb entry_ok d = true -> forallb flag_ok (tokens_of d) = true.
Proof.
  induction d as [|[k v] d IH]; simpl; [reflexivity|].
  intros H. apply andb_true_iff in H as (He & Hd).
  unfold entry_ok in He. simpl in He. apply andb_true_iff in He as (Hk & Hv).
  destruct (token_of v) as [t|]; simpl in *; [|discriminate].
  unfold flag_ok at 1. simpl. rewrite Hk, Hv. now apply IH.
Qed.

Lemma strip_prefix_app (p s : string) : strip_prefix p (p +:+ s) = Some s.
Proof.
  induction p as [|a p IH]; simpl; [reflexivity|].
  destruct (ascii_dec a a); [exact IH | congruence].
Qed.

(** A mapping of strings is its own token form. *)
Lemma as_tokens_strings (d : dict) :
  (forall e, In e d -> exists s, snd e = VStr s) -> as_tokens d = d.
Proof.
  unfold as_tokens. induction d as [|[k v] d IH]; simpl; [reflexivity|].
  intros H. destruct (H (k, v) (or_introl eq_refl)) as (s & Hs). simpl in Hs. subst v.
  simpl. f_equal. apply IH. intros e He. apply H. now right.
Qed.

(** A build without an inline parameter list changes nothing. *)
Lemma build_cmd_pure E self filenames kw w cmd kw' w' :
  build_cmd E self filenames kw w = (Ok (cmd, kw'), w') ->
  params_of self kw = None \/ code_of self kw <> "SExtractor" ->
  w' = w.
Proof.
  rewrite build_cmd_eq. intros H Hor.
  assert (Hblock : forall r w1,
             when (String.eqb (code_of self kw) "SExtractor")
                  (sextractor_params E (update_kwargs self kw)) w = (Ok r, w1) -> w1 = w).
  { intros r w1. unfold when.
    destruct (String.eqb (code_of self kw) "SExtractor") eqn:Hc.
    - destruct Hor as [Hp | Hne]; [|apply String.eqb_eq in Hc; contradiction].
      unfold sextractor_params. unfold params_of in Hp. rewrite Hp. simpl.
      unfold bind, heap_get. simpl.
      destruct (heap w !! _) as [d|]; [|discriminate].
      destruct (dict_in "PARAMETERS_NAME" d); [|discriminate].
      intros Hr. now injection Hr.
    - intros Hr. now injection Hr. }
  destruct (when _ _ w) as [[u|e] w1]; [|discriminate].
  specialize (Hblock u w1 eq_refl). subst w1.
  destruct (resolve_cmd _ _) as [c|]; [|discriminate].
  destruct (pad c) as [c'|]; [|discriminate].
  destruct (heap w !! _) as [d|]; [|discriminate].
  destruct (forallb flaggable d); [|discriminate].
  now injection H.
Qed.

Lemma no_space_app (a b : string) : no_space (a +:+ b) = no_space a && no_space b.
Proof.
  induction a as [|c a IH]; [reflexivity|].
  rewrite append_cons. simpl. now rewrite IH, andb_assoc.
Qed.

Lemma app_not_empty (a b : string) : b <> ""%string -> String.eqb (a +:+ b) "" = false.
Proof.
  intros Hb. destruct a as [|c a]; [|reflexivity].
  rewrite append_nil_l. now apply String.eqb_neq.
Qed.

(** The generated parameter file in a directory without white space is
    one token. *)
Lemma param_file_token (dir : string) : no_space dir = true -> is_token (param_file dir) = true.
Proof.
  intros Hd. unfold is_token, param_file, PyStr.path_join.
  change (PyStr.startswith "/" "sex.param") with false. cbv iota.
  destruct (PyStr.last_char dir) as [c|]; [|reflexivity].
  destruct (ascii_dec c "/").
  - rewrite no_space_app, Hd, app_not_empty by discriminate. reflexivity.
  - rewrite !no_space_app, Hd, app_not_empty; [reflexivity|].
    rewrite append_cons. discriminate.
Qed.

Lemma dict_set_entry_ok (d : dict) (k s : string) :
  no_space k = true -> is_token s = true ->
  forallb entry_ok d = true -> forallb entry_ok (dict_set d k (VStr s)) = true.
Proof.
  intros Hk Hs. induction d as [|[k' v'] d IH]; simpl.
  - intros _. unfold entry_ok. simpl. now rewrite Hk, Hs.
  - intros H. apply andb_true_iff in H as (H1 & H2).
    destruct (String.eqb k' k) eqn:Hkk; simpl.
    + apply String.eqb_eq in Hkk as ->. rewrite H2.
      unfold entry_ok. simpl. now rewrite Hk, Hs.
    + now rewrite H1, IH.
Qed.

Lemma dict_set_strings (d : dict) (k s : string) :
  (forall e, In e d -> exists x, snd e = VStr x) ->
  forall e, In e (dict_set d k (VStr s)) -> exists x, snd e = VStr x.
Proof.
  induction d as [|[k' v'] d IH]; simpl; intros H e.
  - intros [<- | []]. simpl. eauto.
  - destruct (String.eqb k' k); simpl.
    + intros [<- | He]; [simpl; eauto | apply H; now right].
    + intros [<- | He]; [apply H; now left|].
      apply IH; [|exact He]. intros e' He'. apply H. now right.
Qed.

(** A parameter list and a temp directory that cannot be written to:
    opening the parameter file raises. *)
Lemma sextractor_params_unwritable E self kw w d ps dir :
  params_of self kw = Some ps -> heap w !! config_of self kw = Some d ->
  temp_path_of self kw = Some dir -> can_write E (param_file dir) = false ->
  exists w', sextractor_params E (update_kwargs self kw) w
             = (Raise (IOError (param_file dir)), w').
Proof.
  unfold params_of, sextractor_params, temp_path_of, config_of. intros -> Hd Ht Hw. simpl.
  rewrite Ht. fold (param_file dir).
  unfold bind at 1. simpl. unfold bind at 1. unfold heap_get at 1. rewrite Hd.
  unfold bind at 1.
  destruct (when (dict_in "PARAMETERS_NAME" d) _ w) as [[u|e] w0] eqn:Hwarn.
  - unfold bind at 1. simpl.
    change (PyStr.path_join dir "sex.param") with (param_file dir).
    unfold bind at 1. unfold open_w. rewrite Hw. unfold raise. eauto.
  - unfold when, warn, modify, ret in Hwarn.
    destruct (dict_in "PARAMETERS_NAME" d); discriminate.
Qed.

(** The configuration after a build that returns is the resolved one. *)
Lemma build_cmd_resolved E self filenames kw w cmd kw' w' d :
  build_cmd E self filenames kw w = (Ok (cmd, kw'), w') ->
  heap w !! config_of self kw = Some d ->
  heap w' !! config_of self kw = Some (resolved_config self kw d).
Proof.
  intros H Hd. unfold resolved_config.
  destruct (String.eqb (code_of self kw) "SExtractor") eqn:Hc.
  - destruct (params_of self kw) as [ps|] eqn:Hp.
    + rewrite build_cmd_eq, Hc in H. unfold when in H.
      destruct (temp_path_of self kw) as [dir|] eqn:Ht.
      * destruct (can_write E (param_file dir)) eqn:Hw.
        -- destruct (sextractor_params_written E self kw w d ps dir Hp Hd Ht Hw)
             as (fs & Hs & _).
           rewrite Hs in H.
           destruct (resolve_cmd _ _) as [c|]; [|discriminate].
           destruct (pad c) as [c'|]; [|discriminate].
           simpl in H. rewrite lookup_insert_eq in H.
           destruct (forallb flaggable _); [|discriminate].
           injection H as _ _ <-. simpl. apply lookup_insert_eq.
        -- destruct (sextractor_params_unwritable E self kw w d ps dir Hp Hd Ht Hw)
             as (w1 & Hs).
           rewrite Hs in H. discriminate.
      * destruct (sextractor_params_no_temp E self kw w d ps Hp Hd Ht) as (w1 & Hs & _).
        rewrite Hs in H. discriminate.
    + rewrite (build_cmd_pure _ _ _ _ _ _ _ _ H); [exact Hd | now left].
  - rewrite (build_cmd_pure _ _ _ _ _ _ _ _ H); [exact Hd|].
    right. now apply String.eqb_neq.
Qed.

(** C7 (as the code has it).  For a build that returns, from a given
    configuration whose keys have no white space and whose values are
    booleans or non-empty strings without white space, and, where the
    build generates a parameter file, with a temp directory without
    white space: the flag tokens after the prefix read back as the
    resolved configuration with every value as its token; a
    configuration of strings only is read back as it is; and the
    resolved configuration is the given one unless the build wrote a
    parameter file. *)
Theorem C7_reparse_recovers_tokens :
  forall (E : env) (self : Astromatic) (filenames : fnames) (kw : kwargs) (w : world)
         (cmd : string) (kw' : kwargs) (w' : world) (d : dict),
    build_cmd E self filenames kw w = (Ok (cmd, kw'), w') ->
    heap w !! config_of self kw = Some d ->
    forallb entry_ok d = true ->
    (forall dir, code_of self kw = "SExtractor" -> params_of self kw <> None ->
                 temp_path_of self kw = Some dir -> no_space dir = true) ->
    exists pre,
      built_prefix self filenames kw = Some pre
      /\ heap w' !! config_of self kw = Some (resolved_config self kw d)
      /\ reparse pre cmd = Some (as_tokens (resolved_config self kw d))
      /\ ((forall e, In e d -> exists s, snd e = VStr s) ->
          reparse pre cmd = Some (resolved_config self kw d))
      /\ (params_of self kw = None \/ code_of self kw <> "SExtractor" ->
          resolved_config self kw d = d).
Proof.
  intros E self filenames kw w cmd kw' w' d H Hd Hok Hdir.
  pose proof (build_cmd_resolved E self filenames kw w cmd kw' w' d H Hd) as Hres.
  pose proof (build_cmd_Ok E self kw filenames w cmd kw' w' H)
    as (pre & d0 & Hpre & Hd0 & _ & -> & _).
  rewrite Hres in Hd0. injection Hd0 as <-.
  assert (Hok' : forallb entry_ok (resolved_config self kw d) = true).
  { unfold resolved_config.
    destruct (String.eqb (code_of self kw) "SExtractor") eqn:Hc; [|exact Hok].
    destruct (params_of self kw) as [ps|] eqn:Hp; [|exact Hok].
    destruct (temp_path_of self kw) as [dir|] eqn:Ht; [|exact Hok].
    apply dict_set_entry_ok; [reflexivity | | exact Hok].
    apply param_file_token, Hdir; [now apply String.eqb_eq | discriminate | reflexivity]. }
  assert (Hre : reparse pre (pre +:+ flags_str (tokens_of (resolved_config self kw d)))
                = Some (as_tokens (resolved_config self kw d))).
  { unfold reparse. rewrite strip_prefix_app. simpl.
    rewrite parse_flags_str by (now apply tokens_of_ok). reflexivity. }
  exists pre. split; [exact Hpre|]. split; [exact Hres|]. split; [exact Hre|]. split.
  - intros Hstr. rewrite Hre, as_tokens_strings; [reflexivity|].
    unfold resolved_config.
    destruct (String.eqb (code_of self kw) "SExtractor"); [|exact Hstr].
    destruct (params_of self kw); [|exact Hstr].
    destruct (temp_path_of self kw); [|exact Hstr].
    now apply dict_set_strings.
  - unfold resolved_config. intros [-> | Hne].
    + now destruct (String.eqb _ _).
    + apply String.eqb_neq in Hne. now rewrite Hne.
Qed.

(** C7, counterexample: the mapping with the one value [x -B y] and the
    mapping with the two values [x] and [y] build the same command, so
    no reading of the command gives back both; the flags read back as
    the second mapping. *)
Lemma C7_counterexample :
  heap world_blank !! default_config = Some [("A", VStr "x -B y")]
  /\ fst (build_cmd (plain_env [] 0) swarp (One "img.fits") no_kwargs world_blank)
     = Ok ("swarp img.fits -A x -B y", update_kwargs swarp no_kwargs)
  /\ fst (build_cmd (plain_env [] 0) swarp (One "img.fits") no_kwargs world_split)
     = Ok ("swarp img.fits -A x -B y", update_kwargs swarp no_kwargs)
  /\ built_prefix swarp (One "img.fits") no_kwargs = Some "swarp img.fits"
  /\ reparse "swarp img.fits" "swarp img.fits -A x -B y"
     = Some [("A", VStr "x"); ("B", VStr "y")]
  /\ reparse "swarp img.fits" "swarp img.fits -A x -B y" <> Some [("A", VStr "x -B y")].
Proof.
  repeat split; try (vm_compute; reflexivity). vm_compute. discriminate.
Qed.

(** C7 at a SExtractor build with an inline list and the temp directory
    [/tmp]: the generated parameter file is read back. *)
Lemma C7_witness :
  (build_cmd (plain_env [] 0) sex_params (One "img.fits") no_kwargs world0
   = (Ok ("sex img.fits -PARAMETERS_NAME /tmp/sex.param", update_kwargs sex_params no_kwargs),
      snd (build_cmd (plain_env [] 0) sex_params (One "img.fits") no_kwargs world0))
   /\ heap world0 !! config_of sex_params no_kwargs = Some []
   /\ no_space "/tmp" = true)
  /\ exists pre,
      built_prefix sex_params (One "img.fits") no_kwargs = Some pre
      /\ reparse pre "sex img.fits -PARAMETERS_NAME /tmp/sex.param"
         = Some [("PARAMETERS_NAME", VStr "/tmp/sex.param")].
Proof.
  assert (H : build_cmd (plain_env [] 0) sex_params (One "img.fits") no_kwargs world0
              = (Ok ("sex img.fits -PARAMETERS_NAME /tmp/sex.param",
                     update_kwargs sex_params no_kwargs),
                 snd (build_cmd (plain_env [] 0) sex_params (One "img.fits") no_kwargs
                                world0))) by (vm_compute; reflexivity).
  split; [split; [exact H | split; reflexivity]|].
  destruct (C7_reparse_recovers_tokens (plain_env [] 0) sex_params (One "img.fits") no_kwargs
              world0 _ _ _ [] H eq_refl eq_refl)
    as (pre & Hpre & _ & _ & Hs & _).
  - intros dir _ _ Ht. injection Ht as <-. reflexivity.
  - exists pre. split; [exact Hpre|]. apply Hs. intros e [].
Defined.

(** ** The version query *)

(** Assembling the version command changes nothing. *)
Lemma version_cmd_pure self cmd_arg w :
  snd (version_cmd self cmd_arg w) = w.
Proof.
  unfold version_cmd, pad_cmd, bind, ret, raise.
  destruct cmd_arg as [c|]; simpl.
  - destruct (pad c); reflexivity.
  - destruct (codes_lookup (code self)) as [c|]; simpl; [|reflexivity].
    destruct (pad c); reflexivity.
Qed.

(** A [str] is not among [bytes] objects. *)
Lemma py_in_bytes (s : string) (f : string -> string) (l : list string) :
  py_in (PStr s) (map (fun x => PBytes (f x)) l) = false.
Proof. induction l as [|x l IH]; [reflexivity | exact IH]. Qed.

(** No line of the banner has the [str] that is looked for: the loop
    always comes to its end. *)
Lemma scan_version_eq lines w : scan_version lines w = (Raise UnboundLocalError, w).
Proof.
  induction lines as [|line lines IH]; simpl; [reflexivity|].
  now rewrite py_in_bytes.
Qed.

(** Reading the banner changes nothing. *)
Lemma scan_version_pure lines w : snd (scan_version lines w) = w.
Proof. now rewrite scan_version_eq. Qed.

(** A padded command followed by [-v] ends in [v]. *)
Lemma last_char_version (p : string) : PyStr.last_char (p +:+ "-v") = Some "v"%char.
Proof.
  induction p as [|a p IH]; [reflexivity|].
  rewrite append_cons. simpl. rewrite IH.
  destruct (p +:+ "-v") eqn:Hp; [|reflexivity].
  destruct p; discriminate.
Qed.

(** C10.  Whenever [get_version] assembles a version command, for an
    explicit [cmd] or for the default of the tool, the one command it
    hands to [subprocess] is the fixed string [sex], and the assembled
    command, which ends in [-v], is not it.  When no command can be
    assembled, [get_version] raises and starts no child. *)
Theorem C10_get_version_spawns_sex :
  forall (E : env) (self : Astromatic) (cmd_arg : option string) (w : world),
    (forall c w1,
        version_cmd self cmd_arg w = (Ok c, w1) ->
        spawned (snd (get_version E self cmd_arg w)) = spawned w ++ ["sex"]
        /\ c <> "sex"%string
        /\ exists exe padded,
            (cmd_arg = Some exe \/ (cmd_arg = None /\ codes_lookup (code self) = Some exe))
            /\ pad exe = Some padded /\ c = padded +:+ "-v")
    /\ (forall e w1,
           version_cmd self cmd_arg w = (Raise e, w1) ->
           get_version E self cmd_arg w = (Raise e, w)).
Proof.
  intros E self cmd_arg w. split.
  - intros c w1 H.
    pose proof (version_cmd_pure self cmd_arg w) as Hw. rewrite H in Hw. simpl in Hw.
    subst w1. split; [|split].
    + unfold get_version. rewrite (bind_eq_Ok _ _ _ _ _ H).
      unfold bind at 1.
      unfold try_except, popen_readlines, bind, spawn, raise, ret.
      destruct (shell_ok E); simpl.
      * match goal with |- spawned (snd (scan_version ?l ?w0)) = _ =>
          rewrite (scan_version_pure l w0) end. reflexivity.
      * reflexivity.
    + unfold version_cmd in H. step_ok H as c0 w2 H2. step_ok H as c1 w3 H3.
      injection H as <- _. intros Heq.
      pose proof (last_char_version c1) as Hl. rewrite Heq in Hl. discriminate.
    + unfold version_cmd in H. step_ok H as c0 w2 H2. step_ok H as c1 w3 H3.
      injection H as <- _. unfold pad_cmd in H3.
      destruct (pad c0) as [c'|] eqn:Hp; [|discriminate].
      injection H3 as <- _.
      exists c0, c'. split; [|split; [exact Hp | reflexivity]].
      destruct cmd_arg as [a|].
      * injection H2 as <- _. now left.
      * right. destruct (codes_lookup (code self)) as [x|]; [|discriminate].
        injection H2 as <- _. now split.
  - intros e w1 H.
    pose proof (version_cmd_pure self cmd_arg w) as Hw. rewrite H in Hw. simpl in Hw.
    subst w1. unfold get_version. now apply bind_eq_Raise.
Qed.

(** C10 at an explicit executable path. *)
Lemma C10_witness :
  version_cmd swarp (Some "/opt/bin/swarp") world0 = (Ok "/opt/bin/swarp -v", world0)
  /\ spawned (snd (get_version (plain_env [] 0) swarp (Some "/opt/bin/swarp") world0))
     = ["sex"].
Proof.
  split; [reflexivity|].
  destruct (C10_get_version_spawns_sex (plain_env [] 0) swarp (Some "/opt/bin/swarp") world0)
    as (H & _).
  destruct (H "/opt/bin/swarp -v" world0 eq_refl) as (Hs & _).
  exact Hs.
Defined.

(** C8 at a captured run of a silent child, with [raise_error]. *)
Lemma C8_witness :
  _run_cmd (plain_env [] 0) swarp "swarp img.fits" true None true None world0
  = (Ok {| r_status := success; r_error_msg := None; r_output := Some [];
           r_warnings := None |},
     snd (_run_cmd (plain_env [] 0) swarp "swarp img.fits" true None true None world0))
  /\ r_error_msg {| r_status := success; r_error_msg := None; r_output := Some [];
                    r_warnings := None |} = None.
Proof.
  split; [reflexivity|].
  destruct C8_success_has_no_error_msg as (H & _).
  exact (H (plain_env [] 0) swarp "swarp img.fits" true None true None world0
           _ _ eq_refl eq_refl).
Defined.

(** ** The string operations on examples *)

Example replace_file_name :
  PyStr.replace "img.fits" "img.fits[1]" "sex img.fits -c a" = "sex img.fits[1] -c a".
Proof. reflexivity. Qed.

Example replace_skips_overlap : PyStr.replace "aa" "b" "aaaaa" = "bba".
Proof. reflexivity. Qed.

Example replace_empty_old : PyStr.replace "" "x" "abc" = "xaxbxcx".
Proof. reflexivity. Qed.

Example readlines_keeps_newline :
  PyStr.readlines ("a" +:+ nl +:+ "b") = ["a" +:+ nl; "b"].
Proof. reflexivity. Qed.

Example path_join_temp : PyStr.path_join "/tmp" "sex.param" = "/tmp/sex.param".
Proof. reflexivity. Qed.

Example lower_line : PyStr.lower "Error: Bad" = "error: bad".
Proof. reflexivity. Qed.

Example universal_newlines_lines :
  PyStr.universal_newlines (String "a" (String "013" (String "010" (String "b"
                              (String "013" (String "c" (String "010" "")))))))
  = "a" +:+ nl +:+ "b" +:+ nl +:+ "c" +:+ nl.
Proof. reflexivity. Qed.

Example str_negative : PyStr.str (-12) = "-12".
Proof. reflexivity. Qed.

(** A captured line [Error: bad pixel] stops the run at the test of its
    first line. *)
Example captured_error_line :
  fst (_run_cmd (plain_env ["ok"; "Error: bad pixel"] 0) swarp "swarp img.fits" true None
                false None world0)
  = Raise TypeError.
Proof. vm_compute. reflexivity. Qed.

(** The frames [[1; 2]] on [img.fits]: one command for each frame. *)
Example run_frames_commands :
  spawned (snd (run_frames (plain_env [] 0) swarp (One "img.fits") None [1; 2] true
                           no_kwargs world0))
  = ["swarp img.fits[1]"; "swarp img.fits[2]"].
Proof. vm_compute. reflexivity. Qed.

(** An inline list [X], [Y] and the temp directory [/tmp]: the file
    [/tmp/sex.param] holds the two lines. *)
Example build_cmd_writes_params :
  files (snd (build_cmd (plain_env [] 0) sex_params (One "img.fits") no_kwargs world0))
    !! "/tmp/sex.param"
  = Some ("X" +:+ nl +:+ "Y" +:+ nl).
Proof. vm_compute. reflexivity. Qed.

(** Both a parameter file and an inline list: the warning is given and
    the generated file replaces the named one. *)
Example build_cmd_prefers_params :
  let r := build_cmd (plain_env [] 0) sex_params (One "img.fits") no_kwargs world_named in
  fst r = Ok ("sex img.fits -PARAMETERS_NAME /tmp/sex.param", update_kwargs sex_params no_kwargs)
  /\ warned (snd r) = ["Multiple parameter files specified, using 'params'"].
Proof. split; vm_compute; reflexivity. Qed.

(** * Further properties *)

(** ** What a computation leaves alone *)

Lemma quiet_ret {A} (a : A) : quiet (ret a).
Proof. intros w. reflexivity. Qed.

Lemma quiet_raise {A} (e : exn) : quiet (@raise A e).
Proof. intros w. reflexivity. Qed.

Lemma quiet_bind {A B} (m : M A) (f : A -> M B) :
  quiet m -> (forall a, quiet (f a)) -> quiet (bind m f).
Proof.
  intros Hm Hf w. unfold bind. specialize (Hm w).
  destruct (m w) as [[a|e] w1]; simpl in *.
  - now rewrite Hf.
  - exact Hm.
Qed.

Lemma quiet_when (b : bool) (m : M unit) : quiet m -> quiet (when b m).
Proof. intros H. destruct b; [exact H | apply quiet_ret]. Qed.

Lemma quiet_for_each {A} (l : list A) (body : A -> M unit) :
  (forall x, quiet (body x)) -> quiet (for_each l body).
Proof.
  intros H. induction l as [|x l IH]; simpl; [apply quiet_ret|].
  apply quiet_bind; [apply H | intros _; exact IH].
Qed.

Lemma quiet_warn msg : quiet (warn msg).
Proof. intros w. reflexivity. Qed.

Lemma quiet_heap_get l : quiet (heap_get l).
Proof. intros w. unfold heap_get. destruct (heap w !! l); reflexivity. Qed.

Lemma quiet_heap_setitem l k v : quiet (heap_setitem l k v).
Proof.
  apply quiet_bind; [apply quiet_heap_get | intros d w; reflexivity].
Qed.

Lemma quiet_getitem {A} key (o : option A) : quiet (getitem key o).
Proof. destruct o; [apply quiet_ret | apply quiet_raise]. Qed.

Lemma quiet_as_str v : quiet (as_str v).
Proof. destruct v; first [apply quiet_ret | apply quiet_raise]. Qed.

Lemma quiet_open_w E path : quiet (open_w E path).
Proof. intros w. unfold open_w. destruct (can_write E path); reflexivity. Qed.

Lemma quiet_write path s : quiet (write path s).
Proof. intros w. reflexivity. Qed.

Lemma quiet_read_file path : quiet (read_file path).
Proof. intros w. unfold read_file. destruct (files w !! path); reflexivity. Qed.

Lemma quiet_read_text path : quiet (read_text path).
Proof. apply quiet_bind; [apply quiet_read_file | intros c; apply quiet_ret]. Qed.

Lemma quiet_parse E lenient path : quiet (parse E lenient path).
Proof.
  apply quiet_bind; [apply quiet_read_file|].
  intros c. destruct (votable_parse E lenient c); [apply quiet_ret | apply quiet_raise].
Qed.

Lemma quiet_add_flags d cmd : quiet (add_flags d cmd).
Proof. intros w. rewrite add_flags_eq. reflexivity. Qed.

Lemma quiet_sextractor_params E kw : quiet (sextractor_params E kw).
Proof.
  unfold sextractor_params.
  apply quiet_bind; [apply quiet_getitem|]. intros cfg.
  destruct (kw_params kw) as [ps|].
  - apply quiet_bind; [apply quiet_heap_get|]. intros d.
    apply quiet_bind; [apply quiet_when, quiet_warn|]. intros _.
    destruct (kw_temp_path kw) as [tp|]; [|apply quiet_raise].
    apply quiet_bind; [destruct tp; [apply quiet_ret | apply quiet_raise]|]. intros dir.
    apply quiet_bind; [apply quiet_open_w|]. intros _.
    apply quiet_bind; [apply quiet_for_each; intros p; apply quiet_write|]. intros _.
    apply quiet_heap_setitem.
  - apply quiet_bind; [apply quiet_heap_get|]. intros d.
    destruct (dict_in _ d); [apply quiet_ret | apply quiet_raise].
Qed.

(** ** More on the command builder *)

(** No tool of the table is named like an unknown one. *)
Lemma unknown_code_not_sextractor (c : string) :
  codes_lookup c = None -> String.eqb c "SExtractor" = false.
Proof.
  intros H. destruct (String.eqb c "SExtractor") eqn:Hc; [|reflexivity].
  apply String.eqb_eq in Hc. subst c. discriminate H.
Qed.

Lemma tokens_of_keys (d : dict) :
  forallb flaggable d = true -> map fst (tokens_of d) = map fst d.
Proof.
  induction d as [|[k v] d IH]; simpl; [reflexivity|].
  intros H. apply andb_true_iff in H as (Hv & Hd).
  unfold flaggable in Hv. simpl in Hv.
  destruct (token_of v); [|discriminate]. simpl. f_equal. now apply IH.
Qed.

Lemma flaggable_list (d : dict) (k : string) (l : list string) :
  In (k, VList l) d -> forallb flaggable d = false.
Proof.
  induction d as [|e d IH]; simpl; [intros []|].
  intros [-> | H].
  - reflexivity.
  - rewrite (IH H). apply andb_false_r.
Qed.

(** X1.  A tool that the table [codes] does not have, and no [cmd]: the
    build raises the module's error and leaves the world as it was. *)
Theorem X1_build_cmd_unknown_code :
  forall (E : env) (self : Astromatic) (filenames : fnames) (kw : kwargs) (w : world),
    codes_lookup (code_of self kw) = None ->
    kw_cmd (update_kwargs self kw) = None ->
    build_cmd E self filenames kw w = (Raise (AstromaticError no_cmd_msg), w).
Proof.
  intros E self filenames kw w Hc Hn.
  rewrite build_cmd_eq, (unknown_code_not_sextractor _ Hc). simpl.
  unfold resolve_cmd. now rewrite Hn, Hc.
Qed.

(** X1 at [Astromatic('Eye').build_cmd('img.fits')]. *)
Lemma X1_witness :
  (codes_lookup (code_of eye no_kwargs) = None
   /\ kw_cmd (update_kwargs eye no_kwargs) = None)
  /\ build_cmd (plain_env [] 0) eye (One "img.fits") no_kwargs world0
     = (Raise (AstromaticError no_cmd_msg), world0).
Proof.
  split; [split; reflexivity|].
  apply (X1_build_cmd_unknown_code (plain_env [] 0) eye (One "img.fits") no_kwargs world0);
    reflexivity.
Defined.

(** X2.  A configuration value that is a list: the build of a tool other
    than SExtractor whose command resolves raises [TypeError] at the
    concatenation of the flag, and leaves the world as it was. *)
Theorem X2_build_cmd_list_value :
  forall (E : env) (self : Astromatic) (filenames : fnames) (kw : kwargs) (w : world)
         (d : dict) (pre k : string) (l : list string),
    code_of self kw <> "SExtractor" ->
    built_prefix self filenames kw = Some pre ->
    heap w !! config_of self kw = Some d ->
    In (k, VList l) d ->
    build_cmd E self filenames kw w = (Raise TypeError, w).
Proof.
  intros E self filenames kw w d pre k l Hc Hpre Hd Hin.
  rewrite build_cmd_eq. apply String.eqb_neq in Hc. rewrite Hc. simpl.
  unfold built_prefix in Hpre.
  destruct (resolve_cmd _ _) as [c|]; [|discriminate]. simpl in Hpre.
  destruct (pad c) as [c'|]; [|discriminate].
  now rewrite Hd, (flaggable_list d k l Hin).
Qed.

(** X2 at a configuration with the entry [B: ['1', '2']]. *)
Lemma X2_witness :
  (code_of swarp no_kwargs <> "SExtractor"
   /\ built_prefix swarp (One "img.fits") no_kwargs = Some "swarp img.fits"
   /\ heap world_list !! config_of swarp no_kwargs
      = Some [("A", VStr "x"); ("B", VList ["1"; "2"])]
   /\ In ("B", VList ["1"; "2"]) [("A", VStr "x"); ("B", VList ["1"; "2"])])
  /\ build_cmd (plain_env [] 0) swarp (One "img.fits") no_kwargs world_list
     = (Raise TypeError, world_list).
Proof.
  assert (H1 : code_of swarp no_kwargs <> "SExtractor") by discriminate.
  assert (H4 : In ("B", VList ["1"; "2"]) [("A", VStr "x"); ("B", VList ["1"; "2"])])
    by (right; left; reflexivity).
  split; [repeat split; assumption|].
  exact (X2_build_cmd_list_value (plain_env [] 0) swarp (One "img.fits") no_kwargs
           world_list _ "swarp img.fits" "B" ["1"; "2"] H1 eq_refl eq_refl H4).
Defined.

(** X3.  The shape of a built command: the executable ([cmd] if given,
    else the default of the tool) with one blank after it unless it ends
    in one, the file names joined by blanks, [ -c ] and the configuration
    file if there is one, and then one flag for every entry of the
    configuration, in the order of its keys. *)
Theorem X3_build_cmd_shape :
  forall (E : env) (self : Astromatic) (filenames : fnames) (kw : kwargs) (w : world)
         (cmd : string) (kw' : kwargs) (w' : world),
    build_cmd E self filenames kw w = (Ok (cmd, kw'), w') ->
    exists exe padded d,
      (kw_cmd (update_kwargs self kw) = Some exe
       \/ (kw_cmd (update_kwargs self kw) = None /\ codes_lookup (code_of self kw) = Some exe))
      /\ PyStr.last_char exe <> None
      /\ padded = (if bool_decide (PyStr.last_char exe = Some " "%char)
                   then exe else exe +:+ " ")
      /\ heap w' !! config_of self kw = Some d
      /\ cmd = padded +:+ PyStr.join " " (names_of filenames)
               +:+ match from_option id (config_file self) (kw_config_file kw) with
                   | Some f => " -c " +:+ f
                   | None => ""
                   end
               +:+ flags_str (tokens_of d)
      /\ map fst (tokens_of d) = map fst d.
Proof.
  intros E self filenames kw w cmd kw' w' H.
  apply build_cmd_Ok in H as (pre & d & Hpre & Hd & Hf & -> & _).
  unfold built_prefix, resolve_cmd in Hpre.
  assert (Hexe : exists exe,
             (kw_cmd (update_kwargs self kw) = Some exe
              \/ (kw_cmd (update_kwargs self kw) = None
                  /\ codes_lookup (code_of self kw) = Some exe))
             /\ pad exe ≫= (fun c => Some (cmd_prefix c (names_of filenames)
                    (from_option id (config_file self) (kw_config_file kw)))) = Some pre).
  { destruct (kw_cmd (update_kwargs self kw)) as [c|].
    - exists c. split; [now left | exact Hpre].
    - destruct (codes_lookup (code_of self kw)) as [c|]; [|discriminate Hpre].
      exists c. split; [now right | exact Hpre]. }
  destruct Hexe as (exe & Hor & Hp). unfold pad in Hp.
  destruct (PyStr.last_char exe) as [x|] eqn:Hx; [|discriminate Hp].
  simpl in Hp. injection Hp as <-.
  exists exe, (if ascii_dec x " " then exe else exe +:+ " "), d.
  split; [exact Hor|]. rewrite Hx. split; [discriminate|]. split.
  - destruct (ascii_dec x " ") as [->|Hne].
    + now rewrite bool_decide_eq_true_2.
    + rewrite bool_decide_eq_false_2; [reflexivity | congruence].
  - split; [exact Hd|]. split; [|now apply tokens_of_keys].
    unfold cmd_prefix.
    destruct (from_option id (config_file self) (kw_config_file kw));
      now rewrite ?append_assoc, ?append_nil_l.
Qed.

(** X3 at a build with two configuration entries. *)
Lemma X3_witness :
  build_cmd (plain_env [] 0) swarp (One "img.fits") no_kwargs world_flags
  = (Ok ("swarp img.fits -WRITE_XML N -VERBOSE_TYPE QUIET", update_kwargs swarp no_kwargs),
     world_flags)
  /\ exists exe padded d,
      (kw_cmd (update_kwargs swarp no_kwargs) = Some exe
       \/ (kw_cmd (update_kwargs swarp no_kwargs) = None
           /\ codes_lookup (code_of swarp no_kwargs) = Some exe))
      /\ PyStr.last_char exe <> None
      /\ padded = (if bool_decide (PyStr.last_char exe = Some " "%char)
                   then exe else exe +:+ " ")
      /\ heap world_flags !! config_of swarp no_kwargs = Some d
      /\ "swarp img.fits -WRITE_XML N -VERBOSE_TYPE QUIET"
         = padded +:+ PyStr.join " " (names_of (One "img.fits"))
           +:+ match from_option id (config_file swarp) (kw_config_file no_kwargs) with
               | Some f => " -c " +:+ f
               | None => ""
               end
           +:+ flags_str (tokens_of d)
      /\ map fst (tokens_of d) = map fst d.
Proof.
  assert (H : build_cmd (plain_env [] 0) swarp (One "img.fits") no_kwargs world_flags
              = (Ok ("swarp img.fits -WRITE_XML N -VERBOSE_TYPE QUIET",
                     update_kwargs swarp no_kwargs), world_flags))
    by (vm_compute; reflexivity).
  split; [exact H|].
  exact (X3_build_cmd_shape (plain_env [] 0) swarp (One "img.fits") no_kwargs world_flags
           _ _ _ H).
Defined.

Lemma build_cmd_effects E self filenames kw w :
  spawned (snd (build_cmd E self filenames kw w)) = spawned w
  /\ (params_of self kw = None \/ code_of self kw <> "SExtractor" ->
      snd (build_cmd E self filenames kw w) = w).
Proof.
  rewrite build_cmd_eq. split.
  - pose proof (quiet_when (String.eqb (code_of self kw) "SExtractor") _
                  (quiet_sextractor_params E (update_kwargs self kw)) w) as Hq.
    destruct (when _ _ w) as [[u|e] w1]; simpl in Hq; [|exact Hq].
    destruct (resolve_cmd _ _) as [c|]; [|exact Hq].
    destruct (pad c) as [c'|]; [|exact Hq].
    destruct (heap w1 !! _); exact Hq.
  - intros Hor.
    assert (Hblock : snd (when (String.eqb (code_of self kw) "SExtractor")
                               (sextractor_params E (update_kwargs self kw)) w) = w).
    { unfold when. destruct (String.eqb (code_of self kw) "SExtractor") eqn:Hc;
        [|reflexivity].
      destruct Hor as [Hp | Hne]; [|apply String.eqb_eq in Hc; contradiction].
      unfold sextractor_params. unfold params_of in Hp. rewrite Hp. simpl.
      unfold bind, heap_get. simpl.
      destruct (heap w !! _) as [d|]; [|reflexivity].
      destruct (dict_in "PARAMETERS_NAME" d); reflexivity. }
    destruct (when _ _ w) as [[u|e] w1]; simpl in Hblock; subst w1; [|reflexivity].
    destruct (resolve_cmd _ _) as [c|]; [|reflexivity].
    destruct (pad c) as [c'|]; [|reflexivity].
    destruct (heap w !! _); reflexivity.
Qed.

(** X4.  [build_cmd] never hands a command to [subprocess]; and unless
    it is a SExtractor build with an inline [params] list it changes no
    file and no configuration dictionary and gives no warning, whether
    it returns or raises. *)
Theorem X4_build_cmd_effects :
  forall (E : env) (self : Astromatic) (filenames : fnames) (kw : kwargs) (w : world),
    let w' := snd (build_cmd E self filenames kw w) in
    spawned w' = spawned w
    /\ (params_of self kw = None \/ code_of self kw <> "SExtractor" ->
        files w' = files w /\ heap w' = heap w /\ warned w' = warned w).
Proof.
  intros E self filenames kw w w'. subst w'.
  destruct (build_cmd_effects E self filenames kw w) as (Hs & Hw).
  split; [exact Hs|]. intros Hor. now rewrite (Hw Hor).
Qed.

(** X4 at a build of SWarp. *)
Lemma X4_witness :
  params_of swarp no_kwargs = None
  /\ files (snd (build_cmd (plain_env [] 0) swarp (One "img.fits") no_kwargs world_flags))
     = files world_flags
  /\ heap (snd (build_cmd (plain_env [] 0) swarp (One "img.fits") no_kwargs world_flags))
     = heap world_flags.
Proof.
  split; [reflexivity|].
  destruct (X4_build_cmd_effects (plain_env [] 0) swarp (One "img.fits") no_kwargs
              world_flags) as (_ & H).
  destruct H as (Hf & Hh & _); [now left|]. split; [exact Hf | exact Hh].
Defined.

(** ** More on the process runner *)

Lemma no_astro_ret {A} (a : A) : no_astromatic_error (ret a).
Proof. intros w msg. discriminate. Qed.

Lemma no_astro_bind {A B} (m : M A) (f : A -> M B) :
  no_astromatic_error m -> (forall a, no_astromatic_error (f a)) ->
  no_astromatic_error (bind m f).
Proof.
  intros Hm Hf w msg. unfold bind. specialize (Hm w msg).
  destruct (m w) as [[a|e] w1]; simpl in *.
  - apply Hf.
  - intros H. apply Hm. now injection H as ->.
Qed.

Lemma no_astro_for_each {A} (l : list A) (body : A -> M unit) :
  (forall x, no_astromatic_error (body x)) -> no_astromatic_error (for_each l body).
Proof.
  intros H. induction l as [|x l IH]; simpl; [apply no_astro_ret|].
  apply no_astro_bind; [apply H | intros _; exact IH].
Qed.

Lemma no_astro_as_str v : no_astromatic_error (as_str v).
Proof. intros w msg. destruct v; discriminate. Qed.

Lemma no_astro_read_file path : no_astromatic_error (read_file path).
Proof. intros w msg. unfold read_file. destruct (files w !! path); discriminate. Qed.

Lemma no_astro_read_text path : no_astromatic_error (read_text path).
Proof.
  apply no_astro_bind; [apply no_astro_read_file | intros c; apply no_astro_ret].
Qed.

Lemma no_astro_parse E lenient path : no_astromatic_error (parse E lenient path).
Proof.
  apply no_astro_bind; [apply no_astro_read_file|].
  intros c w msg. destruct (votable_parse E lenient c); discriminate.
Qed.

Lemma no_astro_spawn E this_cmd : no_astromatic_error (spawn E this_cmd).
Proof. intros w msg. unfold spawn. destruct (shell_ok E); discriminate. Qed.

Lemma no_astro_execute E this_cmd store_output xml_name :
  no_astromatic_error (execute E this_cmd store_output xml_name).
Proof.
  unfold execute. apply no_astro_bind; [intros w msg; discriminate|]. intros _.
  destruct store_output.
  - apply no_astro_bind.
    + apply no_astro_bind; [apply no_astro_spawn | intros; apply no_astro_ret].
    + intros output w msg. rewrite scan_output_eq. destruct output; discriminate.
  - apply no_astro_bind.
    + apply no_astro_bind; [apply no_astro_spawn | intros; apply no_astro_ret].
    + intros st. destruct (0 <? st); [|apply no_astro_ret].
      destruct xml_name as [x|]; [|apply no_astro_ret].
      apply no_astro_bind; [apply no_astro_as_str|]. intros path.
      apply no_astro_bind; [apply no_astro_parse|]. intros vo.
      apply no_astro_bind; [|intros; apply no_astro_ret].
      intros w msg. destruct (vo_params vo); discriminate.
Qed.

Lemma no_astro_log_warnings E self xml_name frame r :
  no_astromatic_error (log_warnings E self xml_name frame r).
Proof.
  unfold log_warnings. destruct xml_name as [x|]; [|apply no_astro_ret].
  apply no_astro_bind; [apply no_astro_as_str|]. intros path.
  apply no_astro_bind.
  - unfold when. destruct (String.eqb _ _); [|apply no_astro_ret].
    apply no_astro_bind; [apply no_astro_read_text|]. intros c.
    apply no_astro_bind.
    + intros w msg. unfold open_w. destruct (can_write E _); discriminate.
    + intros _. apply no_astro_for_each. intros line w msg. discriminate.
  - intros _. apply no_astro_bind; [apply no_astro_parse|]. intros vo.
    intros w msg. destruct (table_by_id _ _); discriminate.
Qed.

(** The first half of [_run_cmd] hands its command to [subprocess], once. *)
Lemma execute_spawned E this_cmd store_output xml_name w :
  spawned (snd (execute E this_cmd store_output xml_name w)) = spawned w ++ [this_cmd].
Proof.
  unfold execute, log. unfold bind at 1. unfold modify.
  set (w0 := {| heap := heap w; files := files w; spawned := spawned w;
                warned := warned w; logged := _ |}).
  change (spawned w) with (spawned w0).
  destruct store_output.
  - unfold popen_readlines, bind, spawn. destruct (shell_ok E); [|reflexivity].
    simpl. rewrite scan_output_eq. destruct (p_lines _); reflexivity.
  - unfold call. unfold bind at 1. unfold bind at 1. unfold spawn at 1.
    destruct (shell_ok E); [|reflexivity]. simpl.
    destruct (0 <? _); [|reflexivity].
    destruct xml_name as [x|]; [|reflexivity].
    match goal with |- spawned (snd (?m ?w1)) = _ =>
      assert (Hq : quiet m); [|rewrite (Hq w1); reflexivity] end.
    apply quiet_bind; [apply quiet_as_str|]. intros path.
    apply quiet_bind; [apply quiet_parse|]. intros vo.
    apply quiet_bind; [|intros; apply quiet_ret].
    destruct (vo_params vo); [apply quiet_ret | apply quiet_raise].
Qed.

Lemma quiet_log_warnings E self xml_name frame r :
  quiet (log_warnings E self xml_name frame r).
Proof.
  unfold log_warnings. destruct xml_name as [x|]; [|apply quiet_ret].
  apply quiet_bind; [apply quiet_as_str|]. intros path.
  apply quiet_bind.
  - apply quiet_when. apply quiet_bind; [apply quiet_read_text|]. intros c.
    apply quiet_bind; [apply quiet_open_w|]. intros _.
    apply quiet_for_each. intros line. apply quiet_write.
  - intros _. apply quiet_bind; [apply quiet_parse|]. intros vo.
    destruct (table_by_id _ _); [apply quiet_ret | apply quiet_raise].
Qed.

Lemma quiet_raise_if_error self raise_error r : quiet (raise_if_error self raise_error r).
Proof.
  unfold raise_if_error. destruct (_ && _); [apply quiet_raise | apply quiet_ret].
Qed.

Lemma run_cmd_spawned E self this_cmd store_output xml_name raise_error frame w :
  spawned (snd (_run_cmd E self this_cmd store_output xml_name raise_error frame w))
  = spawned w ++ [this_cmd].
Proof.
  unfold _run_cmd.
  pose proof (execute_spawned E this_cmd store_output xml_name w) as Hx.
  unfold bind at 1.
  destruct (execute E this_cmd store_output xml_name w) as [[r1|e] w1]; simpl in Hx;
    [|exact Hx].
  rewrite <- Hx.
  apply (quiet_bind _ _ (quiet_log_warnings E self xml_name frame r1)).
  intros r2. apply quiet_raise_if_error.
Qed.

(** X5.  [_run_cmd] hands exactly its one command to [subprocess],
    whether it returns or raises, in either mode. *)
Theorem X5_run_cmd_spawns_once :
  forall (E : env) (self : Astromatic) (this_cmd : string) (store_output : bool)
         (xml_name : option pyval) (raise_error : bool) (frame : option string) (w : world),
    spawned (snd (_run_cmd E self this_cmd store_output xml_name raise_error frame w))
    = spawned w ++ [this_cmd].
Proof.
  intros E self this_cmd store_output xml_name raise_error frame w.
  apply run_cmd_spawned.
Qed.

(** X6.  With [raise_error] false, [_run_cmd] never raises the module's
    error: a failed run shows in the status only. *)
Theorem X6_run_cmd_no_raise :
  forall (E : env) (self : Astromatic) (this_cmd : string) (store_output : bool)
         (xml_name : option pyval) (frame : option string) (w : world) (msg : string),
    fst (_run_cmd E self this_cmd store_output xml_name false frame w)
    <> Raise (AstromaticError msg).
Proof.
  intros E self this_cmd store_output xml_name frame w msg. revert w msg.
  change (no_astromatic_error (_run_cmd E self this_cmd store_output xml_name false frame)).
  unfold _run_cmd.
  apply no_astro_bind; [apply no_astro_execute|]. intros r1.
  apply no_astro_bind; [apply no_astro_log_warnings|]. intros r2.
  unfold raise_if_error. rewrite andb_false_r. apply no_astro_ret.
Qed.

(** X7.  Captured mode never looks at the return code of the child: a
    child that prints nothing is reported with status [success] and an
    empty [output], whatever its return code is, and with [raise_error]
    nothing is raised. *)
Theorem X7_captured_ignores_returncode :
  forall (E : env) (self : Astromatic) (this_cmd : string) (raise_error : bool)
         (frame : option string) (w : world),
    shell_ok E = true ->
    p_lines (child E this_cmd w) = [] ->
    exists w',
      _run_cmd E self this_cmd true None raise_error frame w
      = (Ok {| r_status := success; r_error_msg := None; r_output := Some [];
               r_warnings := None |}, w').
Proof.
  intros E self this_cmd raise_error frame w Hs Hl.
  destruct (execute_captured_eq E this_cmd None w Hs) as (w' & H).
  rewrite Hl in H. exists w'. unfold _run_cmd. rewrite (bind_eq_Ok _ _ _ _ _ H).
  reflexivity.
Qed.

(** X7 at a silent child that exits with code 1, with [raise_error]. *)
Lemma X7_witness :
  (shell_ok (plain_env [] 1) = true
   /\ p_lines (child (plain_env [] 1) "swarp img.fits" world0) = [])
  /\ exists w',
      _run_cmd (plain_env [] 1) swarp "swarp img.fits" true None true None world0
      = (Ok {| r_status := success; r_error_msg := None; r_output := Some [];
               r_warnings := None |}, w').
Proof.
  split; [split; reflexivity|].
  exact (X7_captured_ignores_returncode (plain_env [] 1) swarp "swarp img.fits" true None
           world0 eq_refl eq_refl).
Defined.

Lemma scan_params_last (ps : list (string * string)) (r : result) :
  scan_params ps r =
  match last_error_msg ps with
  | Some m => set_error_msg m r
  | None => r
  end.
Proof.
  revert r. induction ps as [|[name value] ps IH]; intros r; simpl; [reflexivity|].
  rewrite IH. destruct (last_error_msg ps); destruct (String.eqb name "Error_Msg");
    reflexivity.
Qed.

(** X8.  Streamed mode, a child that returns a positive code and a
    report that the strict reader accepts: the record of the first half
    has status [error], and its message is the value of the last
    parameter named [Error_Msg], if the report has one. *)
Theorem X8_streamed_error_msg :
  forall (E : env) (this_cmd path content : string) (w : world) (vo : VOTable)
         (ps : list (string * string)),
    shell_ok E = true ->
    0 < p_returncode (child E this_cmd w) ->
    p_files (child E this_cmd w) !! path = Some content ->
    votable_parse E false content = Some vo ->
    vo_params vo = Some ps ->
    exists w1,
      execute E this_cmd false (Some (VStr path)) w
      = (Ok {| r_status := error; r_error_msg := last_error_msg ps; r_output := None;
               r_warnings := None |}, w1).
Proof.
  intros E this_cmd path content w vo ps Hs Hrc Hf Hp Hps.
  unfold execute, log, call, spawn, child in *.
  unfold bind at 1. unfold modify. unfold bind at 1. unfold bind at 1.
  rewrite Hs. simpl. apply Z.ltb_lt in Hrc. rewrite Hrc.
  unfold bind at 1. simpl. unfold bind at 1. unfold parse at 1.
  unfold bind at 1. unfold read_file. simpl. rewrite Hf, Hp.
  unfold bind, ret. simpl. rewrite Hps, scan_params_last.
  eexists. destruct (last_error_msg ps); reflexivity.
Qed.

(** X8 at a report with two [Error_Msg] parameters. *)
Lemma X8_witness :
  (shell_ok (reading_env 2 []) = true
   /\ 0 < p_returncode (child (reading_env 2 []) "swarp img.fits" world0)
   /\ p_files (child (reading_env 2 []) "swarp img.fits" world0) !! "log.xml"
      = Some "<VOTABLE")
  /\ exists w1,
      execute (reading_env 2 []) "swarp img.fits" false (Some (VStr "log.xml")) world0
      = (Ok {| r_status := error; r_error_msg := Some "last"; r_output := None;
               r_warnings := None |}, w1).
Proof.
  split; [repeat split|].
  exact (X8_streamed_error_msg (reading_env 2 []) "swarp img.fits" "log.xml" "<VOTABLE"
           world0 _ _ eq_refl eq_refl eq_refl eq_refl eq_refl).
Defined.

(** X9.  Streamed mode, a child that returns a positive code and leaves
    no file at the report path: [_run_cmd] raises [IOError] for that
    path, whatever [raise_error] is; for a frame it is still the path
    without the frame suffix that is read. *)
Theorem X9_failed_child_without_report :
  forall (E : env) (self : Astromatic) (this_cmd path : string) (raise_error : bool)
         (frame : option string) (w : world),
    shell_ok E = true ->
    0 < p_returncode (child E this_cmd w) ->
    p_files (child E this_cmd w) !! path = None ->
    exists w',
      _run_cmd E self this_cmd false (Some (VStr path)) raise_error frame w
      = (Raise (IOError path), w').
Proof.
  intros E self this_cmd path raise_error frame w Hs Hrc Hf.
  unfold _run_cmd. eexists. apply bind_eq_Raise.
  unfold execute, log, call, spawn, child in *.
  unfold bind at 1. unfold modify. unfold bind at 1. unfold bind at 1.
  rewrite Hs. simpl. apply Z.ltb_lt in Hrc. rewrite Hrc.
  unfold bind at 1. simpl. unfold bind at 1. unfold parse at 1.
  unfold bind at 1. unfold read_file. simpl. rewrite Hf. reflexivity.
Qed.

(** X9 at a frame run of a child that exits with code 1 and writes
    nothing. *)
Lemma X9_witness :
  (shell_ok (plain_env [] 1) = true
   /\ 0 < p_returncode (child (plain_env [] 1) "swarp img.fits[1]" world_empty)
   /\ p_files (child (plain_env [] 1) "swarp img.fits[1]" world_empty) !! "log.xml" = None)
  /\ exists w',
      _run_cmd (plain_env [] 1) swarp "swarp img.fits[1]" false (Some (VStr "log.xml"))
               false (Some "1") world_empty
      = (Raise (IOError "log.xml"), w').
Proof.
  split; [repeat split|].
  exact (X9_failed_child_without_report (plain_env [] 1) swarp "swarp img.fits[1]"
           "log.xml" false (Some "1") world_empty eq_refl eq_refl eq_refl).
Defined.

(** ** More on the report step *)

Lemma concat_readlines_go (cur s : string) :
  concat_lines (PyStr.readlines_go cur s) = String.rev cur +:+ s.
Proof.
  revert cur. induction s as [|c t IH]; intros cur; simpl.
  - destruct cur as [|a cur]; [reflexivity|]. simpl. reflexivity.
  - destruct (ascii_dec c "010").
    + simpl. rewrite IH. unfold String.rev at 2. simpl. rewrite append_nil_l.
      unfold String.rev. simpl. rewrite (rev_app_append cur (String c "")).
      now rewrite append_assoc.
    + rewrite IH. unfold String.rev. simpl.
      rewrite (rev_app_append cur (String c "")). now rewrite append_assoc.
Qed.

(** Writing back the lines that were read gives the text that was read. *)
Lemma concat_readlines (s : string) : concat_lines (PyStr.readlines s) = s.
Proof. unfold PyStr.readlines. now rewrite concat_readlines_go. Qed.

Lemma strip_fits_clean (lines : list string) :
  Forall (fun l => names_fits l = false) (strip_fits lines).
Proof.
  induction lines as [|line lines IH]; simpl; [constructor|].
  destruct (PyStr.contains "<fits" (PyStr.lower line)) eqn:Hf; simpl.
  - destruct (PyStr.contains "</DATA>" (PyStr.upper line)); [|exact IH].
    constructor; [reflexivity | exact IH].
  - constructor; [exact Hf | exact IH].
Qed.

Lemma strip_fits_id (lines : list string) :
  Forall (fun l => names_fits l = false) lines -> strip_fits lines = lines.
Proof.
  induction 1 as [|line lines Hl _ IH]; simpl; [reflexivity|].
  unfold names_fits in Hl. rewrite Hl. simpl. now rewrite IH.
Qed.

(** X10.  The rewrite of SExtractor's report: no line that is kept names
    a [<fits] stream, in any letter case; every kept line is a line of
    the report or the closing marker [</DATA>]; a report without such a
    line is kept as it is; and rewriting twice is rewriting once. *)
Theorem X10_strip_fits :
  forall lines : list string,
    Forall (fun l => names_fits l = false) (strip_fits lines)
    /\ Forall (fun l => In l lines \/ l = "</DATA>" +:+ nl) (strip_fits lines)
    /\ (Forall (fun l => names_fits l = false) lines -> strip_fits lines = lines)
    /\ strip_fits (strip_fits lines) = strip_fits lines.
Proof.
  intros lines. split; [apply strip_fits_clean|]. split; [|split].
  - induction lines as [|line lines IH]; simpl; [constructor|].
    assert (IH' : Forall (fun l => (line = l \/ In l lines) \/ l = "</DATA>" +:+ nl)
                         (strip_fits lines)).
    { eapply Forall_impl; [exact IH|]. simpl. intros l [H | H]; auto. }
    destruct (PyStr.contains "<fits" (PyStr.lower line)); simpl.
    + destruct (PyStr.contains "</DATA>" (PyStr.upper line)); [|exact IH'].
      constructor; [now right | exact IH'].
    + constructor; [left; now left | exact IH'].
  - apply strip_fits_id.
  - apply strip_fits_id, strip_fits_clean.
Qed.

(** X10 at a report of two plain lines. *)
Lemma X10_witness :
  Forall (fun l => names_fits l = false) ["<TABLE>" +:+ nl; "</TABLE>" +:+ nl]
  /\ strip_fits ["<TABLE>" +:+ nl; "</TABLE>" +:+ nl] = ["<TABLE>" +:+ nl; "</TABLE>" +:+ nl].
Proof.
  assert (H : Forall (fun l => names_fits l = false) ["<TABLE>" +:+ nl; "</TABLE>" +:+ nl])
    by (repeat constructor).
  split; [exact H|].
  destruct (X10_strip_fits ["<TABLE>" +:+ nl; "</TABLE>" +:+ nl]) as (_ & _ & Hid & _).
  exact (Hid H).
Defined.

(** The report step on a report that the reader accepts. *)
Lemma log_warnings_read E self path frame r w content vo t :
  files w !! report_path path frame = Some content ->
  (code self = "SExtractor" -> can_write E (report_path path frame) = true) ->
  votable_parse E true (report_text self content) = Some vo ->
  table_by_id (vo_tables vo) "Warnings" = Some t ->
  exists fs,
    log_warnings E self (Some (VStr path)) frame r w
    = (Ok (set_warnings (Some {| rows := filled t;
                                 meta_filename := Some (report_path path frame) |}) r),
       set_files fs w)
    /\ fs !! report_path path frame = Some (report_text self content).
Proof.
  intros Hc Hw Hp Ht. unfold log_warnings, report_text in *.
  rewrite (bind_eq_Ok _ _ w path w) by reflexivity.
  set (p := report_path path frame) in *.
  destruct (String.eqb (code self) "SExtractor") eqn:Hcode; unfold when.
  - apply String.eqb_eq in Hcode. specialize (Hw Hcode).
    unfold bind at 1. rewrite (bind_eq_Ok _ _ _ _ _ (read_text_eq p w content Hc)).
    unfold bind at 1. unfold open_w. rewrite Hw. unfold modify.
    set (w1 := set_files _ w).
    assert (H1 : files w1 !! p = Some ""%string)
      by (subst w1; simpl; apply lookup_insert_eq).
    destruct (write_lines id p
                (strip_fits (PyStr.readlines (PyStr.universal_newlines content))) w1 _ H1)
      as (fs & Hwr & Hf).
    rewrite map_id, append_nil_l in Hf.
    change (fun line : string => write p line) with (fun x : string => write p (id x)).
    rewrite Hwr. exists fs. split; [|exact Hf].
    unfold parse, bind, read_file. simpl. rewrite Hf, Hp. simpl. rewrite Ht. reflexivity.
  - exists (files w). split; [|exact Hc].
    unfold bind, ret, parse, read_file, bind. rewrite Hc, Hp. simpl. rewrite Ht.
    now destruct w.
Qed.

(** X11.  Streamed mode, a child that returns no positive code and
    leaves a report that the reader accepts: [_run_cmd] returns status
    [success] with the table [Warnings] of the report, one row for each
    of its rows (none for an empty table, which is still a table) and
    the path of the report as its [filename]; afterwards the file holds
    the report, for SExtractor as rewritten. *)
Theorem X11_run_cmd_warnings :
  forall (E : env) (self : Astromatic) (this_cmd path : string) (raise_error : bool)
         (frame : option string) (w : world) (content : string) (vo : VOTable)
         (t : list (list (option cell))),
    shell_ok E = true ->
    p_returncode (child E this_cmd w) <= 0 ->
    p_files (child E this_cmd w) !! report_path path frame = Some content ->
    (code self = "SExtractor" -> can_write E (report_path path frame) = true) ->
    votable_parse E true (report_text self content) = Some vo ->
    table_by_id (vo_tables vo) "Warnings" = Some t ->
    exists w',
      _run_cmd E self this_cmd false (Some (VStr path)) raise_error frame w
      = (Ok {| r_status := success; r_error_msg := None; r_output := None;
               r_warnings := Some (Some {| rows := filled t;
                                           meta_filename := Some (report_path path frame) |}) |},
         w')
      /\ length (filled t) = length t
      /\ files w' !! report_path path frame = Some (report_text self content).
Proof.
  intros E self this_cmd path raise_error frame w content vo t Hs Hrc Hf Hw Hp Ht.
  assert (Hx : exists w1,
             execute E this_cmd false (Some (VStr path)) w = (Ok fresh_result, w1)
             /\ files w1 = p_files (child E this_cmd w)).
  { unfold execute, log, call, spawn, child in *.
    unfold bind at 1. unfold modify. unfold bind at 1. unfold bind at 1.
    rewrite Hs. simpl. apply Z.ltb_ge in Hrc. rewrite Hrc. eexists. split; reflexivity. }
  destruct Hx as (w1 & Hx & Hfs). rewrite <- Hfs in Hf.
  destruct (log_warnings_read E self path frame fresh_result w1 content vo t Hf Hw Hp Ht)
    as (fs & Hl & Hfs').
  exists (set_files fs w1). split; [|split].
  - unfold _run_cmd. rewrite (bind_eq_Ok _ _ _ _ _ Hx), (bind_eq_Ok _ _ _ _ _ Hl).
    reflexivity.
  - unfold filled. apply length_map.
  - exact Hfs'.
Qed.

(** X11 at a SExtractor report with a [<FITS] stream and an empty table
    of warnings. *)
Lemma X11_witness :
  (shell_ok (reading_env 0 []) = true
   /\ p_returncode (child (reading_env 0 []) "sex img.fits" world_fits) <= 0
   /\ p_files (child (reading_env 0 []) "sex img.fits" world_fits) !! report_path "sex.xml" None
      = Some fits_report)
  /\ exists w',
      _run_cmd (reading_env 0 []) sex_plain "sex img.fits" false (Some (VStr "sex.xml")) true
               None world_fits
      = (Ok {| r_status := success; r_error_msg := None; r_output := None;
               r_warnings := Some (Some {| rows := []; meta_filename := Some "sex.xml" |}) |},
         w')
      /\ files w' !! "sex.xml"
         = Some ("<TABLE>" +:+ nl +:+ "</DATA>" +:+ nl +:+ "</TABLE>" +:+ nl).
Proof.
  split; [repeat split; discriminate|].
  destruct (X11_run_cmd_warnings (reading_env 0 []) sex_plain "sex img.fits" "sex.xml" true
              None world_fits fits_report
              {| vo_params := Some [("Error_Msg", "first"); ("Other", "x");
                                    ("Error_Msg", "last")];
                 vo_tables := [("Warnings", [])] |} [])
    as (w' & H & _ & Hf); try reflexivity; try discriminate.
  exists w'. split; [exact H | exact Hf].
Defined.

Lemma parse_files E lenient path w :
  files (snd (parse E lenient path w)) = files w.
Proof.
  unfold parse, bind, read_file. destruct (files w !! path); [|reflexivity].
  now destruct (votable_parse E lenient s).
Qed.

(** The reading at the end of the report step changes no file. *)
Lemma read_warnings_files E path (r : result) w :
  files (snd ((votable <- parse E true path ;;
               match table_by_id (vo_tables votable) "Warnings" with
               | None => raise ValueError
               | Some t => ret (set_warnings
                                  (Some {| rows := filled t; meta_filename := Some path |}) r)
               end)%py w)) = files w.
Proof.
  unfold bind. pose proof (parse_files E true path w) as H.
  destruct (parse E true path w) as [[vo|e] w1]; simpl in *; [|exact H].
  now destruct (table_by_id (vo_tables vo) "Warnings").
Qed.

(** A text without carriage returns is read as it is. *)
Lemma universal_newlines_id (s : string) :
  ~ In "013"%char (list_ascii_of_string s) -> PyStr.universal_newlines s = s.
Proof.
  induction s as [|c s IH]; simpl; [reflexivity|]. intros H.
  destruct (ascii_dec c "013") as [->|Hne].
  - exfalso. apply H. now left.
  - f_equal. apply IH. intros Hin. apply H. now right.
Qed.

(** The rewrite of a SExtractor report without [<fits] lines writes back
    the text that was read. *)
Lemma log_warnings_rewrite E self path frame r w content :
  files w !! report_path path frame = Some content ->
  code self = "SExtractor" ->
  can_write E (report_path path frame) = true ->
  Forall (fun l => names_fits l = false)
         (PyStr.readlines (PyStr.universal_newlines content)) ->
  files (snd (log_warnings E self (Some (VStr path)) frame r w)) !! report_path path frame
  = Some (PyStr.universal_newlines content).
Proof.
  intros Hc Hcode Hw Hl. unfold log_warnings.
  rewrite (bind_eq_Ok _ _ w path w) by reflexivity.
  set (p := report_path path frame) in *.
  apply String.eqb_eq in Hcode. rewrite Hcode. unfold when.
  unfold bind at 1. rewrite (bind_eq_Ok _ _ _ _ _ (read_text_eq p w content Hc)).
  unfold bind at 1. unfold open_w. rewrite Hw. unfold modify.
  set (w1 := set_files _ w).
  assert (H1 : files w1 !! p = Some ""%string)
    by (subst w1; simpl; apply lookup_insert_eq).
  destruct (write_lines id p
              (strip_fits (PyStr.readlines (PyStr.universal_newlines content))) w1 _ H1)
    as (fs & Hwr & Hf).
  rewrite map_id, append_nil_l, (strip_fits_id _ Hl), concat_readlines in Hf.
  change (fun line : string => write p line) with (fun x : string => write p (id x)).
  rewrite Hwr.
  rewrite (read_warnings_files E p r (set_files fs w1)). exact Hf.
Qed.

(** X12.  The report step of [_run_cmd] and the text of the report,
    whether the reading succeeds or raises.  For every tool but
    SExtractor the file is left as it was.  For SExtractor, when no line
    names a [<fits] stream, the lines are written back as they were
    read: a text without carriage returns is left as it was, and in a
    text with them every [CR LF] and lone [CR] has become [LF]. *)
Theorem X12_report_kept :
  forall (E : env) (self : Astromatic) (path : string) (frame : option string)
         (r : result) (w : world) (content : string),
    files w !! report_path path frame = Some content ->
    let after :=
      files (snd (log_warnings E self (Some (VStr path)) frame r w))
        !! report_path path frame in
    (code self <> "SExtractor" -> after = Some content)
    /\ (code self = "SExtractor" ->
        Forall (fun l => names_fits l = false)
               (PyStr.readlines (PyStr.universal_newlines content)) ->
        (can_write E (report_path path frame) = true ->
         after = Some (PyStr.universal_newlines content))
        /\ (~ In "013"%char (list_ascii_of_string content) -> after = Some content)).
Proof.
  intros E self path frame r w content Hc after. subst after. split.
  - intros Hne. apply String.eqb_neq in Hne. unfold log_warnings.
    rewrite (bind_eq_Ok _ _ w path w) by reflexivity.
    rewrite Hne. unfold when. unfold bind at 1. unfold ret at 1.
    rewrite (read_warnings_files E _ r w). exact Hc.
  - intros Hcode Hl. split.
    + intros Hw. now apply log_warnings_rewrite.
    + intros Hcr. destruct (can_write E (report_path path frame)) eqn:Hw.
      * rewrite (log_warnings_rewrite E self path frame r w content Hc Hcode Hw Hl).
        now rewrite universal_newlines_id.
      * unfold log_warnings. rewrite (bind_eq_Ok _ _ w path w) by reflexivity.
        apply String.eqb_eq in Hcode. rewrite Hcode. unfold when.
        unfold bind at 1.
        rewrite (bind_eq_Ok _ _ _ _ _ (read_text_eq _ w content Hc)).
        unfold bind at 1. unfold open_w. rewrite Hw. exact Hc.
Qed.

(** X12 at a SExtractor report of two lines that end in [CR LF]. *)
Lemma X12_witness :
  (files world_crlf_report !! report_path "sex.xml" None = Some crlf_report
   /\ code sex_plain = "SExtractor"
   /\ can_write (reading_env 0 []) (report_path "sex.xml" None) = true)
  /\ files (snd (log_warnings (reading_env 0 []) sex_plain (Some (VStr "sex.xml")) None
                              fresh_result world_crlf_report)) !! report_path "sex.xml" None
     = Some ("<TABLE>" +:+ nl +:+ "</TABLE>" +:+ nl).
Proof.
  split; [repeat split|].
  destruct (X12_report_kept (reading_env 0 []) sex_plain "sex.xml" None fresh_result
              world_crlf_report crlf_report eq_refl) as (_ & H).
  destruct (H eq_refl) as (Hw & _); [repeat constructor|].
  exact (Hw eq_refl).
Defined.

(** ** More on [run] *)

Lemma heap_get_Ok l w d w' : heap_get l w = (Ok d, w') -> heap w !! l = Some d /\ w' = w.
Proof.
  unfold heap_get. destruct (heap w !! l); intros H; [|discriminate].
  injection H as <- <-. auto.
Qed.

Lemma execute_no_warnings E this_cmd store_output xml_name w r w1 :
  execute E this_cmd store_output xml_name w = (Ok r, w1) -> r_warnings r = None.
Proof.
  intros H. destruct store_output.
  - now apply execute_captured in H as (_ & ->).
  - unfold execute, log, call in H.
    step_ok H as u wl Hl. step_ok H as st wp Hp.
    destruct (0 <? st); [|now injection H as <- _].
    destruct xml_name as [x|]; [|now injection H as <- _].
    step_ok H as path w2 H2. step_ok H as vo w3 H3. step_ok H as ps w4 H4.
    injection H as <- _.
    now destruct (scan_params_fields ps (set_status error fresh_result)) as (_ & _ & ->).
Qed.

Lemma log_warnings_field E self xml_name frame r w r' w' :
  log_warnings E self xml_name frame r w = (Ok r', w') ->
  match xml_name with
  | None => r_warnings r' = r_warnings r
  | Some _ => exists t, r_warnings r' = Some (Some t)
  end.
Proof.
  unfold log_warnings. destruct xml_name as [x|]; intros H.
  - step_ok H as path w1 H1. step_ok H as u w2 H2. step_ok H as vo w3 H3.
    destruct (table_by_id _ _); [|discriminate H].
    injection H as <- _. simpl. eauto.
  - now injection H as <- _.
Qed.

(** The [warnings] field of a returned record says whether a report
    path was given. *)
Lemma run_cmd_warnings_field E self this_cmd store_output xml_name raise_error frame w r w' :
  _run_cmd E self this_cmd store_output xml_name raise_error frame w = (Ok r, w') ->
  match xml_name with
  | None => r_warnings r = None
  | Some _ => exists t, r_warnings r = Some (Some t)
  end.
Proof.
  unfold _run_cmd. intros H. step_ok H as r1 w1 H1. step_ok H as r2 w2 H2.
  apply raise_if_error_Ok in H as (-> & _ & _).
  apply execute_no_warnings in H1. apply log_warnings_field in H2.
  destruct xml_name; [exact H2 | congruence].
Qed.

Lemma eq_str_spec (v : pyval) (s : string) : eq_str v s = true <-> v = VStr s.
Proof.
  destruct v as [t| |]; simpl; try (split; discriminate).
  rewrite String.eqb_eq. split; congruence.
Qed.

(** X13.  [run] reads a report exactly when the configuration, as the
    build leaves it, has [WRITE_XML] equal to the string [Y] and has an
    [XML_NAME]: a returned record has the [warnings] field in that case
    and in no other, so not for [WRITE_XML] given as [True], which the
    command line shows as [Y] all the same. *)
Theorem X13_run_report_condition :
  forall (E : env) (self : Astromatic) (filenames : fnames) (store_output raise_error : bool)
         (kw : kwargs) (w : world) (r : result) (w' : world),
    run E self filenames store_output raise_error kw w = (Ok r, w') ->
    exists cmd w1 d,
      build_cmd E self filenames kw w = (Ok (cmd, update_kwargs self kw), w1)
      /\ heap w1 !! config_of self kw = Some d
      /\ (r_warnings r <> None <->
          dict_get d "WRITE_XML" = Some (VStr "Y") /\ dict_in "XML_NAME" d = true).
Proof.
  intros E self filenames store_output raise_error kw w r w' H.
  unfold run in H. step_ok H as built w1 H1. destruct built as [this_cmd kw'].
  pose proof (build_cmd_Ok E self kw filenames w this_cmd kw' w1 H1)
    as (pre & d0 & _ & Hd0 & _ & _ & ->).
  step_ok H as cfg w2 H2. simpl in H2. injection H2 as <- <-.
  step_ok H as d w3 H3. apply heap_get_Ok in H3 as (Hd & ->).
  fold (config_of self kw) in Hd. rewrite Hd0 in Hd. injection Hd as <-.
  exists this_cmd, w1, d0. split; [exact H1|]. split; [exact Hd0|].
  apply run_cmd_warnings_field in H. unfold dict_in in *.
  destruct (dict_get d0 "WRITE_XML") as [v|] eqn:Hv; simpl in H.
  - destruct (dict_get d0 "XML_NAME") as [x|] eqn:Hx; simpl in H.
    + destruct (eq_str v "Y") eqn:Hy; simpl in H.
      * apply eq_str_spec in Hy. subst v. destruct H as (t & ->).
        split; [auto | discriminate].
      * rewrite H. split; [congruence|]. intros (Hv' & _). injection Hv' as ->.
        simpl in Hy. discriminate.
    + rewrite H. split; [congruence | intros (_ & Hf); discriminate].
  - rewrite H. split; [congruence | intros (Hf & _); discriminate].
Qed.

(** X13 at a configuration with [WRITE_XML: True]. *)
Lemma X13_witness :
  run (plain_env [] 0) swarp (One "img.fits") false true no_kwargs world_xml_bool
  = (Ok fresh_result,
     snd (run (plain_env [] 0) swarp (One "img.fits") false true no_kwargs world_xml_bool))
  /\ fst (build_cmd (plain_env [] 0) swarp (One "img.fits") no_kwargs world_xml_bool)
     = Ok ("swarp img.fits -WRITE_XML Y -XML_NAME log.xml", update_kwargs swarp no_kwargs)
  /\ ~ (dict_get [("WRITE_XML", VBool true); ("XML_NAME", VStr "log.xml")] "WRITE_XML"
        = Some (VStr "Y")
        /\ dict_in "XML_NAME" [("WRITE_XML", VBool true); ("XML_NAME", VStr "log.xml")] = true).
Proof.
  assert (H : run (plain_env [] 0) swarp (One "img.fits") false true no_kwargs world_xml_bool
              = (Ok fresh_result,
                 snd (run (plain_env [] 0) swarp (One "img.fits") false true no_kwargs
                          world_xml_bool))) by reflexivity.
  split; [exact H|]. split; [reflexivity|].
  destruct (X13_run_report_condition _ _ _ _ _ _ _ _ _ H) as (cmd & w1 & d & Hb & Hd & Hiff).
  assert (Hw1 : heap w1 = heap world_xml_bool).
  { replace w1 with (snd (build_cmd (plain_env [] 0) swarp (One "img.fits") no_kwargs
                                    world_xml_bool)) by (now rewrite Hb).
    reflexivity. }
  rewrite Hw1 in Hd. vm_compute in Hd. injection Hd as <-.
  intros Hc. apply Hiff in Hc. now apply Hc.
Defined.

(** X14.  The [store_output] that the constructor was given plays no
    part in [run]: only the argument of the call decides the mode. *)
Theorem X14_run_ignores_stored_store_output :
  forall (E : env) (self : Astromatic) (b : bool) (filenames : fnames)
         (store_output raise_error : bool) (kw : kwargs) (w : world),
    run E (with_store_output b self) filenames store_output raise_error kw w
    = run E self filenames store_output raise_error kw w.
Proof.
  intros E self b filenames store_output raise_error kw w.
  unfold run, bind.
  rewrite !build_cmd_eq.
  change (code_of (with_store_output b self) kw) with (code_of self kw).
  change (config_of (with_store_output b self) kw) with (config_of self kw).
  change (sextractor_params E (update_kwargs (with_store_output b self) kw))
    with (sextractor_params E (update_kwargs self kw)).
  change (resolve_cmd (update_kwargs (with_store_output b self) kw))
    with (resolve_cmd (update_kwargs self kw)).
  destruct (when _ _ w) as [[u|e] w1]; [|reflexivity].
  destruct (resolve_cmd _ _) as [c|]; [|reflexivity].
  destruct (pad c) as [c'|]; [|reflexivity].
  destruct (heap w1 !! _) as [d|]; [|reflexivity].
  destruct (forallb flaggable d); reflexivity.
Qed.

(** ** More on [run_frames] *)

(** X15.  [run_frames] for a tool other than SExtractor and SWarp raises
    the module's error before anything is built or run. *)
Theorem X15_run_frames_unsupported :
  forall (E : env) (self : Astromatic) (filenames : fnames) (code_arg : option string)
         (frames : list Z) (raise_error : bool) (kw : kwargs) (w : world) (d : dict),
    from_option id (code self) code_arg <> "SExtractor" ->
    from_option id (code self) code_arg <> "SWarp" ->
    heap w !! config_of self kw = Some d ->
    run_frames E self filenames code_arg frames raise_error kw w
    = (Raise (AstromaticError no_frames_msg), w).
Proof.
  intros E self filenames code_arg frames raise_error kw w d H1 H2 Hd.
  unfold run_frames, bind, heap_get. unfold config_of in Hd. rewrite Hd.
  apply String.eqb_neq in H1, H2. now rewrite H1, H2.
Qed.

(** X15 at [Astromatic('SCAMP').run_frames('cat.fits', frames=[1, 2])]. *)
Lemma X15_witness :
  (from_option id "SCAMP" None <> "SExtractor" /\ from_option id "SCAMP" None <> "SWarp")
  /\ run_frames (plain_env [] 0)
       {| code := "SCAMP"; temp_path := None; config := default_config;
          config_file := None; store_output := false; cmd := None; params := None |}
       (One "cat.fits") None [1; 2] true no_kwargs world0
     = (Raise (AstromaticError no_frames_msg), world0).
Proof.
  assert (H1 : from_option id "SCAMP" None <> "SExtractor") by discriminate.
  assert (H2 : from_option id "SCAMP" None <> "SWarp") by discriminate.
  split; [split; assumption|].
  exact (X15_run_frames_unsupported (plain_env [] 0)
           {| code := "SCAMP"; temp_path := None; config := default_config;
              config_file := None; store_output := false; cmd := None; params := None |}
           (One "cat.fits") None [1; 2] true no_kwargs world0 [] H1 H2 eq_refl).
Defined.

(** The command of a frame is computed without a look at the world. *)
Lemma frame_cmd_pure this_cmd names flag_img weight_img xml_name frame w w0 :
  frame_cmd this_cmd names flag_img weight_img xml_name frame w
  = (fst (frame_cmd this_cmd names flag_img weight_img xml_name frame w0), w).
Proof.
  unfold frame_cmd, replace_img, bind, as_str, ret, raise.
  destruct flag_img as [[?|?|?]|]; simpl; try reflexivity;
    destruct weight_img as [[?|?|?]|]; simpl; try reflexivity;
    destruct xml_name as [[?|?|?]|]; reflexivity.
Qed.

Lemma combine_warnings_pure frame r all_warnings w :
  snd (combine_warnings frame r all_warnings w) = w.
Proof.
  unfold combine_warnings. destruct (r_warnings r) as [[t|]|]; try reflexivity.
  destruct (0 <? length (rows t))%nat; reflexivity.
Qed.

(** The loop over the frames hands one command to [subprocess] for each
    frame, in the order of the frames. *)
Lemma frames_loop_spawned E self this_cmd names flag_img weight_img xml_name raise_error
    w0 frames :
  forall all_warnings w aw' w',
    frames_loop E self this_cmd names flag_img weight_img xml_name raise_error
                frames all_warnings w = (Ok aw', w') ->
    exists cmds,
      spawned w' = spawned w ++ cmds
      /\ Forall2 (fun frame c =>
                    fst (frame_cmd this_cmd names flag_img weight_img xml_name frame w0)
                    = Ok c) frames cmds.
Proof.
  induction frames as [|frame rest IH]; intros all_warnings w aw' w' H; simpl in H.
  - injection H as _ <-. exists []. split; [now rewrite app_nil_r | constructor].
  - step_ok H as c w1 H1. step_ok H as r w2 H2. step_ok H as aw w3 H3.
    rewrite (frame_cmd_pure _ _ _ _ _ _ w w0) in H1. injection H1 as Hc <-.
    pose proof (run_cmd_spawned E self c false xml_name raise_error
                  (Some (PyStr.str frame)) w) as Hs.
    rewrite H2 in Hs. simpl in Hs.
    pose proof (combine_warnings_pure frame r all_warnings w2) as Hw.
    rewrite H3 in Hw. simpl in Hw. subst w3.
    destruct (IH _ _ _ _ H) as (cmds & Hsp & Hall).
    exists (c :: cmds). split.
    + rewrite Hsp, Hs, <- app_assoc. reflexivity.
    + constructor; assumption.
Qed.

(** With strings for the images and the report, the command of a frame
    is the command written out. *)
Lemma frame_cmd_eq this_cmd names (flag weight xml : option string) frame w :
  frame_cmd this_cmd names (option_map VStr flag) (option_map VStr weight)
            (option_map VStr xml) frame w
  = (Ok (frame_command this_cmd names flag weight xml frame), w).
Proof. destruct flag, weight, xml; reflexivity. Qed.

Lemma str_entry_spec (d : dict) (k : string) :
  (forall v, dict_get d k = Some v -> exists s, v = VStr s) ->
  dict_get d k = option_map VStr (str_entry d k).
Proof.
  intros H. unfold str_entry. destruct (dict_get d k) as [v|]; [|reflexivity].
  destruct (H v eq_refl) as (s & ->). reflexivity.
Qed.

Lemma frame_cmds_written this_cmd names (flag weight xml : option string) w frames cmds :
  Forall2 (fun frame c =>
             fst (frame_cmd this_cmd names (option_map VStr flag) (option_map VStr weight)
                            (option_map VStr xml) frame w) = Ok c) frames cmds ->
  cmds = map (frame_command this_cmd names flag weight xml) frames.
Proof.
  induction 1 as [|frame c frames cmds Hc _ IH]; [reflexivity|].
  rewrite frame_cmd_eq in Hc. injection Hc as <-. simpl. now rewrite IH.
Qed.

(** X16.  A [run_frames] that returns has handed to [subprocess] exactly
    one command for each frame, in the order of the frames: the built
    command with the frame written after every file name, for
    SExtractor also after the [FLAG_IMAGE] and the [WEIGHT_IMAGE] of the
    configuration, and, when a report is asked for, into the name of
    the report.  For no frames it has run nothing. *)
Theorem X16_run_frames_one_child_per_frame :
  forall (E : env) (self : Astromatic) (filenames : fnames) (code_arg : option string)
         (frames : list Z) (raise_error : bool) (kw : kwargs) (w : world)
         (r : result) (w' : world) (d : dict),
    run_frames E self filenames code_arg frames raise_error kw w = (Ok r, w') ->
    heap w !! config_of self kw = Some d ->
    (forall k v, In k ["FLAG_IMAGE"; "WEIGHT_IMAGE"; "XML_NAME"]%string ->
                 dict_get d k = Some v -> exists s, v = VStr s) ->
    let sextractor := String.eqb (from_option id (code self) code_arg) "SExtractor" in
    let flag := if sextractor then str_entry d "FLAG_IMAGE" else None in
    let weight := if sextractor then str_entry d "WEIGHT_IMAGE" else None in
    let xml := if from_option truthy false (dict_get d "WRITE_XML")
               then str_entry d "XML_NAME" else None in
    exists this_cmd kw' w1,
      build_cmd E self filenames (frames_kwargs self code_arg kw) w = (Ok (this_cmd, kw'), w1)
      /\ spawned w'
         = spawned w
           ++ map (frame_command this_cmd (names_of filenames) flag weight xml) frames.
Proof.
  intros E self filenames code_arg frames raise_error kw w r w' d H Hd Hstr
         sextractor flag weight xml.
  assert (Hk : forall k, In k ["FLAG_IMAGE"; "WEIGHT_IMAGE"; "XML_NAME"]%string ->
                         dict_get d k = option_map VStr (str_entry d k)).
  { intros k Hin. apply str_entry_spec. intros v. now apply Hstr. }
  unfold run_frames in H.
  step_ok H as d0 w1 H1. apply heap_get_Ok in H1 as (Hd0 & ->).
  unfold config_of in Hd. rewrite Hd in Hd0. injection Hd0 as <-.
  step_ok H as imgs w2 H2.
  assert (Himgs : imgs = (option_map VStr flag, option_map VStr weight) /\ w2 = w).
  { subst flag weight sextractor.
    destruct (String.eqb _ "SExtractor").
    - injection H2 as <- <-. rewrite !Hk by (simpl; auto). auto.
    - destruct (negb _); [discriminate|]. injection H2 as <- <-. auto. }
  destruct Himgs as (-> & ->).
  step_ok H as built w3 H3. destruct built as [this_cmd kw'].
  step_ok H as all_warnings w4 H4. injection H as _ <-.
  assert (Hxml : (if dict_in "WRITE_XML" d
                     && from_option truthy false (dict_get d "WRITE_XML")
                     && dict_in "XML_NAME" d
                  then dict_get d "XML_NAME" else None) = option_map VStr xml).
  { subst xml. unfold dict_in.
    destruct (dict_get d "WRITE_XML") as [v|]; simpl; [|reflexivity].
    destruct (truthy v); simpl; [|reflexivity].
    rewrite (Hk "XML_NAME") by (simpl; auto).
    now destruct (str_entry d "XML_NAME"). }
  rewrite Hxml in H4.
  destruct (frames_loop_spawned _ _ _ _ _ _ _ _ w _ _ _ _ _ H4) as (cmds & Hsp & Hall).
  apply frame_cmds_written in Hall. subst cmds.
  pose proof (build_cmd_effects E self filenames (frames_kwargs self code_arg kw) w)
    as (Hq & _).
  exists this_cmd, kw', w3. split; [exact H3|].
  unfold frames_kwargs, config_of in Hq. rewrite H3 in Hq. simpl in Hq.
  now rewrite Hsp, Hq.
Qed.

(** X16 at the frames [1] and [2] of [img.fits] with a flag image. *)
Lemma X16_witness :
  (run_frames (plain_env [] 0) sex_plain (One "img.fits") None [1; 2] true no_kwargs
              world_flag_image
   = (Ok {| r_status := success; r_error_msg := None; r_output := None;
            r_warnings := Some None |},
      snd (run_frames (plain_env [] 0) sex_plain (One "img.fits") None [1; 2] true no_kwargs
                      world_flag_image))
   /\ heap world_flag_image !! config_of sex_plain no_kwargs
      = Some [("PARAMETERS_NAME", VStr "my.param"); ("FLAG_IMAGE", VStr "flag.fits")])
  /\ spawned (snd (run_frames (plain_env [] 0) sex_plain (One "img.fits") None [1; 2] true
                              no_kwargs world_flag_image))
     = ["sex img.fits[1] -PARAMETERS_NAME my.param -FLAG_IMAGE flag.fits[1]";
        "sex img.fits[2] -PARAMETERS_NAME my.param -FLAG_IMAGE flag.fits[2]"].
Proof.
  assert (H : run_frames (plain_env [] 0) sex_plain (One "img.fits") None [1; 2] true
                         no_kwargs world_flag_image
              = (Ok {| r_status := success; r_error_msg := None; r_output := None;
                       r_warnings := Some None |},
                 snd (run_frames (plain_env [] 0) sex_plain (One "img.fits") None [1; 2] true
                                 no_kwargs world_flag_image))) by (vm_compute; reflexivity).
  split; [split; [exact H | reflexivity]|].
  destruct (X16_run_frames_one_child_per_frame _ _ _ _ _ _ _ _ _ _
              [("PARAMETERS_NAME", VStr "my.param"); ("FLAG_IMAGE", VStr "flag.fits")]
              H eq_refl) as (this_cmd & kw' & w1 & Hb & Hsp).
  - intros k v [<- | [<- | [<- | []]]] Hv; simpl in Hv; try discriminate.
    injection Hv as <-. eauto.
  - rewrite Hsp. vm_compute in Hb. injection Hb as <- _ _. vm_compute. reflexivity.
Defined.

Lemma tagged_by_mono (l l' : list Z) (aw : option Table) :
  (forall f, In f l -> In f l') -> tagged_by l aw -> tagged_by l' aw.
Proof.
  intros Hsub. destruct aw as [t|]; simpl; [|auto].
  intros (Hne & Hall). split; [exact Hne|].
  eapply Forall_impl; [exact Hall|]. simpl.
  intros row (f & Hf & Ht). exists f. auto.
Qed.

Lemma combine_warnings_tagged frame r aw w aw' w' done :
  combine_warnings frame r aw w = (Ok aw', w') ->
  tagged_by done aw -> tagged_by (done ++ [frame]) aw'.
Proof.
  unfold combine_warnings. intros H Hinv.
  assert (Hold : tagged_by (done ++ [frame]) aw).
  { eapply tagged_by_mono; [|exact Hinv]. intros f Hf. apply in_or_app. now left. }
  destruct (r_warnings r) as [[t|]|]; [|discriminate|now injection H as <- _].
  destruct (0 <? length (rows t))%nat eqn:Hlen; [|now injection H as <- _].
  injection H as <- _. apply Nat.ltb_lt in Hlen.
  assert (Hnew : rows (tag_frame frame t) <> []
                 /\ Forall (fun row => exists f, In f (done ++ [frame])
                                                /\ frame_tag row = Some f)
                           (rows (tag_frame frame t))).
  { simpl. split.
    - destruct (rows t); simpl in *; [lia | discriminate].
    - apply List.Forall_forall. intros row Hrow. apply in_map_iff in Hrow as (r0 & <- & _).
      exists frame. split; [apply in_or_app; right; now left | reflexivity]. }
  destruct Hnew as (Hne & Hall).
  destruct aw as [a|]; simpl; [|split; assumption].
  destruct Hold as (Hane & Haall). split.
  - destruct (rows a); [contradiction | discriminate].
  - apply Forall_app. split; assumption.
Qed.

Lemma frames_loop_tagged E self this_cmd names flag_img weight_img xml_name raise_error
    frames :
  forall all_warnings w aw' w' done,
    frames_loop E self this_cmd names flag_img weight_img xml_name raise_error
                frames all_warnings w = (Ok aw', w') ->
    tagged_by done all_warnings -> tagged_by (done ++ frames) aw'.
Proof.
  induction frames as [|frame rest IH]; intros all_warnings w aw' w' done H Hinv;
    simpl in H.
  - injection H as <- _. now rewrite app_nil_r.
  - step_ok H as c w1 H1. step_ok H as r w2 H2. step_ok H as aw w3 H3.
    apply (combine_warnings_tagged _ _ _ _ _ _ done) in H3; [|exact Hinv].
    specialize (IH _ _ _ _ _ H H3). now rewrite <- app_assoc in IH.
Qed.

(** X17.  The merged table of a [run_frames] that returns, for frame
    numbers in the range of 64-bit integers (where the [frame] column
    holds them as they are): there is no table at all, or a table with
    at least one row, and every row carries the number of one of the
    frames asked for. *)
Theorem X17_run_frames_warnings_tagged :
  forall (E : env) (self : Astromatic) (filenames : fnames) (code_arg : option string)
         (frames : list Z) (raise_error : bool) (kw : kwargs) (w : world)
         (r : result) (w' : world),
    Forall int64 frames ->
    run_frames E self filenames code_arg frames raise_error kw w = (Ok r, w') ->
    exists all_warnings, r_warnings r = Some all_warnings /\ tagged_by frames all_warnings.
Proof.
  intros E self filenames code_arg frames raise_error kw w r w' _ H.
  unfold run_frames in H.
  step_ok H as d w1 H1. step_ok H as imgs w2 H2. destruct imgs as [flag_img weight_img].
  step_ok H as built w3 H3. destruct built as [this_cmd kw'].
  step_ok H as all_warnings w4 H4. injection H as <- _.
  exists all_warnings. split; [reflexivity|].
  apply (frames_loop_tagged _ _ _ _ _ _ _ _ _ _ _ _ _ [] H4). exact I.
Qed.

(** X17 at two frames whose reports have one row each. *)
Lemma X17_witness :
  run_frames (reading_env 0 [[Some (CStr "w"); None]]) swarp (One "img.fits") None [3; 5]
             true no_kwargs
             {| heap := {[ default_config := [("WRITE_XML", VStr "Y");
                                              ("XML_NAME", VStr "log.xml")] ]};
                files := {[ "log-3.xml" := "a"; "log-5.xml" := "b" ]};
                spawned := []; warned := []; logged := [] |}
  = (Ok {| r_status := success; r_error_msg := None; r_output := None;
           r_warnings :=
             Some (Some {| rows := [ {| cells := [CStr "w"; CInt 0]; frame_tag := Some 3 |};
                                     {| cells := [CStr "w"; CInt 0]; frame_tag := Some 5 |} ];
                           meta_filename := Some "log-5.xml" |}) |},
     snd (run_frames (reading_env 0 [[Some (CStr "w"); None]]) swarp (One "img.fits") None
                     [3; 5] true no_kwargs
                     {| heap := {[ default_config := [("WRITE_XML", VStr "Y");
                                                      ("XML_NAME", VStr "log.xml")] ]};
                        files := {[ "log-3.xml" := "a"; "log-5.xml" := "b" ]};
                        spawned := []; warned := []; logged := [] |}))
  /\ Forall int64 [3; 5]
  /\ exists all_warnings,
      Some (Some {| rows := [ {| cells := [CStr "w"; CInt 0]; frame_tag := Some 3 |};
                              {| cells := [CStr "w"; CInt 0]; frame_tag := Some 5 |} ];
                    meta_filename := Some "log-5.xml" |}) = Some all_warnings
      /\ tagged_by [3; 5] all_warnings.
Proof.
  match goal with |- ?A /\ _ => assert (H : A) by (vm_compute; reflexivity) end.
  assert (Hf : Forall int64 [3; 5]) by (repeat constructor; unfold int64; lia).
  split; [exact H|]. split; [exact Hf|].
  exact (X17_run_frames_warnings_tagged _ _ _ _ _ _ _ _ _ _ Hf H).
Defined.

(** A child that returns no positive code and leaves no file at the path
    of the report: the report step raises [IOError]. *)
Lemma run_cmd_missing_report E self this_cmd path raise_error frame w :
  shell_ok E = true ->
  p_returncode (child E this_cmd w) <= 0 ->
  p_files (child E this_cmd w) !! report_path path frame = None ->
  exists w',
    _run_cmd E self this_cmd false (Some (VStr path)) raise_error frame w
    = (Raise (IOError (report_path path frame)), w').
Proof.
  intros Hs Hrc Hf.
  assert (Hx : exists w1,
             execute E this_cmd false (Some (VStr path)) w = (Ok fresh_result, w1)
             /\ files w1 = p_files (child E this_cmd w)).
  { unfold execute, log, call, spawn, child in *.
    unfold bind at 1. unfold modify. unfold bind at 1. unfold bind at 1.
    rewrite Hs. simpl. apply Z.ltb_ge in Hrc. rewrite Hrc. eexists. split; reflexivity. }
  destruct Hx as (w1 & Hx & Hfs). rewrite <- Hfs in Hf.
  unfold _run_cmd. rewrite (bind_eq_Ok _ _ _ _ _ Hx).
  eexists. apply bind_eq_Raise. unfold log_warnings.
  rewrite (bind_eq_Ok _ _ w1 path w1) by reflexivity.
  destruct (String.eqb (code self) "SExtractor"); unfold when.
  - unfold bind at 1. now rewrite (bind_eq_Raise _ _ _ _ _ (read_text_missing _ _ Hf)).
  - unfold bind at 1. unfold ret. unfold parse, bind, read_file. rewrite Hf. reflexivity.
Qed.

(** X18.  [run_frames] asks for reports whenever [WRITE_XML] is true in
    Python's sense, so also for the string [N], and [XML_NAME] is a
    string: when the child of the first frame returns no positive code
    and leaves no file at the report path of that frame, [run_frames]
    raises [IOError] for that path, whatever [raise_error] is. *)
Theorem X18_run_frames_expects_report :
  forall (E : env) (self : Astromatic) (filenames : fnames) (code_arg : option string)
         (frame : Z) (rest : list Z) (raise_error : bool) (kw : kwargs) (w : world)
         (d : dict) (v : pyval) (x this_cmd : string) (kw' : kwargs) (w1 : world)
         (flag_img weight_img : option pyval) (c : string),
    heap w !! config_of self kw = Some d ->
    dict_get d "WRITE_XML" = Some v -> truthy v = true ->
    dict_get d "XML_NAME" = Some (VStr x) ->
    (from_option id (code self) code_arg = "SExtractor"
     /\ flag_img = dict_get d "FLAG_IMAGE" /\ weight_img = dict_get d "WEIGHT_IMAGE")
    \/ (from_option id (code self) code_arg = "SWarp"
        /\ flag_img = None /\ weight_img = None) ->
    build_cmd E self filenames (frames_kwargs self code_arg kw) w = (Ok (this_cmd, kw'), w1) ->
    fst (frame_cmd this_cmd (names_of filenames) flag_img weight_img (Some (VStr x)) frame w)
    = Ok c ->
    shell_ok E = true ->
    p_returncode (child E c w1) <= 0 ->
    p_files (child E c w1) !! report_path x (Some (PyStr.str frame)) = None ->
    exists w',
      run_frames E self filenames code_arg (frame :: rest) raise_error kw w
      = (Raise (IOError (report_path x (Some (PyStr.str frame)))), w').
Proof.
  intros E self filenames code_arg frame rest raise_error kw w d v x this_cmd kw' w1
         flag_img weight_img c Hd Hv Ht Hx Hcode Hb Hc Hs Hrc Hf.
  destruct (run_cmd_missing_report E self c x raise_error (Some (PyStr.str frame)) w1
              Hs Hrc Hf) as (w' & Hr).
  exists w'. unfold run_frames.
  rewrite (bind_eq_Ok _ _ w d w)
    by (unfold heap_get; unfold config_of in Hd; now rewrite Hd).
  assert (Himgs :
            (if String.eqb (from_option id (code self) code_arg) "SExtractor"
             then ret (dict_get d "FLAG_IMAGE", dict_get d "WEIGHT_IMAGE")
             else if negb (String.eqb (from_option id (code self) code_arg) "SWarp")
                  then raise (AstromaticError no_frames_msg)
                  else ret (None, None)) w = (Ok (flag_img, weight_img), w)).
  { destruct Hcode as [(-> & -> & ->) | (-> & -> & ->)]; reflexivity. }
  rewrite (bind_eq_Ok _ _ _ _ _ Himgs).
  unfold dict_in. rewrite Hv, Hx. simpl. rewrite Ht. simpl.
  unfold frames_kwargs, config_of in Hb. rewrite (bind_eq_Ok _ _ _ _ _ Hb).
  apply bind_eq_Raise.
  assert (Hfc : frame_cmd this_cmd (names_of filenames) flag_img weight_img
                          (Some (VStr x)) frame w1 = (Ok c, w1))
    by (now rewrite (frame_cmd_pure _ _ _ _ _ _ w1 w), Hc).
  unfold names_of in Hfc. cbn [frames_loop].
  rewrite (bind_eq_Ok _ _ _ _ _ Hfc).
  apply bind_eq_Raise. exact Hr.
Qed.

(** X18 at a configuration with [WRITE_XML: 'N']. *)
Lemma X18_witness :
  (heap world_xml_n !! config_of swarp no_kwargs
   = Some [("WRITE_XML", VStr "N"); ("XML_NAME", VStr "log.xml")]
   /\ truthy (VStr "N") = true
   /\ build_cmd (plain_env [] 0) swarp (One "img.fits") (frames_kwargs swarp None no_kwargs)
                world_xml_n
      = (Ok ("swarp img.fits -WRITE_XML N -XML_NAME log.xml",
             update_kwargs swarp (frames_kwargs swarp None no_kwargs)), world_xml_n)
   /\ fst (frame_cmd "swarp img.fits -WRITE_XML N -XML_NAME log.xml" ["img.fits"] None None
                     (Some (VStr "log.xml")) 1 world_xml_n)
      = Ok "swarp img.fits[1] -WRITE_XML N -XML_NAME log-1.xml")
  /\ exists w',
      run_frames (plain_env [] 0) swarp (One "img.fits") None [1] false no_kwargs world_xml_n
      = (Raise (IOError "log-1.xml"), w').
Proof.
  split; [repeat split; vm_compute; reflexivity|].
  refine (X18_run_frames_expects_report (plain_env [] 0) swarp (One "img.fits") None 1 []
            false no_kwargs world_xml_n _ (VStr "N") "log.xml"
            "swarp img.fits -WRITE_XML N -XML_NAME log.xml" _ world_xml_n None None
            "swarp img.fits[1] -WRITE_XML N -XML_NAME log-1.xml"
            eq_refl eq_refl eq_refl eq_refl _ _ _ eq_refl _ eq_refl).
  - right. repeat split.
  - vm_compute. reflexivity.
  - vm_compute. reflexivity.
  - discriminate.
Defined.

(** ** More on the version query *)

Lemma get_version_after_spawn E self cmd_arg w c :
  version_cmd self cmd_arg w = (Ok c, w) ->
  shell_ok E = true ->
  exists w1, get_version E self cmd_arg w = scan_version (p_lines (child E "sex" w)) w1.
Proof.
  intros Hc Hs. unfold get_version. rewrite (bind_eq_Ok _ _ _ _ _ Hc).
  unfold bind, try_except, popen_readlines, bind, spawn, child, ret. rewrite Hs.
  eexists. reflexivity.
Qed.

(** X19.  When no line of the child's output has the word [version],
    in any letter case (so also when there is no output), [get_version]
    leaves its loop with [version] and [date] unbound and raises
    [UnboundLocalError], not the module's error. *)
Theorem X19_get_version_no_version_word :
  forall (E : env) (self : Astromatic) (cmd_arg : option string) (w : world) (c : string),
    version_cmd self cmd_arg w = (Ok c, w) ->
    shell_ok E = true ->
    (forall line, In line (p_lines (child E "sex" w)) ->
                  ~ In "version"%string (map PyStr.lower (PyStr.split line))) ->
    exists w', get_version E self cmd_arg w = (Raise UnboundLocalError, w').
Proof.
  intros E self cmd_arg w c Hc Hs Hno.
  destruct (get_version_after_spawn E self cmd_arg w c Hc Hs) as (w1 & ->).
  exists w1. apply scan_version_eq.
Qed.

(** X19 at a child that prints nothing. *)
Lemma X19_witness :
  (version_cmd sex_plain None world0 = (Ok "sex -v", world0)
   /\ shell_ok (plain_env [] 0) = true)
  /\ exists w', get_version (plain_env [] 0) sex_plain None world0
                = (Raise UnboundLocalError, w').
Proof.
  split; [split; reflexivity|].
  apply (X19_get_version_no_version_word (plain_env [] 0) sex_plain None world0 "sex -v");
    [reflexivity | reflexivity | intros line []].
Defined.

(** X20.  [get_version] never returns a version.  The words of the
    banner are [bytes] and the word that is looked for is a [str], so no
    line is ever taken: when the version command is assembled and the
    child started, the call ends in [UnboundLocalError] whatever the
    child prints, also for the banner of SExtractor itself; and every
    other call ends in an exception before that. *)
Theorem X20_get_version_never_returns :
  forall (E : env) (self : Astromatic) (cmd_arg : option string) (w : world),
    (forall v, fst (get_version E self cmd_arg w) <> Ok v)
    /\ (forall c, version_cmd self cmd_arg w = (Ok c, w) -> shell_ok E = true ->
                  exists w', get_version E self cmd_arg w = (Raise UnboundLocalError, w')).
Proof.
  intros E self cmd_arg w. split.
  - assert (Hr : exists e w', get_version E self cmd_arg w = (Raise e, w')).
    { unfold get_version.
      destruct (res_cases (version_cmd self cmd_arg) w)
        as [(c & w1 & Hc) | (e & w1 & Hc)].
      - rewrite (bind_eq_Ok _ _ _ _ _ Hc).
        unfold bind, try_except, popen_readlines, bind, spawn, ret, raise.
        destruct (shell_ok E); simpl; [rewrite scan_version_eq|]; eauto.
      - rewrite (bind_eq_Raise _ _ _ _ _ Hc). eauto. }
    destruct Hr as (e & w' & ->). discriminate.
  - intros c Hc Hs.
    destruct (get_version_after_spawn E self cmd_arg w c Hc Hs) as (w1 & ->).
    exists w1. apply scan_version_eq.
Qed.

(** X20 at the banner of SExtractor. *)
Lemma X20_witness :
  (version_cmd sex_plain None world0 = (Ok "sex -v", world0)
   /\ shell_ok (plain_env ["SExtractor  Version 2.19.5B (2014-03-05)"] 0) = true)
  /\ exists w',
      get_version (plain_env ["SExtractor  Version 2.19.5B (2014-03-05)"] 0) sex_plain None
                  world0 = (Raise UnboundLocalError, w').
Proof.
  split; [split; reflexivity|].
  destruct (X20_get_version_never_returns
              (plain_env ["SExtractor  Version 2.19.5B (2014-03-05)"] 0) sex_plain None
              world0) as (_ & H).
  exact (H "sex -v" eq_refl eq_refl).
Defined.

(** ** The convenience functions *)

Lemma pbind_eq_Ok {A B} (m : P A) (f : A -> P B) s a s1 :
  m s = (Ok a, s1) -> pbind m f s = f a s1.
Proof. intros H. unfold pbind. now rewrite H. Qed.

Lemma pbind_eq_Raise {A B} (m : P A) (f : A -> P B) s e s1 :
  m s = (Raise e, s1) -> pbind m f s = (Raise e, s1).
Proof. intros H. unfold pbind. now rewrite H. Qed.

Lemma kw_get_eq api s ak :
  kwargs_objs s !! api = Some ak -> kw_get api s = (Ok ak, s).
Proof. intros H. unfold kw_get. now rewrite H. Qed.

Lemma kw_set_eq api f s ak :
  kwargs_objs s !! api = Some ak ->
  kw_set api f s
  = (Ok tt, {| base := base s; kwargs_objs := <[ api := f ak ]> (kwargs_objs s) |}).
Proof. intros H. unfold kw_set. now rewrite H. Qed.

(** One step of a computation in a session. *)
Ltac pstep H := rewrite (pbind_eq_Ok _ _ _ _ _ H); cbv beta.

(** Without a temp directory in the call or in the pipeline, the common
    defaults stop at [pipeline.paths['temp']]. *)
Lemma common_defaults_no_temp pipeline code_name build_key api s ak :
  kwargs_objs s !! api = Some ak ->
  kw_temp_path ak = None ->
  paths pipeline !! "temp" = None ->
  exists s',
    common_defaults pipeline code_name build_key api s = (Raise (KeyError "temp"), s')
    /\ base s' = base s.
Proof.
  intros Hak Ht Hp. unfold common_defaults.
  pstep (kw_get_eq api s ak Hak).
  assert (H1 : exists s1 ak1,
             match kw_code ak with
             | Some _ => pret tt
             | None => kw_set api (with_code code_name)
             end s = (Ok tt, s1)
             /\ kwargs_objs s1 !! api = Some ak1 /\ kw_temp_path ak1 = None
             /\ base s1 = base s).
  { destruct (kw_code ak).
    - exists s, ak. auto.
    - rewrite (kw_set_eq api _ s ak Hak). eexists. exists (with_code code_name ak).
      split; [reflexivity|]. simpl. split; [apply lookup_insert_eq | auto]. }
  destruct H1 as (s1 & ak1 & H1 & Hak1 & Ht1 & Hb1).
  pstep H1. pstep (kw_get_eq api s1 ak1 Hak1).
  assert (H2 : exists s2 ak2,
             match kw_cmd ak1, build_paths pipeline !! build_key with
             | None, Some c => kw_set api (with_cmd c)
             | _, _ => pret tt
             end s1 = (Ok tt, s2)
             /\ kwargs_objs s2 !! api = Some ak2 /\ kw_temp_path ak2 = None
             /\ base s2 = base s1).
  { destruct (kw_cmd ak1); [exists s1, ak1; auto|].
    destruct (build_paths pipeline !! build_key) as [c|]; [|exists s1, ak1; auto].
    rewrite (kw_set_eq api _ s1 ak1 Hak1). eexists. exists (with_cmd c ak1).
    split; [reflexivity|]. simpl. split; [apply lookup_insert_eq | auto]. }
  destruct H2 as (s2 & ak2 & H2 & Hak2 & Ht2 & Hb2).
  pstep H2. pstep (kw_get_eq api s2 ak2 Hak2).
  exists s2. split; [|congruence].
  rewrite Ht2. unfold pbind, lookup_key. rewrite Hp. reflexivity.
Qed.

(** X21.  Without a [temp_path] in [api_kwargs] and without a [temp]
    entry in the paths of the pipeline, each of [run_sex], [run_scamp]
    and [run_psfex] raises [KeyError] for [temp]; nothing has been run
    and the world is as it was. *)
Theorem X21_missing_temp_directory :
  forall (E : env) (pipeline : Pipeline) (step_id : string) (api : positive)
         (s : session) (ak : kwargs),
    kwargs_objs s !! api = Some ak ->
    kw_temp_path ak = None ->
    paths pipeline !! "temp" = None ->
    (forall files_ frames,
        fst (run_sex E pipeline step_id files_ api frames s) = Raise (KeyError "temp")
        /\ base (snd (run_sex E pipeline step_id files_ api frames s)) = base s)
    /\ (forall catalogs save_catalog,
           fst (run_scamp E pipeline step_id catalogs api save_catalog s)
           = Raise (KeyError "temp")
           /\ base (snd (run_scamp E pipeline step_id catalogs api save_catalog s)) = base s)
    /\ (forall catalogs,
           fst (run_psfex E pipeline step_id catalogs api s) = Raise (KeyError "temp")
           /\ base (snd (run_psfex E pipeline step_id catalogs api s)) = base s).
Proof.
  intros E pipeline step_id api s ak Hak Ht Hp.
  split; [|split].
  - intros files_ frames.
    destruct (common_defaults_no_temp pipeline "SExtractor" "SExtractor" api s ak Hak Ht Hp)
      as (s' & Hc & Hb).
    unfold run_sex, sex_defaults.
    rewrite (pbind_eq_Raise _ _ _ _ _ (pbind_eq_Raise _ _ _ _ _ Hc)). auto.
  - intros catalogs save_catalog.
    destruct (common_defaults_no_temp pipeline "SCAMP" "SCAMP" api s ak Hak Ht Hp)
      as (s' & Hc & Hb).
    unfold run_scamp, scamp_defaults.
    rewrite (pbind_eq_Raise _ _ _ _ _ (pbind_eq_Raise _ _ _ _ _ Hc)). auto.
  - intros catalogs.
    destruct (common_defaults_no_temp pipeline "PSFEx" "PSFEx" api s ak Hak Ht Hp)
      as (s' & Hc & Hb).
    unfold run_psfex, psfex_defaults.
    rewrite (pbind_eq_Raise _ _ _ _ _ (pbind_eq_Raise _ _ _ _ _ Hc)). auto.
Qed.

(** X21 at a pipeline without paths. *)
Lemma X21_witness :
  (kwargs_objs (initial_session ∅) !! scamp_api_kwargs = Some no_kwargs
   /\ kw_temp_path no_kwargs = None
   /\ paths pipeline0 !! "temp" = None)
  /\ fst (run_scamp (plain_env [] 0) pipeline0 "step" (Many ["a.cat"]) scamp_api_kwargs None
                    (initial_session ∅))
     = Raise (KeyError "temp").
Proof.
  split; [repeat split|].
  destruct (X21_missing_temp_directory (plain_env [] 0) pipeline0 "step" scamp_api_kwargs
              (initial_session ∅) no_kwargs eq_refl eq_refl eq_refl) as (_ & H & _).
  exact (proj1 (H (Many ["a.cat"]) None)).
Defined.

(** *** What the runs do to the dictionaries *)

Lemma heap_fixed_ret {A} (a : A) : heap_fixed (ret a).
Proof. intros w. reflexivity. Qed.

Lemma heap_fixed_raise {A} (e : exn) : heap_fixed (@raise A e).
Proof. intros w. reflexivity. Qed.

Lemma heap_fixed_bind {A B} (m : M A) (f : A -> M B) :
  heap_fixed m -> (forall a, heap_fixed (f a)) -> heap_fixed (bind m f).
Proof.
  intros Hm Hf w. unfold bind. specialize (Hm w).
  destruct (m w) as [[a|e] w1]; simpl in *; [now rewrite Hf | exact Hm].
Qed.

Lemma heap_fixed_for_each {A} (l : list A) (body : A -> M unit) :
  (forall x, heap_fixed (body x)) -> heap_fixed (for_each l body).
Proof.
  intros H. induction l as [|x l IH]; simpl; [apply heap_fixed_ret|].
  apply heap_fixed_bind; [apply H | intros _; exact IH].
Qed.

Lemma heap_fixed_as_str v : heap_fixed (as_str v).
Proof. destruct v; first [apply heap_fixed_ret | apply heap_fixed_raise]. Qed.

Lemma heap_fixed_getitem {A} key (o : option A) : heap_fixed (getitem key o).
Proof. destruct o; [apply heap_fixed_ret | apply heap_fixed_raise]. Qed.

Lemma heap_fixed_heap_get l : heap_fixed (heap_get l).
Proof. intros w. unfold heap_get. destruct (heap w !! l); reflexivity. Qed.

Lemma heap_fixed_read_file path : heap_fixed (read_file path).
Proof. intros w. unfold read_file. destruct (files w !! path); reflexivity. Qed.

Lemma heap_fixed_read_text path : heap_fixed (read_text path).
Proof.
  apply heap_fixed_bind; [apply heap_fixed_read_file | intros c; apply heap_fixed_ret].
Qed.

Lemma heap_fixed_parse E lenient path : heap_fixed (parse E lenient path).
Proof.
  apply heap_fixed_bind; [apply heap_fixed_read_file|]. intros c.
  destruct (votable_parse E lenient c); [apply heap_fixed_ret | apply heap_fixed_raise].
Qed.

Lemma heap_fixed_open_w E path : heap_fixed (open_w E path).
Proof. intros w. unfold open_w. destruct (can_write E path); reflexivity. Qed.

Lemma heap_fixed_spawn E this_cmd : heap_fixed (spawn E this_cmd).
Proof. intros w. unfold spawn. destruct (shell_ok E); reflexivity. Qed.

Lemma heap_fixed_execute E this_cmd store_output xml_name :
  heap_fixed (execute E this_cmd store_output xml_name).
Proof.
  unfold execute. apply heap_fixed_bind; [intros w; reflexivity|]. intros _.
  destruct store_output.
  - apply heap_fixed_bind.
    + apply heap_fixed_bind; [apply heap_fixed_spawn | intros; apply heap_fixed_ret].
    + intros output w. rewrite scan_output_eq. destruct output; reflexivity.
  - apply heap_fixed_bind.
    + apply heap_fixed_bind; [apply heap_fixed_spawn | intros; apply heap_fixed_ret].
    + intros st. destruct (0 <? st); [|apply heap_fixed_ret].
      destruct xml_name as [x|]; [|apply heap_fixed_ret].
      apply heap_fixed_bind; [apply heap_fixed_as_str|]. intros path.
      apply heap_fixed_bind; [apply heap_fixed_parse|]. intros vo.
      apply heap_fixed_bind; [|intros; apply heap_fixed_ret].
      destruct (vo_params vo); [apply heap_fixed_ret | apply heap_fixed_raise].
Qed.

Lemma heap_fixed_log_warnings E self xml_name frame r :
  heap_fixed (log_warnings E self xml_name frame r).
Proof.
  unfold log_warnings. destruct xml_name as [x|]; [|apply heap_fixed_ret].
  apply heap_fixed_bind; [apply heap_fixed_as_str|]. intros path.
  apply heap_fixed_bind.
  - unfold when. destruct (String.eqb _ _); [|apply heap_fixed_ret].
    apply heap_fixed_bind; [apply heap_fixed_read_text|]. intros c.
    apply heap_fixed_bind; [apply heap_fixed_open_w|]. intros _.
    apply heap_fixed_for_each. intros line w. reflexivity.
  - intros _. apply heap_fixed_bind; [apply heap_fixed_parse|]. intros vo.
    destruct (table_by_id _ _); [apply heap_fixed_ret | apply heap_fixed_raise].
Qed.

Lemma heap_fixed_run_cmd E self this_cmd store_output xml_name raise_error frame :
  heap_fixed (_run_cmd E self this_cmd store_output xml_name raise_error frame).
Proof.
  unfold _run_cmd. apply heap_fixed_bind; [apply heap_fixed_execute|]. intros r1.
  apply heap_fixed_bind; [apply heap_fixed_log_warnings|]. intros r2.
  unfold raise_if_error. destruct (_ && _); [apply heap_fixed_raise | apply heap_fixed_ret].
Qed.

Lemma heap_fixed_init code_ tp cfg cf so c p : heap_fixed (init code_ tp cfg cf so c p).
Proof.
  unfold init. apply heap_fixed_bind; [|intros; apply heap_fixed_ret].
  unfold when. destruct (negb _); [intros w; reflexivity | apply heap_fixed_ret].
Qed.

Lemma keeps_of_fixed {A} cfg k v (m : M A) : heap_fixed m -> keeps_entry cfg k v m.
Proof. intros H w d Hd Hk. rewrite H. eauto. Qed.

Lemma keeps_bind {A B} cfg k v (m : M A) (f : A -> M B) :
  keeps_entry cfg k v m -> (forall a, keeps_entry cfg k v (f a)) ->
  keeps_entry cfg k v (bind m f).
Proof.
  intros Hm Hf w d Hd Hk. unfold bind. destruct (Hm w d Hd Hk) as (d1 & Hd1 & Hk1).
  destruct (m w) as [[a|e] w1]; simpl in *; [|eauto].
  exact (Hf a w1 d1 Hd1 Hk1).
Qed.

Lemma dict_get_set_ne (d : dict) (k k' : string) (v : pyval) :
  k' <> k -> dict_get (dict_set d k' v) k = dict_get d k.
Proof.
  intros Hne. induction d as [|[k0 v0] d IH]; simpl.
  - apply String.eqb_neq in Hne. now rewrite Hne.
  - destruct (String.eqb k0 k') eqn:H0; simpl.
    + apply String.eqb_eq in H0. subst k0.
      apply String.eqb_neq in Hne. now rewrite Hne.
    + now rewrite IH.
Qed.

(** An assignment to another key keeps the entry. *)
Lemma keeps_heap_setitem cfg k v l k' v' :
  k' <> k -> keeps_entry cfg k v (heap_setitem l k' v').
Proof.
  intros Hne w d Hd Hk. unfold heap_setitem, bind, heap_get, modify.
  destruct (heap w !! l) as [dl|] eqn:Hl; simpl; [|eauto].
  destruct (decide (l = cfg)) as [->|Hlc].
  - rewrite lookup_insert_eq. rewrite Hd in Hl. injection Hl as <-.
    eexists. split; [reflexivity|]. now rewrite dict_get_set_ne.
  - rewrite lookup_insert_ne by exact Hlc. eauto.
Qed.

Lemma keeps_sextractor_params E kw cfg k v :
  k <> "PARAMETERS_NAME"%string -> keeps_entry cfg k v (sextractor_params E kw).
Proof.
  intros Hne. unfold sextractor_params.
  apply keeps_bind; [apply keeps_of_fixed, heap_fixed_getitem|]. intros l.
  destruct (kw_params kw) as [ps|].
  - apply keeps_bind; [apply keeps_of_fixed, heap_fixed_heap_get|]. intros d.
    apply keeps_bind.
    { apply keeps_of_fixed. unfold when. destruct (dict_in _ d);
        [intros w; reflexivity | apply heap_fixed_ret]. }
    intros _. destruct (kw_temp_path kw) as [tp|];
      [|apply keeps_of_fixed, heap_fixed_raise].
    apply keeps_bind.
    { apply keeps_of_fixed. destruct tp; [apply heap_fixed_ret | apply heap_fixed_raise]. }
    intros dir. apply keeps_bind; [apply keeps_of_fixed, heap_fixed_open_w|]. intros _.
    apply keeps_bind.
    { apply keeps_of_fixed, heap_fixed_for_each. intros p w. reflexivity. }
    intros _. apply keeps_heap_setitem. congruence.
  - apply keeps_of_fixed.
    apply heap_fixed_bind; [apply heap_fixed_heap_get|]. intros d.
    destruct (dict_in _ d); [apply heap_fixed_ret | apply heap_fixed_raise].
Qed.

Lemma keeps_build_cmd E self filenames kw cfg k v :
  k <> "PARAMETERS_NAME"%string -> keeps_entry cfg k v (build_cmd E self filenames kw).
Proof.
  intros Hne w d Hd Hk. rewrite build_cmd_eq.
  assert (Hb : keeps_entry cfg k v
                 (when (String.eqb (code_of self kw) "SExtractor")
                       (sextractor_params E (update_kwargs self kw)))).
  { unfold when. destruct (String.eqb _ _);
      [now apply keeps_sextractor_params | apply keeps_of_fixed, heap_fixed_ret]. }
  specialize (Hb w d Hd Hk).
  destruct (when _ _ w) as [[u|e] w1]; simpl in Hb; [|exact Hb].
  destruct (resolve_cmd _ _) as [c|]; [|exact Hb].
  destruct (pad c) as [c'|]; [|exact Hb].
  destruct (heap w1 !! config_of self kw); exact Hb.
Qed.

Lemma keeps_run E self filenames store_output raise_error kw cfg k v :
  k <> "PARAMETERS_NAME"%string ->
  keeps_entry cfg k v (run E self filenames store_output raise_error kw).
Proof.
  intros Hne. unfold run.
  apply keeps_bind; [now apply keeps_build_cmd|]. intros [this_cmd kw'].
  apply keeps_bind; [apply keeps_of_fixed, heap_fixed_getitem|]. intros l.
  apply keeps_bind; [apply keeps_of_fixed, heap_fixed_heap_get|]. intros d.
  apply keeps_of_fixed, heap_fixed_run_cmd.
Qed.

Lemma heap_fixed_frames_loop E self this_cmd names flag_img weight_img xml_name raise_error
    frames :
  forall all_warnings,
    heap_fixed (frames_loop E self this_cmd names flag_img weight_img xml_name raise_error
                            frames all_warnings).
Proof.
  induction frames as [|frame rest IH]; intros all_warnings; simpl;
    [apply heap_fixed_ret|].
  apply heap_fixed_bind.
  { intros w. now rewrite (frame_cmd_pure _ _ _ _ _ _ w w). }
  intros c. apply heap_fixed_bind; [apply heap_fixed_run_cmd|]. intros r.
  apply heap_fixed_bind; [|intros aw; apply IH].
  intros w. now rewrite combine_warnings_pure.
Qed.

Lemma keeps_run_frames E self filenames code_arg frames raise_error kw cfg k v :
  k <> "PARAMETERS_NAME"%string ->
  keeps_entry cfg k v (run_frames E self filenames code_arg frames raise_error kw).
Proof.
  intros Hne. unfold run_frames.
  apply keeps_bind; [apply keeps_of_fixed, heap_fixed_heap_get|]. intros d.
  apply keeps_bind.
  { apply keeps_of_fixed. destruct (String.eqb _ "SExtractor"); [apply heap_fixed_ret|].
    destruct (negb _); [apply heap_fixed_raise | apply heap_fixed_ret]. }
  intros [flag_img weight_img].
  apply keeps_bind; [now apply keeps_build_cmd|]. intros [this_cmd kw'].
  apply keeps_bind; [apply keeps_of_fixed, heap_fixed_frames_loop|]. intros aw.
  apply keeps_of_fixed, heap_fixed_ret.
Qed.

(** *** Keeping an entry through a call *)

Section Keeping.

Variable api : positive.
Variable cfg : loc.
Variable k : string.
Variable v : pyval.

Let I : session -> Prop := has_entry api cfg k v.

Lemma pt_ret {A} (a : A) (Q : A -> Prop) : Q a -> ptriple I (pret a) Q.
Proof. intros Ha s Hs. split; [exact Hs|]. intros a' H. now injection H as <-. Qed.

Lemma pt_raise {A} (e : exn) (Q : A -> Prop) : ptriple I (praise e) Q.
Proof. intros s Hs. split; [exact Hs | discriminate]. Qed.

Lemma pt_bind {A B} (m : P A) (f : A -> P B) (Q : A -> Prop) (R : B -> Prop) :
  ptriple I m Q -> (forall a, Q a -> ptriple I (f a) R) -> ptriple I (pbind m f) R.
Proof.
  intros Hm Hf s Hs. unfold pbind. destruct (Hm s Hs) as (H1 & H2).
  destruct (m s) as [[a|e] s1]; simpl in *.
  - exact (Hf a (H2 a eq_refl) s1 H1).
  - split; [exact H1 | discriminate].
Qed.

Lemma pt_weaken {A} (m : P A) (Q Q' : A -> Prop) :
  ptriple I m Q -> (forall a, Q a -> Q' a) -> ptriple I m Q'.
Proof. intros Hm Hq s Hs. destruct (Hm s Hs) as (H1 & H2). split; auto. Qed.

Lemma pt_kw_get : ptriple I (kw_get api) (fun ak => kw_config ak = Some cfg).
Proof.
  intros s Hs. pose proof Hs as ((ak & Hak & Hc) & _).
  unfold kw_get. rewrite Hak. simpl. split; [exact Hs|].
  intros a H. now injection H as <-.
Qed.

Lemma pt_kw_set (f : kwargs -> kwargs) :
  (forall ak, kw_config (f ak) = kw_config ak) -> ptriple I (kw_set api f) (fun _ => True).
Proof.
  intros Hf s ((ak & Hak & Hc) & Hd). unfold kw_set. rewrite Hak. simpl.
  split; [|auto]. split; [|exact Hd].
  exists (f ak). simpl. split; [apply lookup_insert_eq | now rewrite Hf].
Qed.

Lemma pt_lookup_key key (d : gmap string string) :
  ptriple I (lookup_key key d) (fun _ => True).
Proof. unfold lookup_key. destruct (d !! key); [now apply pt_ret | apply pt_raise]. Qed.

Lemma pt_lift {A} (m : M A) : keeps_entry cfg k v m -> ptriple I (lift m) (fun _ => True).
Proof.
  intros Hm s (Hak & (d & Hd & Hk)). unfold lift.
  destruct (Hm (base s) d Hd Hk) as (d' & Hd' & Hk').
  destruct (m (base s)) as [r w]. simpl in *. split; [|auto].
  split; [exact Hak | eauto].
Qed.

Lemma pt_heap_get : ptriple I (lift (heap_get cfg)) (fun d => dict_get d k = Some v).
Proof.
  intros s (Hak & (d & Hd & Hk)). unfold lift, heap_get. rewrite Hd. simpl.
  split; [split; [exact Hak | eauto]|].
  intros a H. now injection H as <-.
Qed.

(** A guarded assignment [if key not in config: config[key] = ...]
    keeps the entry: its own key is there already, another key is
    another entry. *)
Lemma pt_guarded_set {A} (d : dict) key (rhs : P A) (val : A -> pyval) :
  dict_get d k = Some v ->
  ptriple I rhs (fun _ => True) ->
  ptriple I (if dict_in key d then pret tt
             else pbind rhs (fun a => lift (heap_setitem cfg key (val a))))
          (fun _ => True).
Proof.
  intros Hk Hrhs. unfold dict_in.
  destruct (String.eqb key k) eqn:Hkey.
  - apply String.eqb_eq in Hkey. subst key. rewrite Hk. now apply pt_ret.
  - apply String.eqb_neq in Hkey.
    destruct (dict_get d key); [now apply pt_ret|].
    eapply pt_bind; [exact Hrhs|]. intros a _.
    apply pt_lift, keeps_heap_setitem. exact Hkey.
Qed.

Lemma pt_config_default key val : ptriple I (config_default cfg key val) (fun _ => True).
Proof.
  unfold config_default. eapply pt_bind; [apply pt_heap_get|]. intros d Hk.
  unfold dict_in. destruct (String.eqb key k) eqn:Hkey.
  - apply String.eqb_eq in Hkey. subst key. rewrite Hk. now apply pt_ret.
  - apply String.eqb_neq in Hkey.
    destruct (dict_get d key); [now apply pt_ret|].
    apply pt_lift, keeps_heap_setitem. exact Hkey.
Qed.

Lemma pt_xml_defaults pipeline step_id suffix :
  ptriple I (xml_defaults pipeline step_id cfg suffix) (fun _ => True).
Proof.
  unfold xml_defaults. destruct (paths pipeline !! "log"); [|now apply pt_ret].
  eapply pt_bind; [apply pt_config_default|]. intros _ _. apply pt_config_default.
Qed.

Lemma pt_common_defaults pipeline code_name build_key :
  ptriple I (common_defaults pipeline code_name build_key api) (fun c => c = cfg).
Proof.
  unfold common_defaults.
  eapply pt_bind; [apply pt_kw_get|]. intros ak1 _.
  eapply pt_bind.
  { destruct (kw_code ak1); [now apply (pt_ret tt (fun _ => True))|].
    now apply pt_kw_set. }
  intros _ _. eapply pt_bind; [apply pt_kw_get|]. intros ak2 _.
  eapply pt_bind.
  { destruct (kw_cmd ak2); [now apply (pt_ret tt (fun _ => True))|].
    destruct (build_paths pipeline !! build_key);
      [now apply pt_kw_set | now apply (pt_ret tt (fun _ => True))]. }
  intros _ _. eapply pt_bind; [apply pt_kw_get|]. intros ak3 _.
  eapply pt_bind.
  { destruct (kw_temp_path ak3); [now apply (pt_ret tt (fun _ => True))|].
    eapply pt_bind; [apply pt_lookup_key|]. intros t _. now apply pt_kw_set. }
  intros _ _. eapply pt_bind; [apply pt_kw_get|]. intros ak4 Hc.
  rewrite Hc. now apply pt_ret.
Qed.

Lemma pt_construct : ptriple I (construct api) (fun _ => True).
Proof.
  unfold construct. eapply pt_bind; [apply pt_kw_get|]. intros ak _.
  destruct (kw_code ak); [|apply pt_raise].
  apply pt_lift, keeps_of_fixed, heap_fixed_init.
Qed.

(** The steps of [run_sex] after the catalog name. *)
Lemma pt_sex_images (files_ : gmap string string) pipeline step_id :
  ptriple I
    (pbind (lift (heap_get cfg))
       (fun d =>
          pbind match dict_in "FLAG_IMAGE" d, files_ !! "dqmask" with
                | false, Some f => lift (heap_setitem cfg "FLAG_IMAGE" (VStr f))
                | _, _ => pret tt
                end
            (fun _ =>
               pbind (lift (heap_get cfg))
                 (fun d =>
                    pbind match dict_in "WEIGHT_IMAGE" d, files_ !! "wtmap" with
                          | false, Some f => lift (heap_setitem cfg "WEIGHT_IMAGE" (VStr f))
                          | _, _ => pret tt
                          end
                      (fun _ => xml_defaults pipeline step_id cfg ".sex.log.xml")))))
    (fun _ => True).
Proof.
  assert (Hstep : forall key (d : dict) (o : option string),
             dict_get d k = Some v ->
             ptriple I match dict_in key d, o with
                       | false, Some f => lift (heap_setitem cfg key (VStr f))
                       | _, _ => pret tt
                       end (fun _ => True)).
  { intros key d o Hk. unfold dict_in.
    destruct (String.eqb key k) eqn:Hkey.
    - apply String.eqb_eq in Hkey. subst key. rewrite Hk. now apply pt_ret.
    - apply String.eqb_neq in Hkey.
      destruct (dict_get d key); [now apply pt_ret|].
      destruct o; [|now apply pt_ret].
      apply pt_lift, keeps_heap_setitem. exact Hkey. }
  eapply pt_bind; [apply pt_heap_get|]. intros d1 Hk1.
  eapply pt_bind; [now apply Hstep|]. intros _ _.
  eapply pt_bind; [apply pt_heap_get|]. intros d2 Hk2.
  eapply pt_bind; [now apply Hstep|]. intros _ _.
  apply pt_xml_defaults.
Qed.

Lemma pt_sex_defaults pipeline step_id files_ :
  ptriple I (sex_defaults pipeline step_id files_ api) (fun _ => True).
Proof.
  unfold sex_defaults.
  eapply pt_bind; [apply pt_common_defaults|]. intros c ->.
  eapply pt_bind; [apply pt_heap_get|]. intros d Hk.
  eapply pt_bind; [|intros _ _; apply pt_sex_images].
  apply (pt_guarded_set d "CATALOG_NAME" (lookup_key "image" files_)
           (fun image => VStr (PyStr.replace ".fits" ".cat" image)) Hk).
  apply pt_lookup_key.
Qed.

Lemma pt_run_sex E pipeline step_id files_ frames :
  k <> "PARAMETERS_NAME"%string ->
  ptriple I (run_sex E pipeline step_id files_ api frames) (fun _ => True).
Proof.
  intros Hne. unfold run_sex.
  eapply pt_bind; [apply pt_sex_defaults|]. intros _ _.
  eapply pt_bind; [apply pt_construct|]. intros sex _.
  eapply pt_bind; [apply pt_lookup_key|]. intros image _.
  destruct frames; apply pt_lift; [now apply keeps_run | now apply keeps_run_frames].
Qed.

End Keeping.

(** *** The first call on a dictionary without [config] *)

Lemma lift_heap_get_eq cfg s d :
  heap (base s) !! cfg = Some d ->
  lift (heap_get cfg) s = (Ok d, {| base := base s; kwargs_objs := kwargs_objs s |}).
Proof. intros H. unfold lift, heap_get. now rewrite H. Qed.

Lemma lift_heap_setitem_eq cfg key val s d :
  heap (base s) !! cfg = Some d ->
  lift (heap_setitem cfg key val) s
  = (Ok tt, {| base := set_heap (<[ cfg := dict_set d key val ]> (heap (base s))) (base s);
               kwargs_objs := kwargs_objs s |}).
Proof. intros H. unfold lift, heap_setitem, bind, heap_get, modify. now rewrite H. Qed.

(** The common defaults on an object without [config]: a new, empty
    dictionary becomes its configuration. *)
Lemma common_defaults_fresh pipeline code_name build_key api s ak :
  kwargs_objs s !! api = Some ak ->
  kw_config ak = None ->
  (kw_temp_path ak = None -> is_Some (paths pipeline !! "temp")) ->
  exists s',
    common_defaults pipeline code_name build_key api s
    = (Ok (fresh (dom (heap (base s)))), s')
    /\ (exists ak', kwargs_objs s' !! api = Some ak'
                    /\ kw_config ak' = Some (fresh (dom (heap (base s)))))
    /\ heap (base s') = <[ fresh (dom (heap (base s))) := [] ]> (heap (base s)).
Proof.
  intros Hak Hc Ht. unfold common_defaults.
  pstep (kw_get_eq api s ak Hak).
  assert (H1 : exists s1 ak1,
             match kw_code ak with
             | Some _ => pret tt
             | None => kw_set api (with_code code_name)
             end s = (Ok tt, s1)
             /\ kwargs_objs s1 !! api = Some ak1 /\ kw_config ak1 = None
             /\ kw_temp_path ak1 = kw_temp_path ak /\ base s1 = base s).
  { destruct (kw_code ak).
    - exists s, ak. auto.
    - rewrite (kw_set_eq api _ s ak Hak). eexists. exists (with_code code_name ak).
      split; [reflexivity|]. simpl. split; [apply lookup_insert_eq | auto]. }
  destruct H1 as (s1 & ak1 & H1 & Hak1 & Hc1 & Ht1 & Hb1).
  pstep H1. pstep (kw_get_eq api s1 ak1 Hak1).
  assert (H2 : exists s2 ak2,
             match kw_cmd ak1, build_paths pipeline !! build_key with
             | None, Some c => kw_set api (with_cmd c)
             | _, _ => pret tt
             end s1 = (Ok tt, s2)
             /\ kwargs_objs s2 !! api = Some ak2 /\ kw_config ak2 = None
             /\ kw_temp_path ak2 = kw_temp_path ak1 /\ base s2 = base s1).
  { destruct (kw_cmd ak1); [exists s1, ak1; auto|].
    destruct (build_paths pipeline !! build_key) as [c|]; [|exists s1, ak1; auto].
    rewrite (kw_set_eq api _ s1 ak1 Hak1). eexists. exists (with_cmd c ak1).
    split; [reflexivity|]. simpl. split; [apply lookup_insert_eq | auto]. }
  destruct H2 as (s2 & ak2 & H2 & Hak2 & Hc2 & Ht2 & Hb2).
  pstep H2. pstep (kw_get_eq api s2 ak2 Hak2).
  assert (H3 : exists s3 ak3,
             match kw_temp_path ak2 with
             | Some _ => pret tt
             | None => pbind (lookup_key "temp" (paths pipeline))
                             (fun t => kw_set api (with_temp_path t))
             end s2 = (Ok tt, s3)
             /\ kwargs_objs s3 !! api = Some ak3 /\ kw_config ak3 = None
             /\ base s3 = base s2).
  { destruct (kw_temp_path ak2) eqn:Htp; [exists s2, ak2; auto|].
    destruct Ht as (t & Hpt); [congruence|].
    unfold pbind, lookup_key. rewrite Hpt. simpl.
    rewrite (kw_set_eq api _ s2 ak2 Hak2). eexists. exists (with_temp_path t ak2).
    split; [reflexivity|]. simpl. split; [apply lookup_insert_eq | auto]. }
  destruct H3 as (s3 & ak3 & H3 & Hak3 & Hc3 & Hb3).
  pstep H3. pstep (kw_get_eq api s3 ak3 Hak3). rewrite Hc3.
  assert (Hb : base s3 = base s) by congruence.
  unfold pbind, lift, new_dict. simpl.
  rewrite (kw_set_eq api _ _ ak3) by exact Hak3. simpl.
  rewrite Hb. eexists. split; [reflexivity|]. simpl.
  split; [|reflexivity].
  exists (with_config (fresh (dom (heap (base s)))) ak3).
  split; [apply lookup_insert_eq | reflexivity].
Qed.

(** After the defaults of [run_sex] on an object without [config], the
    configuration has the catalog name of the image. *)
Lemma sex_defaults_first pipeline step_id files_ api s ak image :
  kwargs_objs s !! api = Some ak ->
  kw_config ak = None ->
  (kw_temp_path ak = None -> is_Some (paths pipeline !! "temp")) ->
  files_ !! "image" = Some image ->
  has_entry api (fresh (dom (heap (base s)))) "CATALOG_NAME"
            (VStr (PyStr.replace ".fits" ".cat" image))
            (snd (sex_defaults pipeline step_id files_ api s)).
Proof.
  intros Hak Hc Ht Him.
  destruct (common_defaults_fresh pipeline "SExtractor" "SExtractor" api s ak Hak Hc Ht)
    as (s1 & H1 & (ak1 & Hak1 & Hc1) & Hh1).
  set (cfg := fresh (dom (heap (base s)))) in *.
  unfold sex_defaults. pstep H1.
  assert (Hd1 : heap (base s1) !! cfg = Some []) by (rewrite Hh1; apply lookup_insert_eq).
  pstep (lift_heap_get_eq cfg s1 [] Hd1).
  change (dict_in "CATALOG_NAME" []) with false. cbv iota.
  set (s2 := {| base := base s1; kwargs_objs := kwargs_objs s1 |}).
  assert (Hd2 : heap (base s2) !! cfg = Some []) by exact Hd1.
  assert (Hset : pbind (lookup_key "image" files_)
                       (fun image => lift (heap_setitem cfg "CATALOG_NAME"
                                             (VStr (PyStr.replace ".fits" ".cat" image)))) s2
                 = (Ok tt, {| base := set_heap (<[ cfg := dict_set [] "CATALOG_NAME"
                                  (VStr (PyStr.replace ".fits" ".cat" image)) ]>
                                  (heap (base s2))) (base s2);
                              kwargs_objs := kwargs_objs s2 |})).
  { unfold pbind at 1. unfold lookup_key. rewrite Him. unfold pret.
    apply (lift_heap_setitem_eq cfg _ _ s2 [] Hd2). }
  pstep Hset.
  match goal with |- has_entry _ _ _ _ (snd (?m ?s3)) =>
    assert (Ht3 : ptriple (has_entry api cfg "CATALOG_NAME"
                                     (VStr (PyStr.replace ".fits" ".cat" image)))
                          m (fun _ => True));
      [|apply (Ht3 s3)] end.
  - apply pt_sex_images.
  - split.
    + exists ak1. split; [exact Hak1 | exact Hc1].
    + eexists. split; [simpl; apply lookup_insert_eq | reflexivity].
Qed.

Lemma ptriple_after {A B} (I : session -> Prop) (m : P A) (f : A -> P B) s :
  I (snd (m s)) -> (forall a, ptriple I (f a) (fun _ => True)) -> I (snd (pbind m f s)).
Proof.
  intros Hm Hf. unfold pbind. destruct (m s) as [[a|e] s1]; simpl in *.
  - now apply (Hf a s1).
  - exact Hm.
Qed.

(** X22.  [run_sex] stores its defaults in the [api_kwargs] dictionary
    it is given (or in the one dictionary of its default argument), and
    a later call with the same dictionary finds them: after a first call
    on a dictionary without [config] for an image, a second call, for
    whatever image, step and pipeline, still has the catalog name of the
    first image as [CATALOG_NAME]. *)
Theorem X22_run_sex_keeps_first_catalog :
  forall (E : env) (pipeline_1 pipeline_2 : Pipeline) (step_1 step_2 : string)
         (files_1 files_2 : gmap string string) (frames_1 frames_2 : list Z)
         (api : positive) (s : session) (ak : kwargs) (image_1 : string),
    kwargs_objs s !! api = Some ak ->
    kw_config ak = None ->
    (kw_temp_path ak = None -> is_Some (paths pipeline_1 !! "temp")) ->
    files_1 !! "image" = Some image_1 ->
    let s1 := snd (run_sex E pipeline_1 step_1 files_1 api frames_1 s) in
    let s2 := snd (run_sex E pipeline_2 step_2 files_2 api frames_2 s1) in
    exists cfg,
      has_entry api cfg "CATALOG_NAME" (VStr (PyStr.replace ".fits" ".cat" image_1)) s1
      /\ has_entry api cfg "CATALOG_NAME" (VStr (PyStr.replace ".fits" ".cat" image_1)) s2.
Proof.
  intros E pipeline_1 pipeline_2 step_1 step_2 files_1 files_2 frames_1 frames_2 api s ak
         image_1 Hak Hc Ht Him s1 s2.
  exists (fresh (dom (heap (base s)))).
  assert (Hne : "CATALOG_NAME"%string <> "PARAMETERS_NAME"%string) by discriminate.
  assert (H1 : has_entry api (fresh (dom (heap (base s)))) "CATALOG_NAME"
                         (VStr (PyStr.replace ".fits" ".cat" image_1)) s1).
  { subst s1. unfold run_sex. apply ptriple_after.
    - now apply (sex_defaults_first pipeline_1 step_1 files_1 api s ak image_1).
    - intros _. eapply pt_bind; [apply pt_construct|]. intros sex _.
      eapply pt_bind; [apply pt_lookup_key|]. intros image _.
      destruct frames_1; apply pt_lift; [now apply keeps_run | now apply keeps_run_frames]. }
  split; [exact H1|].
  subst s2. apply (pt_run_sex _ _ _ _ E pipeline_2 step_2 files_2 frames_2 Hne s1 H1).
Qed.

(** X22 at two calls with the default dictionary, for [a.fits] and then
    for [b.fits]. *)
Lemma X22_witness :
  (kwargs_objs (initial_session ∅) !! sex_api_kwargs = Some no_kwargs
   /\ kw_config no_kwargs = None
   /\ files_a !! "image" = Some "a.fits")
  /\ exists cfg,
      has_entry sex_api_kwargs cfg "CATALOG_NAME" (VStr "a.cat")
        (snd (run_sex (plain_env [] 0) pipeline1 "step2" files_b sex_api_kwargs [2]
                (snd (run_sex (plain_env [] 0) pipeline1 "step1" files_a sex_api_kwargs []
                              (initial_session ∅))))).
Proof.
  split; [repeat split|].
  destruct (X22_run_sex_keeps_first_catalog (plain_env [] 0) pipeline1 pipeline1
              "step1" "step2" files_a files_b [] [2] sex_api_kwargs (initial_session ∅)
              no_kwargs "a.fits" eq_refl eq_refl) as (cfg & _ & H2).
  - intros _. exists "/tmp"%string. reflexivity.
  - reflexivity.
  - exists cfg. exact H2.
Defined.

(** *** A call on a dictionary that brings its [config] *)

(** The common defaults on an object with a [config]: that dictionary
    stays the configuration, and no dictionary is touched. *)
Lemma common_defaults_present pipeline code_name build_key api s ak cfg :
  kwargs_objs s !! api = Some ak ->
  kw_config ak = Some cfg ->
  (kw_temp_path ak = None -> is_Some (paths pipeline !! "temp")) ->
  exists s',
    common_defaults pipeline code_name build_key api s = (Ok cfg, s')
    /\ (exists ak', kwargs_objs s' !! api = Some ak' /\ kw_config ak' = Some cfg)
    /\ base s' = base s.
Proof.
  intros Hak Hc Ht. unfold common_defaults.
  pstep (kw_get_eq api s ak Hak).
  assert (H1 : exists s1 ak1,
             match kw_code ak with
             | Some _ => pret tt
             | None => kw_set api (with_code code_name)
             end s = (Ok tt, s1)
             /\ kwargs_objs s1 !! api = Some ak1 /\ kw_config ak1 = Some cfg
             /\ kw_temp_path ak1 = kw_temp_path ak /\ base s1 = base s).
  { destruct (kw_code ak).
    - exists s, ak. auto.
    - rewrite (kw_set_eq api _ s ak Hak). eexists. exists (with_code code_name ak).
      split; [reflexivity|]. simpl. split; [apply lookup_insert_eq | auto]. }
  destruct H1 as (s1 & ak1 & H1 & Hak1 & Hc1 & Ht1 & Hb1).
  pstep H1. pstep (kw_get_eq api s1 ak1 Hak1).
  assert (H2 : exists s2 ak2,
             match kw_cmd ak1, build_paths pipeline !! build_key with
             | None, Some c => kw_set api (with_cmd c)
             | _, _ => pret tt
             end s1 = (Ok tt, s2)
             /\ kwargs_objs s2 !! api = Some ak2 /\ kw_config ak2 = Some cfg
             /\ kw_temp_path ak2 = kw_temp_path ak1 /\ base s2 = base s1).
  { destruct (kw_cmd ak1); [exists s1, ak1; auto|].
    destruct (build_paths pipeline !! build_key) as [c|]; [|exists s1, ak1; auto].
    rewrite (kw_set_eq api _ s1 ak1 Hak1). eexists. exists (with_cmd c ak1).
    split; [reflexivity|]. simpl. split; [apply lookup_insert_eq | auto]. }
  destruct H2 as (s2 & ak2 & H2 & Hak2 & Hc2 & Ht2 & Hb2).
  pstep H2. pstep (kw_get_eq api s2 ak2 Hak2).
  assert (H3 : exists s3 ak3,
             match kw_temp_path ak2 with
             | Some _ => pret tt
             | None => pbind (lookup_key "temp" (paths pipeline))
                             (fun t => kw_set api (with_temp_path t))
             end s2 = (Ok tt, s3)
             /\ kwargs_objs s3 !! api = Some ak3 /\ kw_config ak3 = Some cfg
             /\ base s3 = base s2).
  { destruct (kw_temp_path ak2) eqn:Htp; [exists s2, ak2; auto|].
    destruct Ht as (t & Hpt); [congruence|].
    unfold pbind, lookup_key. rewrite Hpt. simpl.
    rewrite (kw_set_eq api _ s2 ak2 Hak2). eexists. exists (with_temp_path t ak2).
    split; [reflexivity|]. simpl. split; [apply lookup_insert_eq | auto]. }
  destruct H3 as (s3 & ak3 & H3 & Hak3 & Hc3 & Hb3).
  pstep H3. pstep (kw_get_eq api s3 ak3 Hak3). rewrite Hc3.
  exists s3. split; [reflexivity|]. split; [eauto | congruence].
Qed.

(** X23.  [run_scamp] with a [save_catalog]: the configuration of the
    call says [SAVE_REFCATALOG: 'Y'] and [REFOUT_CATPATH: save_catalog]
    afterwards, whatever it said about them before; unlike the other
    defaults these two replace what the caller gave. *)
Theorem X23_run_scamp_save_catalog :
  forall (E : env) (pipeline : Pipeline) (step_id : string) (catalogs : fnames)
         (api : positive) (p : string) (s : session) (ak : kwargs) (cfg : loc) (d : dict),
    kwargs_objs s !! api = Some ak ->
    kw_config ak = Some cfg ->
    heap (base s) !! cfg = Some d ->
    (kw_temp_path ak = None -> is_Some (paths pipeline !! "temp")) ->
    has_entry api cfg "SAVE_REFCATALOG" (VStr "Y")
              (snd (run_scamp E pipeline step_id catalogs api (Some p) s))
    /\ has_entry api cfg "REFOUT_CATPATH" (VStr p)
                 (snd (run_scamp E pipeline step_id catalogs api (Some p) s)).
Proof.
  intros E pipeline step_id catalogs api p s ak cfg d Hak Hc Hd Ht.
  destruct (common_defaults_present pipeline "SCAMP" "SCAMP" api s ak cfg Hak Hc Ht)
    as (s1 & H1 & (ak1 & Hak1 & Hc1) & Hb1).
  rewrite <- Hb1 in Hd.
  set (d1 := dict_set d "SAVE_REFCATALOG" (VStr "Y")).
  set (s2 := {| base := set_heap (<[ cfg := d1 ]> (heap (base s1))) (base s1);
                kwargs_objs := kwargs_objs s1 |}).
  assert (Hd2 : heap (base s2) !! cfg = Some d1) by (simpl; apply lookup_insert_eq).
  set (d2 := dict_set d1 "REFOUT_CATPATH" (VStr p)).
  set (s3 := {| base := set_heap (<[ cfg := d2 ]> (heap (base s2))) (base s2);
                kwargs_objs := kwargs_objs s2 |}).
  assert (Hsets : pbind (lift (heap_setitem cfg "SAVE_REFCATALOG" (VStr "Y")))
                        (fun _ => lift (heap_setitem cfg "REFOUT_CATPATH" (VStr p))) s1
                  = (Ok tt, s3)).
  { rewrite (pbind_eq_Ok _ _ _ _ _ (lift_heap_setitem_eq cfg _ _ s1 d Hd)).
    apply (lift_heap_setitem_eq cfg _ _ s2 d1 Hd2). }
  assert (Hrest : forall key val,
             key <> "PARAMETERS_NAME"%string ->
             dict_get d2 key = Some val ->
             has_entry api cfg key val
                       (snd (run_scamp E pipeline step_id catalogs api (Some p) s))).
  { intros key val Hne Hget. unfold run_scamp, scamp_defaults.
    apply ptriple_after.
    - pstep H1. apply ptriple_after.
      + rewrite Hsets. simpl. split.
        * exists ak1. split; [exact Hak1 | exact Hc1].
        * exists d2. split; [apply lookup_insert_eq | exact Hget].
      + intros _. apply pt_xml_defaults.
    - intros _. eapply pt_bind; [apply pt_construct|]. intros scamp _.
      apply pt_lift. now apply keeps_run. }
  split; apply Hrest; try discriminate.
  - subst d2 d1. rewrite dict_get_set_ne by discriminate. apply dict_get_set.
  - apply dict_get_set.
Qed.

(** X23 at a configuration that said [SAVE_REFCATALOG: 'N']. *)
Lemma X23_witness :
  (kwargs_objs session_scamp !! scamp_api_kwargs
   = Some {| kw_code := None; kw_temp_path := Some (Some "/tmp");
             kw_config := Some 5%positive; kw_config_file := None;
             kw_store_output := None; kw_cmd := None; kw_params := None |}
   /\ heap (base session_scamp) !! 5%positive = Some [("SAVE_REFCATALOG", VStr "N")])
  /\ has_entry scamp_api_kwargs 5%positive "SAVE_REFCATALOG" (VStr "Y")
       (snd (run_scamp (plain_env [] 0) pipeline0 "step" (Many ["a.cat"]) scamp_api_kwargs
                       (Some "ref.cat") session_scamp)).
Proof.
  split; [split; reflexivity|].
  refine (proj1 (X23_run_scamp_save_catalog (plain_env [] 0) pipeline0 "step"
                   (Many ["a.cat"]) scamp_api_kwargs "ref.cat" session_scamp _ 5%positive
                   _ eq_refl eq_refl eq_refl _)).
  discriminate.
Defined.

(** *** [run_psfex] and the temp directory of the pipeline *)

(** X24.  [run_psfex] takes the default of [PSF_DIR] from the paths of
    the pipeline, not from the [temp_path] of [api_kwargs]: with a
    [temp_path] in [api_kwargs], no [PSF_DIR] in the configuration and
    no [temp] entry in the paths of the pipeline it raises [KeyError]
    for [temp]. *)
Theorem X24_run_psfex_needs_pipeline_temp :
  forall (E : env) (pipeline : Pipeline) (step_id : string) (catalogs : fnames)
         (api : positive) (s : session) (ak : kwargs),
    kwargs_objs s !! api = Some ak ->
    is_Some (kw_temp_path ak) ->
    paths pipeline !! "temp" = None ->
    match kw_config ak with
    | None => True
    | Some cfg => exists d, heap (base s) !! cfg = Some d /\ dict_in "PSF_DIR" d = false
    end ->
    fst (run_psfex E pipeline step_id catalogs api s) = Raise (KeyError "temp").
Proof.
  intros E pipeline step_id catalogs api s ak Hak Ht Hp Hc.
  assert (Htemp : kw_temp_path ak = None -> is_Some (paths pipeline !! "temp")).
  { intros H. rewrite H in Ht. now destruct Ht. }
  assert (Hd : exists cfg s1 d,
             common_defaults pipeline "PSFEx" "PSFEx" api s = (Ok cfg, s1)
             /\ heap (base s1) !! cfg = Some d /\ dict_in "PSF_DIR" d = false).
  { destruct (kw_config ak) as [cfg|] eqn:Hk.
    - destruct Hc as (d & Hd & Hin).
      destruct (common_defaults_present pipeline "PSFEx" "PSFEx" api s ak cfg Hak Hk Htemp)
        as (s1 & H1 & _ & Hb).
      exists cfg, s1, d. rewrite Hb. auto.
    - destruct (common_defaults_fresh pipeline "PSFEx" "PSFEx" api s ak Hak Hk Htemp)
        as (s1 & H1 & _ & Hh).
      exists (fresh (dom (heap (base s)))), s1, []. split; [exact H1|].
      split; [rewrite Hh; apply lookup_insert_eq | reflexivity]. }
  destruct Hd as (cfg & s1 & d & H1 & Hd & Hin).
  assert (Hdef : fst (psfex_defaults pipeline step_id api s) = Raise (KeyError "temp")).
  { unfold psfex_defaults. pstep H1. pstep (lift_heap_get_eq cfg s1 d Hd). rewrite Hin.
    unfold pbind, lookup_key. rewrite Hp. reflexivity. }
  unfold run_psfex.
  destruct (psfex_defaults pipeline step_id api s) as [r s2] eqn:Hr. simpl in Hdef. subst r.
  now rewrite (pbind_eq_Raise _ _ _ _ _ Hr).
Qed.

(** X24 at a dictionary with a temp directory and a pipeline without. *)
Lemma X24_witness :
  (kwargs_objs session_psfex !! psfex_api_kwargs
   = Some {| kw_code := None; kw_temp_path := Some (Some "/tmp");
             kw_config := None; kw_config_file := None;
             kw_store_output := None; kw_cmd := None; kw_params := None |}
   /\ paths pipeline0 !! "temp" = None)
  /\ fst (run_psfex (plain_env [] 0) pipeline0 "step" (Many ["a.cat"]) psfex_api_kwargs
                    session_psfex) = Raise (KeyError "temp").
Proof.
  split; [split; reflexivity|].
  refine (X24_run_psfex_needs_pipeline_temp (plain_env [] 0) pipeline0 "step"
            (Many ["a.cat"]) psfex_api_kwargs session_psfex _ eq_refl _ eq_refl I).
  simpl. eauto.
Defined.
